(** * FineTunedTerm: the terminal session engine of [term66.py] (and [term3.py])

    A shallow embedding of [TerminalWidget]: the escape-sequence regular
    expression, the SGR interpreter, [append_ansi_text], process start with
    restart throttling, the key handler and [send_command]; the key handler
    of [term3.py]; of [EditPresetsDialog] the table of presets, and of
    [MainWindow] the list of terminals and the terminal focused last.

    Conventions.
    - A Python [str] is a [string], one [ascii] per character.  The embedding
      is exact for text in the range U+0000..U+00FF, where the class [\d] is
      the ten digits [0]..[9].  The two pictographs that occur in diagnostic
      literals lie outside that range; they are written as in the source and
      are therefore several [ascii] long.  No statement depends on their
      length.
    - [int] refuses a run of more than 4300 digits, as CPython does by
      default.
    - [time.time()] is a rational number of seconds.
    - The text widget the class inherits from is not part of the repository.
      It is a plain character buffer with an anchor and a caret; [text] is
      its text as [toPlainText()] gives it.  The widget itself stores a
      carriage return (alone or before a line feed) as one line break and
      gives a no-break space back as a space: inserting and typing are exact
      here for text without these two characters, and a statement about the
      text after arbitrary output or typed input has that condition
      ([verbatim]).
    - What its key handler does with a key is given by
      [QTextEdit.keyPressEvent], which looks at no modifier but Control: on
      C, on Backspace and Delete (which then remove a word) and on a key
      that types text.  What the widget does on other keys with Control
      (undo, paste, select all) is not followed, and no statement is about
      such a key reaching the inherited handler.
    - Signals, writes to the child process, spawns and calls of the inherited
      key handler are recorded, in order, in the [log] of the widget.
    - The table of the presets dialog is the list of its rows.  In the main
      window a terminal is known by the number in its [terminal_id]; closing
      the widget itself and rebuilding the layout are not part of the state
      that is followed there. *)

From Stdlib Require Import String Ascii List ZArith QArith Bool Arith Lia.
From Stdlib Require Import DecimalString.
Import ListNotations.
Close Scope Q_scope.
Open Scope nat_scope.
Open Scope list_scope.
Open Scope string_scope.

(** ** Exceptions *)

Inductive exn : Type :=
| ValueError.

(** [Ok a]: normal completion; [Raise e]: the exception [e] escapes;
    [OutOfFuel]: a bounded loop of the embedding used up its bound (shown
    below never to happen). *)
Inductive result (A : Type) : Type :=
| Ok (a : A)
| Raise (e : exn)
| OutOfFuel.
Arguments Ok {A} a.
Arguments Raise {A} e.
Arguments OutOfFuel {A}.

Definition bind {A B : Type} (r : result A) (k : A -> result B) : result B :=
  match r with
  | Ok a => k a
  | Raise e => Raise e
  | OutOfFuel => OutOfFuel
  end.

Notation "x <- r ;; k" := (bind r (fun x => k))
  (at level 61, r at next level, right associativity).

(** ** Python string primitives *)

Module Py.

Definition ESC : ascii := "027"%char.
Definition BEL : ascii := "007"%char.
Definition LF : ascii := "010"%char.

(** The one-character strings ["\n"], ["\x1b"], ["\x07"]. *)
Definition nl : string := String LF "".
Definition esc : string := String ESC "".
Definition bel : string := String BEL "".

(** [s[n:]] *)
Fixpoint drop (n : nat) (s : string) : string :=
  match n, s with
  | O, _ => s
  | S _, "" => ""
  | S n', String _ s' => drop n' s'
  end.

(** [s[:n]] *)
Fixpoint take (n : nat) (s : string) : string :=
  match n, s with
  | O, _ => ""
  | S _, "" => ""
  | S n', String c s' => String c (take n' s')
  end.

(** [s[i:j]] for [0 <= i], [0 <= j]. *)
Definition slice (i j : nat) (s : string) : string :=
  take (j - i) (drop i s).

Definition is_empty (s : string) : bool :=
  match s with "" => true | _ => false end.

(** [s.split(sep)] for a one-character separator. *)
Fixpoint split (sep : ascii) (s : string) : list string :=
  match s with
  | "" => [""]
  | String c s' =>
      if Ascii.eqb c sep then "" :: split sep s'
      else match split sep s' with
           | h :: t => String c h :: t
           | [] => [String c ""]
           end
  end.

(** [s.rstrip(c)] for a one-character argument. *)
Fixpoint rstrip (c : ascii) (s : string) : string :=
  match s with
  | "" => ""
  | String a s' =>
      let r := rstrip c s' in
      if Ascii.eqb a c && is_empty r then "" else String a r
  end.

(** [sep.join(l)] *)
Definition join (sep : string) (l : list string) : string :=
  String.concat sep l.

Definition is_digit (c : ascii) : bool :=
  let n := nat_of_ascii c in ((48 <=? n) && (n <=? 57))%nat.

Definition digit_value (c : ascii) : Z := Z.of_nat (nat_of_ascii c - 48).

Fixpoint all_digits (s : string) : bool :=
  match s with
  | "" => true
  | String c s' => is_digit c && all_digits s'
  end.

Fixpoint decimal (acc : Z) (s : string) : Z :=
  match s with
  | "" => acc
  | String c s' => decimal (10 * acc + digit_value c) s'
  end.

(** CPython refuses to convert more than this many digits
    ([sys.get_int_max_str_digits()], default value). *)
Definition int_max_str_digits : nat := 4300.

(** [int(s)] on the strings the parser hands to it (digits and [?] only, no
    sign, blank or underscore can occur): the value of a non-empty run of
    digits, [ValueError] otherwise. *)
Definition int (s : string) : result Z :=
  if negb (is_empty s) && all_digits s && (String.length s <=? int_max_str_digits)%nat
  then Ok (decimal 0 s)
  else Raise ValueError.

Definition lower_char (c : ascii) : ascii :=
  let n := nat_of_ascii c in
  if ((65 <=? n) && (n <=? 90))%nat then ascii_of_nat (n + 32) else c.

(** [s.lower()] on ASCII letters. *)
Fixpoint lower (s : string) : string :=
  match s with
  | "" => ""
  | String c s' => String (lower_char c) (lower s')
  end.

(** [sub in s] *)
Fixpoint contains (sub s : string) : bool :=
  String.prefix sub s ||
  match s with
  | "" => false
  | String _ s' => contains sub s'
  end.

End Py.

(** ** The escape-sequence regular expression *)

Module Re.
Import Py.

(** A match object: its span and its seven groups, [None] for a group that
    did not take part in the match. *)
Record Match : Type := mkMatch {
  m_start : nat;
  m_end : nat;
  g_sgr : option string;
  g_osc_t : option string;
  g_osc_c : option string;
  g_csi_p : option string;
  g_csi_l : option string;
  g_cs : option string;
  g_sc : option string
}.

(** The groups of a match together with the number of characters matched. *)
Record Groups : Type := mkGroups {
  width : nat;
  sgr : option string;
  osc_t : option string;
  osc_c : option string;
  csi_p : option string;
  csi_l : option string;
  cs : option string;
  sc : option string
}.

Definition no_groups (w : nat) : Groups :=
  mkGroups w None None None None None None None.

(** Longest prefix of [s] whose characters satisfy [p], and what follows it.
    A starred class followed by characters outside the class can only match
    this way. *)
Fixpoint span (p : ascii -> bool) (s : string) : string * string :=
  match s with
  | "" => ("", "")
  | String c s' =>
      if p c then let (run, rest) := span p s' in (String c run, rest)
      else ("", s)
  end.

Definition one_of (set : string) (c : ascii) : bool :=
  existsb (Ascii.eqb c) (list_ascii_of_string set).

(** The class of digits, [;] and [?]. *)
Definition sgr_char (c : ascii) : bool := is_digit c || one_of ";?" c.
(** The class of digits and [;]. *)
Definition csi_char (c : ascii) : bool := is_digit c || one_of ";" c.
(** The class of every character but BEL and ESC. *)
Definition osc_char (c : ascii) : bool :=
  negb (Ascii.eqb c BEL || Ascii.eqb c ESC).

(** SGR: an opening bracket, group 1 = any number of digits, [;] and [?],
    then [m].  Tried, like the other alternatives, on what follows the escape
    character. *)
Definition alt_sgr (r : string) : option Groups :=
  match r with
  | String c r1 =>
      if Ascii.eqb c "[" then
        let (run, r2) := span sgr_char r1 in
        match r2 with
        | String t _ =>
            if Ascii.eqb t "m" then
              Some (mkGroups (3 + String.length run)
                      (Some run) None None None None None None)
            else None
        | "" => None
        end
      else None
  | "" => None
  end.

(** OSC: a closing bracket, group 2 = one of [0], [1], [2], then [;],
    group 3 = any number of characters other than BEL and ESC, then BEL or
    ESC followed by a backslash. *)
Definition alt_osc (r : string) : option Groups :=
  match r with
  | String c (String n (String sc r1)) =>
      if Ascii.eqb c "]" && one_of "012" n && Ascii.eqb sc ";" then
        let (payload, r2) := span osc_char r1 in
        let found (term : nat) :=
          Some (mkGroups (4 + String.length payload + term)
                  None (Some (String n "")) (Some payload) None None None None) in
        match r2 with
        | String t r3 =>
            if Ascii.eqb t BEL then found 1
            else if Ascii.eqb t ESC then
              match r3 with
              | String b _ => if Ascii.eqb b "\" then found 2 else None
              | "" => None
              end
            else None
        | "" => None
        end
      else None
  | _ => None
  end.

(** CSI cursor/erase: an opening bracket, group 4 = any number of digits
    and [;], group 5 = one of [H], [J], [K]. *)
Definition alt_csi (r : string) : option Groups :=
  match r with
  | String c r1 =>
      if Ascii.eqb c "[" then
        let (run, r2) := span csi_char r1 in
        match r2 with
        | String l _ =>
            if one_of "HJK" l then
              Some (mkGroups (3 + String.length run)
                      None None None (Some run) (Some (String l "")) None None)
            else None
        | "" => None
        end
      else None
  | "" => None
  end.

(** Character set: group 6 = a parenthesis followed by one of [0], [1],
    [2], [A], [B]. *)
Definition alt_charset (r : string) : option Groups :=
  match r with
  | String a (String b _) =>
      if one_of "()" a && one_of "012AB" b then
        Some (mkGroups 3 None None None None None
                (Some (String a (String b ""))) None)
      else None
  | _ => None
  end.

(** Other modes: group 7 = one of [E], [N], [O], [M]. *)
Definition alt_mode (r : string) : option Groups :=
  match r with
  | String a _ =>
      if one_of "ENOM" a then
        Some (mkGroups 2 None None None None None None (Some (String a "")))
      else None
  | "" => None
  end.

(** Keypad modes: [=] or [>], no group. *)
Definition alt_keypad (r : string) : option Groups :=
  match r with
  | String a _ => if one_of "=>" a then Some (no_groups 2) else None
  | "" => None
  end.

Definition or_else {A : Type} (a b : option A) : option A :=
  match a with Some _ => a | None => b end.

(** The alternatives after the escape character, in the order of the
    pattern; the first that matches wins. *)
Definition match_after_esc (r : string) : option Groups :=
  or_else (alt_sgr r)
    (or_else (alt_osc r)
       (or_else (alt_csi r)
          (or_else (alt_charset r)
             (or_else (alt_mode r) (alt_keypad r))))).

(** [ansi_escape_regex.match(s)]: a match anchored at the start of [s]. *)
Definition match_here (s : string) : option Groups :=
  match s with
  | String c r => if Ascii.eqb c ESC then match_after_esc r else None
  | "" => None
  end.

Definition to_match (pos : nat) (g : Groups) : Match :=
  mkMatch pos (pos + width g)
    (sgr g) (osc_t g) (osc_c g) (csi_p g) (csi_l g) (cs g) (sc g).

(** The scan behind [finditer]: [s] is the text from position [pos] on, of
    which the first [skip] characters belong to the match found last.  A
    match is never empty, so the scan resumes right after it; where nothing
    matches it moves on by one character. *)
Fixpoint scan (skip pos : nat) (s : string) : list Match :=
  match s with
  | "" => []
  | String _ s' =>
      match skip with
      | S k => scan k (S pos) s'
      | O =>
          match match_here s with
          | Some g => to_match pos g :: scan (width g - 1) (S pos) s'
          | None => scan 0 (S pos) s'
          end
      end
  end.

(** [ansi_escape_regex.finditer(text)] *)
Definition finditer (text : string) : list Match := scan 0 0 text.

End Re.

(** ** Colours, fonts and character formats *)

(** A [QColor] is kept as the name or hexadecimal code it is built from. *)
Definition QColor : Type := string.

Definition DEFAULT_FG_COLOR : QColor := "white".
Definition DEFAULT_BG_COLOR : QColor := "black".

Definition ANSI_SGR_CODES_TO_COLORS : list (Z * QColor) :=
  [ (30, "black"); (31, "#CD0000"); (32, "#00CD00");
    (33, "#CDCD00"); (34, "#0000EE"); (35, "#CD00CD");
    (36, "#00CDCD"); (37, "#E5E5E5"); (39, DEFAULT_FG_COLOR);
    (40, "black"); (41, "#CD0000"); (42, "#00CD00");
    (43, "#CDCD00"); (44, "#0000EE"); (45, "#CD00CD");
    (46, "#00CDCD"); (47, "#E5E5E5"); (49, DEFAULT_BG_COLOR);
    (90, "#7F7F7F"); (91, "red"); (92, "green");
    (93, "yellow"); (94, "blue"); (95, "magenta");
    (96, "cyan"); (97, "white");
    (100, "#7F7F7F"); (101, "red"); (102, "green");
    (103, "yellow"); (104, "blue"); (105, "magenta");
    (106, "cyan"); (107, "white") ]%Z.

(** [d[k]] guarded by [k in d]: [None] when the key is absent. *)
Fixpoint dict_get {V : Type} (d : list (Z * V)) (k : Z) : option V :=
  match d with
  | [] => None
  | (k', v) :: d' => if (k =? k')%Z then Some v else dict_get d' k
  end.

(** [QFont.Weight] *)
Module Weight.
Definition Normal : Z := 400.
Definition Bold : Z := 700.
End Weight.

Record QFont : Type := mkFont {
  family : string;
  pointSize : Z;
  weight : Z;
  italic : bool;
  underline : bool
}.

Definition DEFAULT_FONT : QFont :=
  mkFont "Courier New" 10 Weight.Normal false false.

(** The five properties of a [QTextCharFormat] the class sets. *)
Record QTextCharFormat : Type := mkFormat {
  foreground : QColor;
  background : QColor;
  fontWeight : Z;
  fontItalic : bool;
  fontUnderline : bool
}.

Definition setForeground (c : QColor) (f : QTextCharFormat) : QTextCharFormat :=
  mkFormat c (background f) (fontWeight f) (fontItalic f) (fontUnderline f).
Definition setBackground (c : QColor) (f : QTextCharFormat) : QTextCharFormat :=
  mkFormat (foreground f) c (fontWeight f) (fontItalic f) (fontUnderline f).
Definition setFontWeight (x : Z) (f : QTextCharFormat) : QTextCharFormat :=
  mkFormat (foreground f) (background f) x (fontItalic f) (fontUnderline f).
Definition setFontItalic (b : bool) (f : QTextCharFormat) : QTextCharFormat :=
  mkFormat (foreground f) (background f) (fontWeight f) b (fontUnderline f).
Definition setFontUnderline (b : bool) (f : QTextCharFormat) : QTextCharFormat :=
  mkFormat (foreground f) (background f) (fontWeight f) (fontItalic f) b.

(** A freshly constructed [QTextCharFormat()]: no brush, normal font. *)
Definition QTextCharFormat_new : QTextCharFormat :=
  mkFormat "" "" Weight.Normal false false.

(** The default style state of the specification. *)
Definition default_format : QTextCharFormat :=
  mkFormat DEFAULT_FG_COLOR DEFAULT_BG_COLOR Weight.Normal false false.

(** ** Key events *)

Inductive Key : Type :=
| Key_C | Key_Backspace | Key_Delete | Key_Return | Key_Enter
| Key_Left | Key_Right | Key_Up | Key_Down
| Key_PageUp | Key_PageDown | Key_Home | Key_End
| Key_Other.

Definition Key_eqb (a b : Key) : bool :=
  match a, b with
  | Key_C, Key_C | Key_Backspace, Key_Backspace | Key_Delete, Key_Delete
  | Key_Return, Key_Return | Key_Enter, Key_Enter
  | Key_Left, Key_Left | Key_Right, Key_Right | Key_Up, Key_Up
  | Key_Down, Key_Down | Key_PageUp, Key_PageUp
  | Key_PageDown, Key_PageDown | Key_Home, Key_Home | Key_End, Key_End
  | Key_Other, Key_Other => true
  | _, _ => false
  end.

(** A [QKeyEvent]: [ev.key()], whether [ev.modifiers()] holds
    [ControlModifier], the text the key types ([ev.text()] where the
    inherited handler takes it as input of text, nothing otherwise), and the
    place where the inherited widget lets the caret land: for a navigation
    key the place the caret moves to, for Backspace or Delete with Control
    the start of the word before the caret or the end of the word after
    it. *)
Record QKeyEvent : Type := mkKeyEvent {
  key : Key;
  control : bool;
  typed : string;
  landing : nat
}.

(** ** The widget *)

(** What the widget does to the outside, in the order it does it. *)
Inductive Event : Type :=
| TextRun (seg : string) (fmt : QTextCharFormat)
    (* insertPlainText(seg) under the current character format *)
| TitleChanged (title : string)          (* titleChanged.emit(title) *)
| ScreenClear                            (* self.clear() *)
| ProcessStart (program : string) (args : list string)
    (* self.process.start(program, args) *)
| ProcessWrite (data : string)
    (* self.process.write(data.encode(...)), the text before encoding *)
| SuperKeyPress (ev : QKeyEvent).        (* super().keyPressEvent(ev) *)

Record TerminalWidget : Type := mkWidget {
  terminal_id : string;
  current_font : option QFont;
  current_format : QTextCharFormat;
  (* the inherited text widget: document text, text cursor, format of the
     text inserted next *)
  text : string;
  anchor : nat;
  position : nat;
  char_format : QTextCharFormat;
  (* fields of the class *)
  input_start_pos : nat;
  process_running : bool;
  restart_count : Z;
  last_started : Q;
  log : list Event
}.

Definition set_current_format (f : QTextCharFormat) (w : TerminalWidget) :=
  mkWidget (terminal_id w) (current_font w) f (text w) (anchor w) (position w)
    (char_format w) (input_start_pos w) (process_running w) (restart_count w)
    (last_started w) (log w).
Definition set_buffer (t : string) (a p : nat) (w : TerminalWidget) :=
  mkWidget (terminal_id w) (current_font w) (current_format w) t a p
    (char_format w) (input_start_pos w) (process_running w) (restart_count w)
    (last_started w) (log w).
Definition set_char_format (f : QTextCharFormat) (w : TerminalWidget) :=
  mkWidget (terminal_id w) (current_font w) (current_format w) (text w)
    (anchor w) (position w) f (input_start_pos w) (process_running w)
    (restart_count w) (last_started w) (log w).
Definition set_input_start_pos (n : nat) (w : TerminalWidget) :=
  mkWidget (terminal_id w) (current_font w) (current_format w) (text w)
    (anchor w) (position w) (char_format w) n (process_running w)
    (restart_count w) (last_started w) (log w).
Definition set_process_running (b : bool) (w : TerminalWidget) :=
  mkWidget (terminal_id w) (current_font w) (current_format w) (text w)
    (anchor w) (position w) (char_format w) (input_start_pos w) b
    (restart_count w) (last_started w) (log w).
Definition set_restart_count (n : Z) (w : TerminalWidget) :=
  mkWidget (terminal_id w) (current_font w) (current_format w) (text w)
    (anchor w) (position w) (char_format w) (input_start_pos w)
    (process_running w) n (last_started w) (log w).
Definition set_last_started (t : Q) (w : TerminalWidget) :=
  mkWidget (terminal_id w) (current_font w) (current_format w) (text w)
    (anchor w) (position w) (char_format w) (input_start_pos w)
    (process_running w) (restart_count w) t (log w).
Definition emit (e : Event) (w : TerminalWidget) :=
  mkWidget (terminal_id w) (current_font w) (current_format w) (text w)
    (anchor w) (position w) (char_format w) (input_start_pos w)
    (process_running w) (restart_count w) (last_started w) (log w ++ [e])%list.

(** *** The inherited text widget *)

Module QTextEdit.
Import Py.

Definition hasSelection (w : TerminalWidget) : bool :=
  negb (anchor w =? position w)%nat.

Definition selectionStart (w : TerminalWidget) : nat :=
  Nat.min (anchor w) (position w).
Definition selectionEnd (w : TerminalWidget) : nat :=
  Nat.max (anchor w) (position w).

(** [self.moveCursor(QTextCursor.MoveOperation.End)] *)
Definition moveCursor_End (w : TerminalWidget) : TerminalWidget :=
  let n := String.length (text w) in set_buffer (text w) n n w.

(** [self.document().toPlainText()]: [text] is the text as this method gives
    it. *)
Definition toPlainText (w : TerminalWidget) : string := text w.

(** [self.setCurrentCharFormat(f)] *)
Definition setCurrentCharFormat (f : QTextCharFormat) (w : TerminalWidget)
  : TerminalWidget := set_char_format f w.

(** The text [s] takes the place of the selection (of nothing, at the caret,
    when there is none); the caret ends up behind it. *)
Definition replace_selection (s : string) (w : TerminalWidget) : TerminalWidget :=
  let lo := selectionStart w in
  let hi := selectionEnd w in
  let p := (lo + String.length s)%nat in
  set_buffer (take lo (text w) ++ s ++ drop hi (text w)) p p w.

(** [self.insertPlainText(s)]: the run is recorded as it is given; the text
    grows by [s] as it stands, which is what the widget does for [s] without
    carriage return and no-break space. *)
Definition insertPlainText (s : string) (w : TerminalWidget) : TerminalWidget :=
  emit (TextRun s (char_format w)) (replace_selection s w).

(** [self.clear()] *)
Definition clear (w : TerminalWidget) : TerminalWidget :=
  emit ScreenClear (set_buffer "" 0 0 w).

Definition goto (p : nat) (w : TerminalWidget) : TerminalWidget :=
  let q := Nat.min p (String.length (text w)) in set_buffer (text w) q q w.

(** What the inherited handler does with a key: Backspace and Delete remove
    the selection or, without one, the character before or after the caret,
    and with Control everything from the start of the word before the caret
    up to it, or from it to the end of the word after it; Return and Enter
    put a line break in place of the selection; a navigation key moves the
    caret; Control-C copies and leaves the widget as it is; any other key
    types its text. *)
Definition keyPressEvent (ev : QKeyEvent) (w : TerminalWidget) : TerminalWidget :=
  let w := emit (SuperKeyPress ev) w in
  match key ev with
  | Key_Backspace =>
      if hasSelection w then replace_selection "" w
      else
        let p := position w in
        if control ev then
          let q := Nat.min (landing ev) p in
          set_buffer (take q (text w) ++ drop p (text w)) q q w
        else if (0 <? p)%nat
        then set_buffer (take (p - 1) (text w) ++ drop p (text w)) (p - 1) (p - 1) w
        else w
  | Key_Delete =>
      if hasSelection w then replace_selection "" w
      else
        let p := position w in
        if control ev then
          let q := Nat.max (landing ev) p in
          set_buffer (take p (text w) ++ drop q (text w)) p p w
        else set_buffer (take p (text w) ++ drop (p + 1) (text w)) p p w
  | Key_Return | Key_Enter => replace_selection nl w
  | Key_Left | Key_Right | Key_Up | Key_Down
  | Key_PageUp | Key_PageDown | Key_Home | Key_End => goto (landing ev) w
  | Key_C =>
      if control ev then w else replace_selection (typed ev) w
  | Key_Other =>
      if control ev then w else replace_selection (typed ev) w
  end.

End QTextEdit.

(** ** [TerminalWidget] of [term66.py] *)

Import Py Re.

(** Truth value of an optional string: [None] and [""] are false. *)
Definition truthy (o : option string) : bool :=
  match o with
  | Some s => negb (is_empty s)
  | None => false
  end.

(** [x in (a, b, ...)] on strings. *)
Definition str_in (x : string) (l : list string) : bool :=
  existsb (String.eqb x) l.

Definition _reset_char_format_to_default (w : TerminalWidget) : TerminalWidget :=
  let f := current_format w in
  let f := setForeground DEFAULT_FG_COLOR f in
  let f := setBackground DEFAULT_BG_COLOR f in
  let f := setFontWeight
             (match current_font w with
              | Some font => weight font
              | None => Weight.Normal
              end) f in
  let f := setFontItalic
             (match current_font w with
              | Some font => italic font
              | None => false
              end) f in
  let f := setFontUnderline
             (match current_font w with
              | Some font => underline font
              | None => false
              end) f in
  (* Explicitly reset SGR sensitive properties to their typical defaults *)
  let f := setFontWeight Weight.Normal f in
  let f := setFontItalic false f in
  let f := setFontUnderline false f in
  set_current_format f w.

Definition between (lo hi x : Z) : bool := ((lo <=? x) && (x <=? hi))%Z.

Definition _apply_sgr_code (code : Z) (w : TerminalWidget) : TerminalWidget :=
  let on_format (g : QTextCharFormat -> QTextCharFormat) :=
    set_current_format (g (current_format w)) w in
  if (code =? 0)%Z then _reset_char_format_to_default w
  else if (code =? 1)%Z then on_format (setFontWeight Weight.Bold)
  else if (code =? 3)%Z then on_format (setFontItalic true)
  else if (code =? 4)%Z then on_format (setFontUnderline true)
  else
    match dict_get ANSI_SGR_CODES_TO_COLORS code with
    | Some color =>
        if between 30 37 code || between 90 97 code || (code =? 39)%Z
        then on_format (setForeground color)
        else if between 40 47 code || between 100 107 code || (code =? 49)%Z
        then on_format (setBackground color)
        else w
    | None =>
        if (code =? 22)%Z then on_format (setFontWeight Weight.Normal)
        else if (code =? 23)%Z then on_format (setFontItalic false)
        else if (code =? 24)%Z then on_format (setFontUnderline false)
        else if (code =? 38)%Z then w
        else if (code =? 48)%Z then w
        else w
    end.

(** The [while idx < len(parts)] loop over the parameters of one SGR
    sequence.  Every round moves [idx] up, so [len(parts)] rounds are
    enough; [fuel] bounds their number. *)
Fixpoint sgr_loop (fuel : nat) (parts : list string) (idx : nat)
    (w : TerminalWidget) : result TerminalWidget :=
  if (idx <? List.length parts)%nat then
    match fuel with
    | O => OutOfFuel
    | S fuel' =>
        let part := nth idx parts "" in
        match (if is_empty part then Ok 0%Z else int part) with
        | Raise ValueError =>
            (* idx += 1; continue *)
            sgr_loop fuel' parts (idx + 1) w
        | OutOfFuel => OutOfFuel
        | Ok code =>
            if (code =? 38)%Z || (code =? 48)%Z then
              let idx' :=
                if (idx + 1 <? List.length parts)%nat then
                  match int (nth (idx + 1) parts "") with
                  | Ok color_mode =>
                      if (color_mode =? 5)%Z then
                        if (idx + 2 <? List.length parts)%nat
                        then (idx + 2)%nat
                        else idx
                      else if (color_mode =? 2)%Z then
                        if (idx + 4 <? List.length parts)%nat
                        then (idx + 4)%nat
                        else idx
                      else (idx + 1)%nat
                  | _ => idx      (* except ValueError: pass *)
                  end
                else idx in
              sgr_loop fuel' parts (idx' + 1) w
            else
              sgr_loop fuel' parts (idx + 1) (_apply_sgr_code code w)
        end
    end
  else Ok w.

(** The branch [if sgr is not None]. *)
Definition handle_sgr (sgr : string) (w : TerminalWidget) : result TerminalWidget :=
  let parts := if negb (is_empty sgr) then split ";" sgr else ["0"] in
  sgr_loop (List.length parts) parts 0 w.

(** The body of [for m in self.ansi_escape_regex.finditer(text)], after the
    text before the match has been inserted. *)
Definition handle_match (m : Match) (w : TerminalWidget) : result TerminalWidget :=
  match g_sgr m with
  | Some sgr => handle_sgr sgr w
  | None =>
      if truthy (g_osc_t m) && truthy (g_osc_c m) then
        match g_osc_t m, g_osc_c m with
        | Some osc_t, Some osc_c =>
            if str_in osc_t ["0"; "1"; "2"]
            then Ok (emit (TitleChanged osc_c) w)
            else Ok w
        | _, _ => Ok w
        end
      else
        match g_csi_p m, g_csi_l m with
        | Some csi_p, Some csi_l =>
            if String.eqb csi_l "J" then
              if String.eqb csi_p "2"
              then Ok (_reset_char_format_to_default (QTextEdit.clear w))
              else Ok w
            else if String.eqb csi_l "K" then Ok w
            else Ok w
        | _, _ => Ok w
        end
  end.

(** [setCurrentCharFormat(self.current_format)] then [insertPlainText(seg)]. *)
Definition insert_styled (seg : string) (w : TerminalWidget) : TerminalWidget :=
  QTextEdit.insertPlainText seg
    (QTextEdit.setCurrentCharFormat (current_format w) w).

(** The [for] loop of [append_ansi_text]; [last] is the end of the match
    handled before.  It yields the final [last] and the widget. *)
Fixpoint for_matches (text : string) (ms : list Match) (last : nat)
    (w : TerminalWidget) : result (nat * TerminalWidget) :=
  match ms with
  | [] => Ok (last, w)
  | m :: ms' =>
      let s := m_start m in
      let e := m_end m in
      let w := if (last <? s)%nat then insert_styled (slice last s text) w
               else w in
      w <- handle_match m w ;;
      for_matches text ms' e w
  end.

Definition append_ansi_text (text : string) (w : TerminalWidget)
  : result TerminalWidget :=
  let w := QTextEdit.moveCursor_End w in
  lw <- for_matches text (finditer text) 0 w ;;
  let (last, w) := (lw : nat * TerminalWidget) in
  let w := if (last <? String.length text)%nat
           then insert_styled (drop last text) w
           else w in
  let w := QTextEdit.moveCursor_End w in
  (* ensureCursorVisible() scrolls the view and changes nothing here *)
  Ok (set_input_start_pos (position w) w).

(** [str(n)] for an integer. *)
Definition str_of_Z (n : Z) : string :=
  DecimalString.NilZero.string_of_int (Z.to_int n).

(** [a or b] on optional strings. *)
Definition py_or (a b : option string) : option string :=
  if truthy a then a else b.

(** [self.process.write(data.encode(...))] *)
Definition process_write (data : string) (w : TerminalWidget) : TerminalWidget :=
  emit (ProcessWrite data) w.

(** [TerminalWidget(parent, terminal_id, initial_font)], up to the point where
    [start_process] is scheduled on the event loop. *)
Definition __init__ (terminal_id : string) (initial_font : option QFont)
  : TerminalWidget :=
  let font := match initial_font with
              | Some f => f
              | None => DEFAULT_FONT
              end in
  let w := mkWidget terminal_id (Some font) QTextCharFormat_new
             "" 0 0 QTextCharFormat_new 0 false 0%Z 0%Q [] in
  let w := _reset_char_format_to_default w in
  QTextEdit.setCurrentCharFormat (current_format w) w.

(** What [start_process] reads from its surroundings: the clock, the search
    path, the platform's [os.path.basename], and whether the child process
    came up within the three seconds [waitForStarted(3000)] allows. *)
Record StartEnv : Type := mkStartEnv {
  now : Q;
  which : string -> option string;
  basename : string -> string;
  waitForStarted : bool
}.

(** The [return] (or the end) through which [start_process] is left. *)
Inductive StartOutcome : Type :=
| AlreadyRunning
| RestartThrottled
| ShellNotFound
| StartTimeout
| Started.

Definition Qltb (a b : Q) : bool := negb (Qle_bool b a).

Definition start_process (env : StartEnv) (w : TerminalWidget)
  : result (StartOutcome * TerminalWidget) :=
  if process_running w then Ok (AlreadyRunning, w)
  else
    let now := now env in
    let rapid := Qltb 0 (now - last_started w) && Qltb (now - last_started w) 2 in
    let w := if rapid then set_restart_count (restart_count w + 1) w
             else set_restart_count 0 w in
    if rapid && (3 <? restart_count w)%Z then
      w <- append_ansi_text
             (esc ++ "[31m⚠️ [" ++ terminal_id w
                  ++ "] Too many restarts. Shell disabled." ++ esc ++ "[0m" ++ nl) w ;;
      Ok (RestartThrottled, w)
    else
      let w := set_last_started now w in
      let shell_executable :=
        py_or (which env "bash")
          (py_or (which env "powershell.exe") (which env "cmd.exe")) in
      if negb (truthy shell_executable) then
        w <- append_ansi_text
               (esc ++ "[31m⚠️ [" ++ terminal_id w
                    ++ "] No shell found (bash, powershell, cmd)." ++ esc ++ "[0m" ++ nl) w ;;
        Ok (ShellNotFound, w)
      else
        let shell_executable :=
          match shell_executable with Some p => p | None => "" end in
        let args := if contains "bash" (lower shell_executable)
                    then ["--login"; "-i"] else [] in
        w <- append_ansi_text
               ("[" ++ terminal_id w ++ "] Starting "
                    ++ basename env shell_executable ++ " " ++ join " " args
                    ++ "..." ++ nl) w ;;
        let w := emit (ProcessStart shell_executable args) w in
        if negb (waitForStarted env) then
          w <- append_ansi_text
                 (esc ++ "[31m⚠️ Failed to start shell: "
                      ++ basename env shell_executable ++ "." ++ esc ++ "[0m" ++ nl) w ;;
          Ok (StartTimeout, set_process_running false w)
        else
          Ok (Started, set_process_running true w).

(** [read_stdout] and [read_stderr], on the text decoded from the pipe. *)
Definition read_stdout (data : string) (w : TerminalWidget) : result TerminalWidget :=
  append_ansi_text data w.
Definition read_stderr (data : string) (w : TerminalWidget) : result TerminalWidget :=
  append_ansi_text data w.

Inductive ExitStatus : Type := NormalExit | CrashExit.

Definition process_finished (exitCode : Z) (exitStatus : ExitStatus)
    (w : TerminalWidget) : result TerminalWidget :=
  let status_str := match exitStatus with
                    | CrashExit => "crashed"
                    | NormalExit => "finished"
                    end in
  let message := nl ++ esc ++ "[33m[" ++ terminal_id w ++ "] Shell process "
                    ++ status_str ++ " with code " ++ str_of_Z exitCode
                    ++ "." ++ esc ++ "[0m" ++ nl in
  w <- append_ansi_text message w ;;
  Ok (set_process_running false w).

Definition is_navigation (k : Key) : bool :=
  match k with
  | Key_Left | Key_Right | Key_Up | Key_Down
  | Key_PageUp | Key_PageDown | Key_Home | Key_End => true
  | _ => false
  end.

Definition keyPressEvent (ev : QKeyEvent) (w : TerminalWidget)
  : result TerminalWidget :=
  (* cursor = self.textCursor(): the cursor as it is on entry *)
  let cursor_hasSelection := QTextEdit.hasSelection w in
  if Key_eqb (key ev) Key_C && control ev then
    if process_running w then
      if QTextEdit.hasSelection w then Ok (QTextEdit.keyPressEvent ev w)
      else Ok (process_write (String "003" "") w)
    else Ok (QTextEdit.keyPressEvent ev w)
  else
    let w := if negb cursor_hasSelection then QTextEdit.moveCursor_End w
             else w in
    let current_cursor_pos := position w in
    if Key_eqb (key ev) Key_Backspace then
      if cursor_hasSelection || (input_start_pos w <? current_cursor_pos)%nat
      then Ok (QTextEdit.keyPressEvent ev w)
      else Ok w
    else if Key_eqb (key ev) Key_Delete then
      if cursor_hasSelection || (input_start_pos w <=? current_cursor_pos)%nat
      then Ok (QTextEdit.keyPressEvent ev w)
      else Ok w
    else if negb cursor_hasSelection
            && (current_cursor_pos <? input_start_pos w)%nat then
      if is_navigation (key ev) then Ok (QTextEdit.keyPressEvent ev w)
      else Ok w
    else if Key_eqb (key ev) Key_Return || Key_eqb (key ev) Key_Enter then
      let w := QTextEdit.moveCursor_End w in
      let txt_to_send := drop (input_start_pos w) (QTextEdit.toPlainText w) in
      let cmd := rstrip LF txt_to_send in
      w <- (if process_running w then Ok (process_write (cmd ++ nl) w)
            else append_ansi_text
                   (esc ++ "[31mShell not running." ++ esc ++ "[0m" ++ nl) w) ;;
      let w := QTextEdit.keyPressEvent ev w in
      Ok (set_input_start_pos (position w) w)
    else Ok (QTextEdit.keyPressEvent ev w).

Definition send_command (cmd : string) (append_enter : bool) (w : TerminalWidget)
  : result TerminalWidget :=
  if process_running w then
    let w := QTextEdit.moveCursor_End w in
    let data := cmd ++ (if append_enter then nl else "") in
    Ok (process_write data w)
  else
    append_ansi_text
      (esc ++ "[31m[" ++ terminal_id w
           ++ "] ❌ Not running. Cannot send command." ++ esc ++ "[0m" ++ nl) w.

(** ** [TerminalWidget] of [term3.py]: the SGR interpreter and
    [append_ansi_text] of the earliest iteration *)

Module Term3.

Definition _reset_char_format_to_default (w : TerminalWidget) : TerminalWidget :=
  let f := current_format w in
  let f := setForeground DEFAULT_FG_COLOR f in
  let f := setBackground DEFAULT_BG_COLOR f in
  let f := setFontWeight Weight.Normal f in
  let f := setFontItalic false f in
  let f := setFontUnderline false f in
  set_current_format f w.

Definition _apply_sgr_code (code : Z) (w : TerminalWidget) : TerminalWidget :=
  let on_format (g : QTextCharFormat -> QTextCharFormat) :=
    set_current_format (g (current_format w)) w in
  if (code =? 0)%Z then _reset_char_format_to_default w
  else if (code =? 1)%Z then on_format (setFontWeight Weight.Bold)
  else if (code =? 3)%Z then on_format (setFontItalic true)
  else if (code =? 4)%Z then on_format (setFontUnderline true)
  else
    match dict_get ANSI_SGR_CODES_TO_COLORS code with
    | Some color =>
        if between 30 37 code || between 90 97 code || (code =? 39)%Z
        then on_format (setForeground color)
        else if between 40 47 code || between 100 107 code || (code =? 49)%Z
        then on_format (setBackground color)
        else w
    | None =>
        if (code =? 38)%Z then w
        else if (code =? 48)%Z then w
        else w
    end.

(** The [while] loop; here [int(parts[idx+1])] stands outside any [try]. *)
Fixpoint sgr_loop (fuel : nat) (parts : list string) (idx : nat)
    (w : TerminalWidget) : result TerminalWidget :=
  if (idx <? List.length parts)%nat then
    match fuel with
    | O => OutOfFuel
    | S fuel' =>
        let part := nth idx parts "" in
        match (if is_empty part then Ok 0%Z else int part) with
        | Raise ValueError =>
            (* idx += 1; continue *)
            sgr_loop fuel' parts (idx + 1) w
        | OutOfFuel => OutOfFuel
        | Ok code =>
            if (code =? 38)%Z || (code =? 48)%Z then
              idx' <-
                (if (idx + 1 <? List.length parts)%nat then
                   color_mode <- int (nth (idx + 1) parts "") ;;
                   if (color_mode =? 5)%Z && (idx + 2 <? List.length parts)%nat
                   then Ok (idx + 2)%nat
                   else if (color_mode =? 2)%Z && (idx + 4 <? List.length parts)%nat
                   then Ok (idx + 4)%nat
                   else Ok idx
                 else Ok idx) ;;
              sgr_loop fuel' parts (idx' + 1) w
            else
              sgr_loop fuel' parts (idx + 1) (_apply_sgr_code code w)
        end
    end
  else Ok w.

Definition handle_sgr (sgr : string) (w : TerminalWidget) : result TerminalWidget :=
  let parts := if negb (is_empty sgr) then split ";" sgr else ["0"] in
  sgr_loop (List.length parts) parts 0 w.

Definition handle_match (m : Match) (w : TerminalWidget) : result TerminalWidget :=
  match g_sgr m with
  | Some sgr => handle_sgr sgr w
  | None =>
      if truthy (g_osc_t m) && truthy (g_osc_c m) then
        match g_osc_t m, g_osc_c m with
        | Some osc_t, Some osc_c =>
            if str_in osc_t ["0"; "1"; "2"]
            then Ok (emit (TitleChanged osc_c) w)
            else Ok w
        | _, _ => Ok w
        end
      else Ok w
  end.

Fixpoint for_matches (text : string) (ms : list Match) (last : nat)
    (w : TerminalWidget) : result (nat * TerminalWidget) :=
  match ms with
  | [] => Ok (last, w)
  | m :: ms' =>
      let s := m_start m in
      let e := m_end m in
      let w := if (last <? s)%nat then insert_styled (slice last s text) w
               else w in
      w <- handle_match m w ;;
      for_matches text ms' e w
  end.

Definition append_ansi_text (text : string) (w : TerminalWidget)
  : result TerminalWidget :=
  let w := QTextEdit.moveCursor_End w in
  lw <- for_matches text (finditer text) 0 w ;;
  let (last, w) := (lw : nat * TerminalWidget) in
  let w := if (last <? String.length text)%nat
           then insert_styled (drop last text) w
           else w in
  let w := QTextEdit.moveCursor_End w in
  Ok (set_input_start_pos (position w) w).

End Term3.

(** ** Auxiliary notions used in the statements *)

(** The code a parameter stands for: [0] for an empty parameter, its value
    for a number, none for a malformed one. *)
Definition code_of (part : string) : option Z :=
  if is_empty part then Some 0%Z
  else match int part with
       | Ok code => Some code
       | _ => None
       end.

(** A parameter that opens an extended colour: code 38 or 48. *)
Definition extended (part : string) : bool :=
  match code_of part with
  | Some code => (code =? 38)%Z || (code =? 48)%Z
  | None => false
  end.

(** The SGR loop run on a whole parameter list. *)
Definition sgr_params (parts : list string) (w : TerminalWidget)
  : result TerminalWidget :=
  sgr_loop (List.length parts) parts 0 w.

(** What the loop computes, by recursion on the parameters still to be read. *)
Fixpoint sgr_effect (l : list string) (w : TerminalWidget) : TerminalWidget :=
  match l with
  | [] => w
  | part :: tl =>
      match code_of part with
      | None => sgr_effect tl w
      | Some code =>
          if (code =? 38)%Z || (code =? 48)%Z then
            match tl with
            | [] => w
            | mode :: tl1 =>
                match int mode with
                | Ok color_mode =>
                    if (color_mode =? 5)%Z then
                      match tl1 with
                      | _ :: tl2 => sgr_effect tl2 w
                      | [] => sgr_effect tl w
                      end
                    else if (color_mode =? 2)%Z then
                      match tl1 with
                      | _ :: _ :: _ :: tl4 => sgr_effect tl4 w
                      | _ => sgr_effect tl w
                      end
                    else sgr_effect tl1 w
                | _ => sgr_effect tl w
                end
            end
          else sgr_effect tl (_apply_sgr_code code w)
      end
  end.

(** [_apply_sgr_code] called on each code of a list in turn. *)
Definition apply_codes (codes : list Z) (w : TerminalWidget) : TerminalWidget :=
  fold_left (fun w code => _apply_sgr_code code w) codes w.

(** Every character of [s] satisfies [p]. *)
Fixpoint all_chars (p : ascii -> bool) (s : string) : bool :=
  match s with
  | "" => true
  | String c s' => p c && all_chars p s'
  end.

(** The escape sequences the pattern describes, as a grammar: [sequence s g]
    holds when [s], from its escape character to its last character, is one
    of the six forms and [g] are its groups. *)
Inductive sequence : string -> Groups -> Prop :=
| seq_sgr (run : string) :
    all_chars sgr_char run = true ->
    sequence (String ESC (String "[" (run ++ "m")))
      (mkGroups (3 + String.length run) (Some run) None None None None None None)
| seq_osc (n : ascii) (payload term : string) :
    one_of "012" n = true ->
    all_chars osc_char payload = true ->
    term = bel \/ term = String ESC "\" ->
    sequence (String ESC (String "]" (String n (String ";" (payload ++ term)))))
      (mkGroups (4 + String.length payload + String.length term)
         None (Some (String n "")) (Some payload) None None None None)
| seq_csi (run : string) (l : ascii) :
    all_chars csi_char run = true ->
    one_of "HJK" l = true ->
    sequence (String ESC (String "[" (run ++ String l "")))
      (mkGroups (3 + String.length run)
         None None None (Some run) (Some (String l "")) None None)
| seq_charset (a b : ascii) :
    one_of "()" a = true ->
    one_of "012AB" b = true ->
    sequence (String ESC (String a (String b "")))
      (mkGroups 3 None None None None None (Some (String a (String b ""))) None)
| seq_mode (a : ascii) :
    one_of "ENOM" a = true ->
    sequence (String ESC (String a ""))
      (mkGroups 2 None None None None None None (Some (String a "")))
| seq_keypad (a : ascii) :
    one_of "=>" a = true ->
    sequence (String ESC (String a "")) (no_groups 2).

(** The chunk without the sequences the pattern recognises: the text that
    is left for display. *)
Fixpoint strip (skip : nat) (s : string) : string :=
  match s with
  | "" => ""
  | String c s' =>
      match skip with
      | S k => strip k s'
      | O =>
          match match_here s with
          | Some g => strip (width g - 1) s'
          | None => String c (strip 0 s')
          end
      end
  end.

Definition plain_text (text : string) : string := strip 0 text.

(** The matches found by trying the pattern at every position in turn,
    whatever was found before. *)
Fixpoint every_match (pos : nat) (s : string) : list Match :=
  match s with
  | "" => []
  | String _ s' =>
      match match_here s with
      | Some g => to_match pos g :: every_match (S pos) s'
      | None => every_match (S pos) s'
      end
  end.

(** The text of the runs in a log, and the writes and spawns in it. *)
Fixpoint text_of_runs (l : list Event) : string :=
  match l with
  | [] => ""
  | TextRun seg _ :: l' => seg ++ text_of_runs l'
  | _ :: l' => text_of_runs l'
  end.

Definition is_write (e : Event) : bool :=
  match e with ProcessWrite _ => true | _ => false end.
Definition is_spawn (e : Event) : bool :=
  match e with ProcessStart _ _ => true | _ => false end.
Definition writes (l : list Event) : list Event := filter is_write l.
Definition spawns (l : list Event) : list Event := filter is_spawn l.

(** What is inserted between and after the matches [ms], from [last] on. *)
Fixpoint gaps (text : string) (ms : list Match) (last : nat) : string :=
  match ms with
  | [] => drop last text
  | m :: ms' => slice last (m_start m) text ++ gaps text ms' (m_end m)
  end.

(** [s] begins with a backslash. *)
Definition backslash_first (s : string) : Prop :=
  match s with
  | String c _ => c = "\"%char
  | "" => False
  end.

(** The first [n] characters of [s] hold an escape character only where a
    backslash follows it. *)
Fixpoint st_only (n : nat) (s : string) : Prop :=
  match n, s with
  | S k, String c s1 => (c = ESC -> backslash_first s1) /\ st_only k s1
  | _, _ => True
  end.

(** The pattern matches at none of the first [n] positions of [s]. *)
Fixpoint inert (n : nat) (s : string) : Prop :=
  match n, s with
  | S k, String _ s1 => match_here s = None /\ inert k s1
  | _, _ => True
  end.

(** The match is an erase-display sequence with parameter 2, the one
    [append_ansi_text] answers by clearing the widget. *)
Definition clears (m : Match) : bool :=
  match g_sgr m with
  | Some _ => false
  | None =>
      if truthy (g_osc_t m) && truthy (g_osc_c m) then false
      else match g_csi_p m, g_csi_l m with
           | Some csi_p, Some csi_l => String.eqb csi_l "J" && String.eqb csi_p "2"
           | _, _ => false
           end
  end.

Definition clears_screen (text : string) : bool :=
  existsb clears (finditer text).

(** The caret stands at the end of the text and nothing is selected. *)
Definition at_end (w : TerminalWidget) : Prop :=
  anchor w = String.length (text w) /\ position w = String.length (text w).

(** The fields that belong to the session and its child process. *)
Definition same_session (w1 w2 : TerminalWidget) : Prop :=
  terminal_id w2 = terminal_id w1 /\ current_font w2 = current_font w1 /\
  process_running w2 = process_running w1 /\
  restart_count w2 = restart_count w1 /\ last_started w2 = last_started w1.

(** The events that go to the display. *)
Definition display_event (e : Event) : bool :=
  match e with
  | TextRun _ _ | TitleChanged _ | ScreenClear => true
  | _ => false
  end.

(** [w2] is [w1] with another current format. *)
Definition restyled (w1 w2 : TerminalWidget) : Prop :=
  exists f, w2 = set_current_format f w1.

(** One stretch of [append_ansi_text], from widget [w1] to widget [w2]: the
    session fields and the input boundary stay, the caret ends at the end of
    the text, the log grows by display events whose runs spell [out], and,
    unless the widget was cleared on the way, [out] is appended to the text. *)
Definition output_step (w1 w2 : TerminalWidget) (out : string) (cleared : bool)
  : Prop :=
  same_session w1 w2 /\
  input_start_pos w2 = input_start_pos w1 /\
  at_end w2 /\
  exists new,
    log w2 = (log w1 ++ new)%list /\
    forallb display_event new = true /\
    text_of_runs new = out /\
    (cleared = false -> text w2 = text w1 ++ out).

(** ** Scenarios and notions used in the statements *)

(** What [append_ansi_text] does last: caret to the end, input boundary to
    the caret. *)
Definition finish (w : TerminalWidget) : TerminalWidget :=
  let w := QTextEdit.moveCursor_End w in
  set_input_start_pos (position w) w.

(** A widget as [__init__] leaves it: terminal id [T1], the default font. *)
Definition fresh_widget : TerminalWidget := __init__ "T1" None.

(** The codes of a parameter list: one per parameter that is empty or a
    number, none for a malformed one. *)
Fixpoint codes_of (parts : list string) : list Z :=
  match parts with
  | [] => []
  | part :: tl =>
      match code_of part with
      | Some code => code :: codes_of tl
      | None => codes_of tl
      end
  end.

(** Backspace or Delete, with any modifiers. *)
Definition is_deletion (ev : QKeyEvent) : bool :=
  Key_eqb (key ev) Key_Backspace || Key_eqb (key ev) Key_Delete.

(** Return or Enter, with any modifiers. *)
Definition is_submit (ev : QKeyEvent) : bool :=
  Key_eqb (key ev) Key_Return || Key_eqb (key ev) Key_Enter.

(** Where a key acts: the caret when text is selected, the end of the text
    otherwise (the handler moves the caret there first). *)
Definition edit_point (w : TerminalWidget) : nat :=
  if QTextEdit.hasSelection w then position w else String.length (text w).

(** The key is not held back by the guard on the text before the input
    boundary: text is selected, or the boundary is not beyond the end. *)
Definition past_guard (w : TerminalWidget) : bool :=
  QTextEdit.hasSelection w || (input_start_pos w <=? String.length (text w))%nat.

(** A sequence of key events, one after the other. *)
Fixpoint press_keys (evs : list QKeyEvent) (w : TerminalWidget)
  : result TerminalWidget :=
  match evs with
  | [] => Ok w
  | ev :: evs' => w <- keyPressEvent ev w ;; press_keys evs' w
  end.

(** A widget showing [t], the caret at its end, the input boundary at
    [boundary], the child process running or not. *)
Definition widget_with (t : string) (boundary : nat) (running : bool)
  : TerminalWidget :=
  set_process_running running
    (set_input_start_pos boundary
       (set_buffer t (String.length t) (String.length t) fresh_widget)).

(** A key pressed with no modifier. *)
Definition plain_key (k : Key) : QKeyEvent := mkKeyEvent k false "" 0.

(** The attempt at time [t] comes more than 0 and less than 2 seconds after
    the time [prev]. *)
Definition rapid (t prev : Q) : Prop := (0 < t - prev)%Q /\ (t - prev < 2)%Q.

(** A widget in which the next start attempt is made, given the widget the
    attempt before left: the child process is not running (it has ended or
    never came up) and the two throttle fields are as they were left. *)
Definition idle_again (left next : TerminalWidget) : Prop :=
  process_running next = false /\
  restart_count next = restart_count left /\
  last_started next = last_started left.

(** A shell that is found, comes up, and crashes at once; a start attempt is
    made at each of the given times. *)
Definition crash_env (t : Q) : StartEnv :=
  mkStartEnv t
    (fun name => if String.eqb name "bash" then Some "/bin/bash" else None)
    (fun _ => "bash") true.

Fixpoint crash_loop (times : list Q) (w : TerminalWidget)
  : result (list StartOutcome * TerminalWidget) :=
  match times with
  | [] => Ok ([], w)
  | t :: times' =>
      ow <- start_process (crash_env t) w ;;
      let (o, w) := (ow : StartOutcome * TerminalWidget) in
      w <- (if process_running w then process_finished 1 CrashExit w else Ok w) ;;
      r <- crash_loop times' w ;;
      let (os, w) := (r : list StartOutcome * TerminalWidget) in
      Ok (o :: os, w)
  end.

(** The widget and the outcome of a start attempt at time [t], and the
    widget after the shell has crashed. *)
Definition after_attempt (t : Q) (w : TerminalWidget) : TerminalWidget :=
  match start_process (crash_env t) w with
  | Ok (_, w2) => w2
  | _ => w
  end.

Definition outcome_of_attempt (t : Q) (w : TerminalWidget) : StartOutcome :=
  match start_process (crash_env t) w with
  | Ok (o, _) => o
  | _ => AlreadyRunning
  end.

Definition crashed (w : TerminalWidget) : TerminalWidget :=
  match process_finished 1 CrashExit w with
  | Ok w2 => w2
  | _ => w
  end.

(** ** What the inherited widget keeps as it is *)

(** The inherited widget stores a carriage return, alone or before a line
    feed, as one line break, and gives a no-break space back as a space; any
    other character of the range is stored and given back as it is.  A text
    without these two characters is kept as it stands. *)
Definition CR : ascii := "013"%char.
Definition NBSP : ascii := "160"%char.
Definition kept_as_is (c : ascii) : bool :=
  negb (Ascii.eqb c CR) && negb (Ascii.eqb c NBSP).
Definition verbatim (s : string) : bool := all_chars kept_as_is s.

(** Position [p] lies inside one of the matches. *)
Definition covered (p : nat) (ms : list Match) : bool :=
  existsb (fun m => (m_start m <=? p)%nat && (p <? m_end m)%nat) ms.

(** [append_ansi_text] without its last three lines: the widget when the
    whole chunk has been handled, the caret not yet moved to the end and the
    input boundary not yet set. *)
Definition display (text : string) (w : TerminalWidget) : result TerminalWidget :=
  let w := QTextEdit.moveCursor_End w in
  lw <- for_matches text (finditer text) 0 w ;;
  let (last, w) := (lw : nat * TerminalWidget) in
  Ok (if (last <? String.length text)%nat
      then insert_styled (drop last text) w
      else w).

(** ** Further methods of [TerminalWidget] in [term66.py] *)

Definition set_current_font (f : option QFont) (w : TerminalWidget) :=
  mkWidget (terminal_id w) f (current_format w) (text w) (anchor w) (position w)
    (char_format w) (input_start_pos w) (process_running w) (restart_count w)
    (last_started w) (log w).

(** [apply_font(font)]; [setFont] changes how the widget draws and nothing
    of its state here. *)
Definition apply_font (font : QFont) (w : TerminalWidget) : TerminalWidget :=
  let w := set_current_font (Some font) w in
  let w := _reset_char_format_to_default w in
  QTextEdit.setCurrentCharFormat (current_format w) w.

(** [handle_process_error(err)], given [str(err)] and
    [self.process.errorString()]. *)
Definition handle_process_error (err errorString : string) (w : TerminalWidget)
  : result TerminalWidget :=
  let msg := "⚠️ ProcessError (" ++ err ++ "): " ++ errorString ++ nl in
  append_ansi_text msg w.

(** ** Further notions used in the statements *)

(** No escape character in [s]. *)
Definition not_esc (c : ascii) : bool := negb (Ascii.eqb c ESC).
Definition esc_free (s : string) : bool := all_chars not_esc s.

(** The widget after [seg] was inserted under the current format, if [seg]
    is not empty. *)
Definition shown (seg : string) (w : TerminalWidget) : TerminalWidget :=
  if is_empty seg then w else insert_styled seg w.

(** The run that [seg] gives in the log under format [f]: none when [seg]
    is empty. *)
Definition run_of (seg : string) (f : QTextCharFormat) : list Event :=
  if is_empty seg then [] else [TextRun seg f].

(** The groups of a sequence that [append_ansi_text] passes over: not an
    SGR, not an OSC, not the erase-display sequence with parameter 2. *)
Definition passed_over (g : Groups) : bool :=
  match sgr g, osc_t g with
  | None, None =>
      match csi_p g, csi_l g with
      | Some p, Some l => negb (String.eqb l "J" && String.eqb p "2")
      | _, _ => true
      end
  | _, _ => false
  end.

(** Two widgets with the same current format and the same font. *)
Definition same_style (w1 w2 : TerminalWidget) : Prop :=
  current_format w1 = current_format w2 /\ current_font w1 = current_font w2.

(** The result [r] of a method called on [w] is a widget that differs from
    [w] in what is displayed only: nothing was written to the child process,
    none was started, and the fields of the session are as they were. *)
Definition display_only (w : TerminalWidget) (r : result TerminalWidget) : Prop :=
  exists w2, r = Ok w2 /\
             writes (log w2) = writes (log w) /\
             spawns (log w2) = spawns (log w) /\
             same_session w w2.

(** The attribute of the format that an SGR code is about, read off the
    usual meaning of the codes: 30 to 37, 39 and 90 to 97 the foreground,
    40 to 47, 49 and 100 to 107 the background, 1 and 22 the weight, 3 and 23
    italics, 4 and 24 underlining. *)
Inductive Attribute : Type :=
  Foreground | Background | FontWeight | FontItalic | FontUnderline.

Definition attribute_of (code : Z) : option Attribute :=
  if between 30 37 code || (code =? 39)%Z || between 90 97 code
  then Some Foreground
  else if between 40 47 code || (code =? 49)%Z || between 100 107 code
  then Some Background
  else if (code =? 1)%Z || (code =? 22)%Z then Some FontWeight
  else if (code =? 3)%Z || (code =? 23)%Z then Some FontItalic
  else if (code =? 4)%Z || (code =? 24)%Z then Some FontUnderline
  else None.

(** ** Notions for the keys *)

(** A key that types its text: a key other than the ones the handler knows,
    or C, without the Control modifier. *)
Definition is_typing (ev : QKeyEvent) : bool :=
  negb (control ev) && (Key_eqb (key ev) Key_Other || Key_eqb (key ev) Key_C).

(** What a run of keys types. *)
Definition typed_text (evs : list QKeyEvent) : string :=
  fold_right (fun ev s => typed ev ++ s) "" evs.

(** Control-C. *)
Definition is_interrupt (ev : QKeyEvent) : bool :=
  Key_eqb (key ev) Key_C && control ev.

(** ** The key handler of [term3.py] *)

Module Term3Keys.

Definition keyPressEvent (ev : QKeyEvent) (w : TerminalWidget)
  : result TerminalWidget :=
  if Key_eqb (key ev) Key_C && control ev then
    if process_running w then Ok (process_write (String "003" "") w)
    else Ok w
  else
    let w := QTextEdit.moveCursor_End w in
    let current_cursor_pos := position w in
    if Key_eqb (key ev) Key_Backspace then
      if (input_start_pos w <? current_cursor_pos)%nat
      then Ok (QTextEdit.keyPressEvent ev w)
      else Ok w
    else if Key_eqb (key ev) Key_Return || Key_eqb (key ev) Key_Enter then
      let txt_to_send := drop (input_start_pos w) (QTextEdit.toPlainText w) in
      let cmd := rstrip LF txt_to_send in
      w <- (if process_running w then Ok (process_write (cmd ++ nl) w)
            else Term3.append_ansi_text
                   (esc ++ "[31mShell not running." ++ esc ++ "[0m" ++ nl) w) ;;
      let w := QTextEdit.keyPressEvent ev w in
      Ok (set_input_start_pos (position w) w)
    else Ok (QTextEdit.keyPressEvent ev w).

End Term3Keys.

(** The first of the names for which [which] gives a path that is not
    empty. *)
Fixpoint first_found (env : StartEnv) (names : list string) : option string :=
  match names with
  | [] => None
  | name :: names' =>
      match which env name with
      | Some path => if is_empty path then first_found env names' else Some path
      | None => first_found env names'
      end
  end.

(** ** Versions *)

(** An SGR parameter that [term3.py] and [term66.py] treat alike: not a
    number, or a code other than 22, 23, 24 (which only [term66.py] knows)
    and 38, 48 (whose sub-parameters the two read differently). *)
Definition plain_part (part : string) : bool :=
  match code_of part with
  | Some code => negb (existsb (Z.eqb code) [22; 23; 24; 38; 48]%Z)
  | None => true
  end.

(** A match that the two versions handle alike: an SGR sequence of such
    parameters, or any other sequence but the erase-display sequence with
    parameter 2 (which only [term66.py] acts on). *)
Definition handled_alike (m : Match) : bool :=
  match g_sgr m with
  | Some run =>
      forallb plain_part (if negb (is_empty run) then split ";" run else ["0"])
  | None => negb (clears m)
  end.

(** ** What a match stands for *)

(** The text of a match, [m.group(0)], and its groups with its width. *)
Definition group0 (chunk : string) (m : Match) : string :=
  slice (m_start m) (m_end m) chunk.

Definition groups_of (m : Match) : Groups :=
  mkGroups (m_end m - m_start m)
    (g_sgr m) (g_osc_t m) (g_osc_c m) (g_csi_p m) (g_csi_l m) (g_cs m) (g_sc m).

(** The matches lie between [from] and [upto], one after the other, none
    shorter than two characters. *)
Fixpoint in_order (from upto : nat) (ms : list Match) : Prop :=
  match ms with
  | [] => True
  | m :: ms' =>
      from <= m_start m /\ m_start m + 2 <= m_end m /\ m_end m <= upto /\
      in_order (m_end m) upto ms'
  end.

(** ** [EditPresetsDialog] in [term66.py] *)

Module EditPresetsDialog.

(** A preset is a dict with string keys and values; the table of the dialog
    is the list of its rows, a row the items of its two columns (an item
    that was never set is [None]). *)
Definition Preset : Type := list (string * string).
Definition Row : Type := (option string * option string)%type.

(** [d.get(key, default)] *)
Fixpoint get (d : Preset) (key default : string) : string :=
  match d with
  | [] => default
  | (k, v) :: d' => if String.eqb k key then v else get d' key default
  end.

(** [load_presets(presets)]: [setRowCount(0)], then a row for each preset. *)
Definition load_presets (presets : list Preset) (table : list Row) : list Row :=
  fold_left
    (fun (table : list Row) (preset : Preset) =>
       (table ++ [(Some (get preset "label" ""),
                   Some (get preset "command" ""))])%list)
    presets [].

(** [add_row()] *)
Definition add_row (table : list Row) : list Row :=
  (table ++ [(Some "New Label", Some "new_command")])%list.

(** [remove_row()], given [self.table.currentRow()] (-1 when there is
    none). *)
Definition remove_row (current_row : Z) (table : list Row) : list Row :=
  if (0 <=? current_row)%Z
  then (firstn (Z.to_nat current_row) table
          ++ skipn (S (Z.to_nat current_row)) table)%list
  else table.

(** [get_presets()] *)
Definition get_presets (table : list Row) : list Preset :=
  fold_left
    (fun (presets : list Preset) (row : Row) =>
       (presets ++ [[("label", match fst row with Some t => t | None => "" end);
                     ("command", match snd row with Some t => t | None => "" end)]])%list)
    table [].

(** A preset with the two keys the dialog knows and nothing else. *)
Definition normal (preset : Preset) : Preset :=
  [("label", get preset "label" ""); ("command", get preset "command" "")].

End EditPresetsDialog.

(** ** [MainWindow] in [term66.py]: the terminals and the focus *)

Module MainWindow.

(** A terminal widget is known here by the number it was created with (its
    [terminal_id] is "Term" followed by that number); the state is what
    [_add_new_terminal_instance] and [_close_terminal_widget] read and
    write. *)
Record State : Type := mkState {
  terminals : list nat;
  terminal_counter : nat;
  last_focused_terminal : option nat
}.

(** [self.terminals.index(x)] *)
Fixpoint index (x : nat) (l : list nat) : option nat :=
  match l with
  | [] => None
  | y :: l' => if (y =? x)%nat then Some 0
               else match index x l' with
                    | Some i => Some (S i)
                    | None => None
                    end
  end.

(** [self.terminals.remove(x)] *)
Fixpoint remove (x : nat) (l : list nat) : list nat :=
  match l with
  | [] => []
  | y :: l' => if (y =? x)%nat then l' else y :: remove x l'
  end.

(** [x in self.terminals] *)
Definition mem (x : nat) (l : list nat) : bool := existsb (Nat.eqb x) l.

Definition is_some (o : option nat) : bool :=
  match o with Some _ => true | None => false end.

(** [_add_new_terminal_instance()]: the new terminal and the state. *)
Definition _add_new_terminal_instance (s : State) : nat * State :=
  let terminal_counter := terminal_counter s + 1 in
  let term := terminal_counter in
  (term, mkState (terminals s ++ [term])%list terminal_counter
           (last_focused_terminal s)).

(** [_on_terminal_focus_gained(terminal_widget)] *)
Definition _on_terminal_focus_gained (terminal_widget : nat) (s : State) : State :=
  mkState (terminals s) (terminal_counter s) (Some terminal_widget).

(** [_close_terminal_widget(term_widget)], up to its last line, where the
    layout is rebuilt and the terminal in [last_focused_terminal] is given
    the focus. *)
Definition _close_terminal_widget (term_widget : nat) (s : State) : State :=
  if negb (mem term_widget (terminals s)) then s
  else
    let focused_closed :=
      match last_focused_terminal s with
      | Some f => (term_widget =? f)%nat
      | None => false
      end in
    let last_focused := if focused_closed then None else last_focused_terminal s in
    let next_focused_terminal :=
      if focused_closed then
        match terminals s with
        | [] => None
        | _ =>
            match index term_widget (terminals s) with
            | Some current_idx =>
                if (0 <? current_idx)%nat
                then nth_error (terminals s) (current_idx - 1)
                else if (1 <? List.length (terminals s))%nat
                then nth_error (terminals s) 1
                else None
            | None => None
            end
        end
      else None in
    let terminals := remove term_widget (terminals s) in
    let last_focused :=
      match terminals with
      | [] => None
      | _ =>
          if negb (is_some last_focused) && is_some next_focused_terminal
             && match next_focused_terminal with
                | Some n => mem n terminals
                | None => false
                end
          then next_focused_terminal
          else if negb (is_some last_focused)
          then nth_error terminals (List.length terminals - 1)
          else last_focused
      end in
    mkState terminals (terminal_counter s) last_focused.

End MainWindow.

(** The terminals of the window are distinct, were all created by the
    window, and the terminal focused last, if any, is one of them. *)
Definition consistent (s : MainWindow.State) : Prop :=
  NoDup (MainWindow.terminals s) /\
  Forall (fun t => 1 <= t <= MainWindow.terminal_counter s) (MainWindow.terminals s) /\
  match MainWindow.last_focused_terminal s with
  | Some f => In f (MainWindow.terminals s)
  | None => True
  end.

(** * Properties *)

(** ** Strings *)

Lemma length_append (a b : string) :
  String.length (a ++ b) = String.length a + String.length b.
Proof. induction a as [|c a IH]; simpl; [reflexivity | now rewrite IH]. Qed.

Lemma append_empty_r (a : string) : a ++ "" = a.
Proof. induction a as [|c a IH]; simpl; [reflexivity | now rewrite IH]. Qed.

Lemma append_assoc (a b c : string) : (a ++ b) ++ c = a ++ b ++ c.
Proof. induction a as [|x a IH]; simpl; [reflexivity | now rewrite IH]. Qed.

Lemma take_drop (n : nat) (s : string) : take n s ++ drop n s = s.
Proof.
  revert s; induction n as [|n IH]; intros [|c s]; simpl; try reflexivity.
  now rewrite IH.
Qed.

Lemma take_all (n : nat) (s : string) : String.length s <= n -> take n s = s.
Proof.
  revert s; induction n as [|n IH]; intros [|c s]; simpl; intros H;
    try reflexivity; try lia.
  now rewrite IH by lia.
Qed.

Lemma drop_all (n : nat) (s : string) : String.length s <= n -> drop n s = "".
Proof.
  revert s; induction n as [|n IH]; intros [|c s]; simpl; intros H;
    try reflexivity; try lia.
  apply IH; lia.
Qed.

Lemma take_append_le (n : nat) (a b : string) :
  n <= String.length a -> take n (a ++ b) = take n a.
Proof.
  revert a; induction n as [|n IH]; intros [|c a]; simpl; intros H;
    try reflexivity; try lia.
  now rewrite IH by lia.
Qed.

Lemma take_length_append (a b : string) : take (String.length a) (a ++ b) = a.
Proof. induction a as [|c a IH]; simpl; [now destruct b | now rewrite IH]. Qed.

Lemma drop_length_append (a b : string) : drop (String.length a) (a ++ b) = b.
Proof. induction a as [|c a IH]; simpl; [reflexivity | exact IH]. Qed.

Lemma length_drop (n : nat) (s : string) :
  String.length (drop n s) = String.length s - n.
Proof.
  revert s; induction n as [|n IH]; intros [|c s]; simpl; try reflexivity.
  apply IH.
Qed.

Lemma length_take (n : nat) (s : string) :
  String.length (take n s) = Nat.min n (String.length s).
Proof.
  revert s; induction n as [|n IH]; intros [|c s]; simpl; try reflexivity.
  now rewrite IH.
Qed.

Lemma drop_drop (n m : nat) (s : string) : drop n (drop m s) = drop (m + n) s.
Proof.
  revert s; induction m as [|m IH]; intros s; simpl; [reflexivity|].
  destruct s as [|c s]; [now destruct n | apply IH].
Qed.

(** ** The SGR loop *)

Lemma sgr_loop_done (fuel : nat) (parts : list string) (idx : nat) (w : TerminalWidget) :
  List.length parts <= idx -> sgr_loop fuel parts idx w = Ok w.
Proof.
  intros H. apply Nat.ltb_ge in H. destruct fuel; simpl; now rewrite H.
Qed.

Lemma ltb_app (pre l : list string) (k : nat) :
  (List.length pre + k <? List.length (pre ++ l)%list)%nat
  = (k <? List.length l)%nat.
Proof.
  rewrite length_app.
  destruct (k <? List.length l)%nat eqn:E.
  - apply Nat.ltb_lt in E. apply Nat.ltb_lt. lia.
  - apply Nat.ltb_ge in E. apply Nat.ltb_ge. lia.
Qed.

Lemma ltb_app_0 (pre l : list string) :
  (List.length pre <? List.length (pre ++ l)%list)%nat
  = (0 <? List.length l)%nat.
Proof. rewrite <- (ltb_app pre l 0). f_equal. lia. Qed.

Lemma nth_app_at (pre l : list string) (k : nat) :
  nth (List.length pre + k) (pre ++ l)%list "" = nth k l "".
Proof.
  rewrite app_nth2 by lia. f_equal. lia.
Qed.

(** Moving [k] parameters from the part still to be read to the part read. *)
Lemma shift_read (pre l : list string) (k : nat) :
  k <= List.length l ->
  (pre ++ l)%list = ((pre ++ firstn k l) ++ skipn k l)%list /\
  List.length (pre ++ firstn k l)%list = List.length pre + k.
Proof.
  intros H. split.
  - now rewrite <- app_assoc, firstn_skipn.
  - rewrite length_app, firstn_length_le by exact H. reflexivity.
Qed.

Lemma int_in_fuel (s : string) : int s <> OutOfFuel.
Proof.
  unfold int.
  destruct (negb (is_empty s) && all_digits s
            && (String.length s <=? int_max_str_digits)%nat); discriminate.
Qed.

(** The loop standing at index [length pre] of [pre ++ l] computes
    [sgr_effect l]; it never raises and never runs out of rounds. *)
Lemma sgr_loop_effect (fuel : nat) :
  forall (pre l : list string) (w : TerminalWidget),
    List.length l <= fuel ->
    sgr_loop fuel (pre ++ l)%list (List.length pre) w = Ok (sgr_effect l w).
Proof.
  induction fuel as [|fuel IH]; intros pre l w Hfuel.
  - destruct l; [|simpl in Hfuel; lia].
    apply sgr_loop_done. rewrite app_nil_r. lia.
  - destruct l as [|part tl].
    { apply sgr_loop_done. rewrite app_nil_r. lia. }
    assert (Hgo : forall k i w',
               1 <= k <= List.length (part :: tl) -> i = List.length pre + k ->
               sgr_loop fuel (pre ++ part :: tl)%list i w'
               = Ok (sgr_effect (skipn k (part :: tl)) w')).
    { intros k i w' [Hk1 Hk] ->.
      destruct (shift_read pre (part :: tl) k Hk) as [E1 E2].
      rewrite E1, <- E2. apply IH.
      rewrite length_skipn. cbn [List.length] in *. lia. }
    cbn [sgr_loop].
    rewrite ltb_app_0, !ltb_app, nth_middle, nth_app_at.
    cbn [List.length Nat.ltb Nat.leb nth sgr_effect].
    unfold code_of.
    destruct (is_empty part) eqn:Hempty.
    + (* an empty parameter is code 0 *)
      cbn [Z.eqb orb].
      rewrite (Hgo 1) by (cbn [List.length]; lia). reflexivity.
    + destruct (int part) as [code|[]|] eqn:Hint;
        [| rewrite (Hgo 1) by (cbn [List.length]; lia); reflexivity
         | now apply int_in_fuel in Hint ].
      destruct ((code =? 38)%Z || (code =? 48)%Z) eqn:Hext;
        [| rewrite (Hgo 1) by (cbn [List.length]; lia); reflexivity ].
      destruct tl as [|mode tl1];
        [ cbn [List.length Nat.ltb Nat.leb];
          rewrite (Hgo 1) by (cbn [List.length]; lia); reflexivity |].
      cbn [List.length Nat.ltb Nat.leb nth].
      destruct (int mode) as [cm|[]|] eqn:Hmode;
        [| rewrite (Hgo 1) by (cbn [List.length]; lia); reflexivity
         | now apply int_in_fuel in Hmode ].
      destruct (cm =? 5)%Z.
      { destruct tl1 as [|p1 tl2]; cbn [List.length Nat.ltb Nat.leb].
        - rewrite (Hgo 1) by (cbn [List.length]; lia). reflexivity.
        - rewrite (Hgo 3) by (cbn [List.length]; lia). reflexivity. }
      destruct (cm =? 2)%Z.
      { destruct tl1 as [|p1 [|p2 [|p3 tl4]]]; cbn [List.length Nat.ltb Nat.leb].
        - rewrite (Hgo 1) by (cbn [List.length]; lia). reflexivity.
        - rewrite (Hgo 1) by (cbn [List.length]; lia). reflexivity.
        - rewrite (Hgo 1) by (cbn [List.length]; lia). reflexivity.
        - rewrite (Hgo 5) by (cbn [List.length]; lia). reflexivity. }
      rewrite (Hgo 2) by (cbn [List.length]; lia). reflexivity.
Qed.

Lemma skipn_nth_cons (parts : list string) (idx : nat) :
  idx < List.length parts ->
  skipn idx parts = nth idx parts "" :: skipn (S idx) parts.
Proof.
  revert idx; induction parts as [|p parts IH]; intros [|idx] H; simpl in *;
    try lia; [reflexivity | apply IH; lia].
Qed.

(** The loop standing at any index behaves as a fresh run on the parameters
    from that index on. *)
Lemma sgr_loop_at (fuel : nat) (parts : list string) (idx : nat) (w : TerminalWidget) :
  List.length parts - idx <= fuel ->
  sgr_loop fuel parts idx w = Ok (sgr_effect (skipn idx parts) w).
Proof.
  intros Hfuel.
  destruct (Nat.le_gt_cases (List.length parts) idx) as [Hout|Hin].
  - rewrite sgr_loop_done by exact Hout.
    now rewrite skipn_all2 by exact Hout.
  - pose proof (sgr_loop_effect fuel (firstn idx parts) (skipn idx parts) w) as E.
    rewrite firstn_skipn, firstn_length_le, length_skipn in E by lia.
    apply E, Hfuel.
Qed.

Lemma sgr_params_effect (parts : list string) (w : TerminalWidget) :
  sgr_params parts w = Ok (sgr_effect parts w).
Proof. unfold sgr_params. rewrite sgr_loop_at by lia. reflexivity. Qed.

Lemma handle_sgr_effect (sgr : string) (w : TerminalWidget) :
  handle_sgr sgr w
  = Ok (sgr_effect (if negb (is_empty sgr) then split ";" sgr else ["0"]) w).
Proof. unfold handle_sgr. apply sgr_params_effect. Qed.

(** In [term66.py] a malformed parameter is passed over: the loop goes on
    with the next parameter and the style as it stands. *)
Lemma term66_malformed_parameter_skipped
    (fuel : nat) (parts : list string) (idx : nat) (w : TerminalWidget) :
  List.length parts - idx <= fuel ->
  idx < List.length parts ->
  code_of (nth idx parts "") = None ->
  sgr_loop fuel parts idx w = sgr_params (skipn (S idx) parts) w.
Proof.
  intros Hfuel Hidx Hbad.
  rewrite sgr_loop_at, sgr_params_effect by exact Hfuel.
  rewrite (skipn_nth_cons parts idx Hidx). cbn [sgr_effect].
  now rewrite Hbad.
Qed.

(** In [term66.py] a parameter that is a code other than 38 and 48 is handed
    to [_apply_sgr_code], whatever stands before or after it in the list. *)
Lemma term66_ordinary_code_applied
    (fuel : nat) (parts : list string) (idx : nat) (code : Z) (w : TerminalWidget) :
  List.length parts - idx <= fuel ->
  idx < List.length parts ->
  code_of (nth idx parts "") = Some code ->
  extended (nth idx parts "") = false ->
  sgr_loop fuel parts idx w
  = sgr_params (skipn (S idx) parts) (_apply_sgr_code code w).
Proof.
  intros Hfuel Hidx Hcode Hord.
  rewrite sgr_loop_at, sgr_params_effect by exact Hfuel.
  rewrite (skipn_nth_cons parts idx Hidx). cbn [sgr_effect].
  unfold extended in Hord. rewrite Hcode in *. now rewrite Hord.
Qed.

(** In [term66.py] no parameter list makes the SGR loop raise. *)
Lemma term66_sgr_never_raises (sgr : string) (w : TerminalWidget) :
  exists w', handle_sgr sgr w = Ok w'.
Proof. eexists. apply handle_sgr_effect. Qed.

(** ** Reset *)

Lemma reset_format (w : TerminalWidget) :
  current_format (_reset_char_format_to_default w) = default_format.
Proof. reflexivity. Qed.

Lemma code_of_0 : code_of "0" = Some 0%Z.
Proof. reflexivity. Qed.

(** ** The pattern *)

Lemma span_spec (p : ascii -> bool) (s : string) :
  forall run rest, span p s = (run, rest) ->
    s = run ++ rest /\ all_chars p run = true /\
    match rest with String c _ => p c = false | "" => True end.
Proof.
  induction s as [|c s IH]; simpl; intros run rest H.
  - inversion H; subst. auto.
  - destruct (p c) eqn:Hc.
    + destruct (span p s) as [run' rest'] eqn:Hs. inversion H; subst.
      destruct (IH run' rest eq_refl) as (E & A & R).
      simpl. rewrite Hc, A. subst s. auto.
    + inversion H; subst. simpl. auto.
Qed.

Lemma span_append (p : ascii -> bool) (run rest : string) :
  all_chars p run = true ->
  match rest with String c _ => p c = false | "" => True end ->
  span p (run ++ rest) = (run, rest).
Proof.
  intros A R. induction run as [|c run IH]; simpl in *.
  - destruct rest as [|c rest]; simpl; [reflexivity | now rewrite R].
  - apply andb_true_iff in A as [Hc A]. now rewrite Hc, IH.
Qed.

Lemma all_chars_weaken (p q : ascii -> bool) (s : string) :
  (forall c, p c = true -> q c = true) ->
  all_chars p s = true -> all_chars q s = true.
Proof.
  intros Hpq. induction s as [|c s IH]; simpl; [reflexivity|].
  intros H. apply andb_true_iff in H as [Hc H].
  now rewrite (Hpq c Hc), IH.
Qed.

Lemma eqb_ESC (c : ascii) : Ascii.eqb c ESC = true -> c = ESC.
Proof. apply Ascii.eqb_eq. Qed.

(** Case analysis on a membership test [one_of set a = true]. *)
Ltac split_one_of H :=
  unfold one_of in H; cbn [list_ascii_of_string existsb] in H;
  repeat match type of H with
         | context [Ascii.eqb ?a ?c] =>
             destruct (Ascii.eqb_spec a c); [subst a | idtac]
         end;
  try discriminate H.

Lemma alt_sgr_head (c : ascii) (r : string) :
  c <> "["%char -> alt_sgr (String c r) = None.
Proof. intros H. simpl. now destruct (Ascii.eqb_spec c "["). Qed.

Lemma alt_csi_head (c : ascii) (r : string) :
  c <> "["%char -> alt_csi (String c r) = None.
Proof. intros H. simpl. now destruct (Ascii.eqb_spec c "["). Qed.

Lemma alt_osc_head (c : ascii) (r : string) :
  c <> "]"%char -> alt_osc (String c r) = None.
Proof.
  intros H. destruct r as [|n [|sc r]]; simpl; try reflexivity.
  now destruct (Ascii.eqb_spec c "]").
Qed.

Lemma alt_charset_head (c : ascii) (r : string) :
  one_of "()" c = false -> alt_charset (String c r) = None.
Proof. intros H. destruct r; simpl; [reflexivity | now rewrite H]. Qed.

Lemma alt_sgr_sound (r : string) (g : Groups) :
  alt_sgr r = Some g ->
  exists run rest,
    r = String "[" (run ++ String "m" rest) /\
    all_chars sgr_char run = true /\
    g = mkGroups (3 + String.length run) (Some run) None None None None None None.
Proof.
  destruct r as [|c r1]; simpl; [discriminate|].
  destruct (Ascii.eqb_spec c "["); [subst c | discriminate].
  destruct (span sgr_char r1) as [run r2] eqn:Hspan.
  destruct (span_spec _ _ _ _ Hspan) as (E & A & _).
  destruct r2 as [|t r3]; [discriminate|].
  destruct (Ascii.eqb_spec t "m"); [subst t | discriminate].
  intros H; inversion H; subst. eauto.
Qed.

Lemma alt_csi_sound (r : string) (g : Groups) :
  alt_csi r = Some g ->
  exists run l rest,
    r = String "[" (run ++ String l rest) /\
    all_chars csi_char run = true /\ one_of "HJK" l = true /\
    g = mkGroups (3 + String.length run)
          None None None (Some run) (Some (String l "")) None None.
Proof.
  destruct r as [|c r1]; simpl; [discriminate|].
  destruct (Ascii.eqb_spec c "["); [subst c | discriminate].
  destruct (span csi_char r1) as [run r2] eqn:Hspan.
  destruct (span_spec _ _ _ _ Hspan) as (E & A & _).
  destruct r2 as [|l r3]; [discriminate|].
  destruct (one_of "HJK" l) eqn:Hl; [|discriminate].
  intros H; inversion H; subst. exists run, l, r3. auto.
Qed.

Lemma alt_osc_sound (r : string) (g : Groups) :
  alt_osc r = Some g ->
  exists n payload term rest,
    r = String "]" (String n (String ";" (payload ++ term ++ rest))) /\
    one_of "012" n = true /\ all_chars osc_char payload = true /\
    (term = bel \/ term = String ESC "\") /\
    g = mkGroups (4 + String.length payload + String.length term)
          None (Some (String n "")) (Some payload) None None None None.
Proof.
  destruct r as [|c [|n [|sc r1]]]; simpl; try discriminate.
  destruct (Ascii.eqb_spec c "]"); [subst c | discriminate].
  destruct (one_of "012" n) eqn:Hn; [|discriminate].
  destruct (Ascii.eqb_spec sc ";"); [subst sc | discriminate].
  cbn [andb].
  destruct (span osc_char r1) as [payload r2] eqn:Hspan.
  destruct (span_spec _ _ _ _ Hspan) as (E & A & _).
  destruct r2 as [|t r3]; [discriminate|].
  destruct (Ascii.eqb_spec t BEL).
  - subst t. intros H; inversion H; subst.
    exists n, payload, bel, r3. auto 6.
  - destruct (Ascii.eqb_spec t ESC); [subst t | discriminate].
    destruct r3 as [|b r4]; [discriminate|].
    destruct (Ascii.eqb_spec b "\"); [subst b | discriminate].
    intros H; inversion H; subst.
    exists n, payload, (String ESC "\"), r4. auto 6.
Qed.

Lemma alt_charset_sound (r : string) (g : Groups) :
  alt_charset r = Some g ->
  exists a b rest,
    r = String a (String b rest) /\
    one_of "()" a = true /\ one_of "012AB" b = true /\
    g = mkGroups 3 None None None None None (Some (String a (String b ""))) None.
Proof.
  destruct r as [|a [|b r]]; simpl; try discriminate.
  destruct (one_of "()" a) eqn:Ha; [|discriminate].
  destruct (one_of "012AB" b) eqn:Hb; [|discriminate].
  intros H; inversion H; subst. exists a, b, r. auto.
Qed.

Lemma alt_mode_sound (r : string) (g : Groups) :
  alt_mode r = Some g ->
  exists a rest,
    r = String a rest /\ one_of "ENOM" a = true /\
    g = mkGroups 2 None None None None None None (Some (String a "")).
Proof.
  destruct r as [|a r]; simpl; [discriminate|].
  destruct (one_of "ENOM" a) eqn:Ha; [|discriminate].
  intros H; inversion H; subst. eauto.
Qed.

Lemma alt_keypad_sound (r : string) (g : Groups) :
  alt_keypad r = Some g ->
  exists a rest,
    r = String a rest /\ one_of "=>" a = true /\ g = no_groups 2.
Proof.
  destruct r as [|a r]; simpl; [discriminate|].
  destruct (one_of "=>" a) eqn:Ha; [|discriminate].
  intros H; inversion H; subst. eauto.
Qed.

(** Whatever the pattern matches at the head of a text is a sequence of the
    grammar. *)
Lemma match_here_sound (s : string) (g : Groups) :
  match_here s = Some g ->
  exists m rest, s = m ++ rest /\ sequence m g.
Proof.
  destruct s as [|c r]; simpl; [discriminate|].
  destruct (Ascii.eqb_spec c ESC); [subst c | discriminate].
  unfold match_after_esc, or_else.
  destruct (alt_sgr r) as [g1|] eqn:H1.
  { intros H; inversion H; subst g1.
    destruct (alt_sgr_sound _ _ H1) as (run & rest & -> & A & ->).
    exists (String ESC (String "[" (run ++ "m"))), rest. split.
    - simpl. now rewrite append_assoc.
    - now constructor. }
  destruct (alt_osc r) as [g2|] eqn:H2.
  { intros H; inversion H; subst g2.
    destruct (alt_osc_sound _ _ H2) as (n & payload & term & rest & -> & Hn & A & T & ->).
    exists (String ESC (String "]" (String n (String ";" (payload ++ term))))), rest.
    split.
    - simpl. now rewrite append_assoc.
    - now constructor. }
  destruct (alt_csi r) as [g3|] eqn:H3.
  { intros H; inversion H; subst g3.
    destruct (alt_csi_sound _ _ H3) as (run & l & rest & -> & A & Hl & ->).
    exists (String ESC (String "[" (run ++ String l ""))), rest. split.
    - simpl. now rewrite append_assoc.
    - now constructor. }
  destruct (alt_charset r) as [g4|] eqn:H4.
  { intros H; inversion H; subst g4.
    destruct (alt_charset_sound _ _ H4) as (a & b & rest & -> & Ha & Hb & ->).
    exists (String ESC (String a (String b ""))), rest. split; [reflexivity|].
    now constructor. }
  destruct (alt_mode r) as [g5|] eqn:H5.
  { intros H; inversion H; subst g5.
    destruct (alt_mode_sound _ _ H5) as (a & rest & -> & Ha & ->).
    exists (String ESC (String a "")), rest. split; [reflexivity|].
    now constructor. }
  intros H6.
  destruct (alt_keypad_sound _ _ H6) as (a & rest & -> & Ha & ->).
  exists (String ESC (String a "")), rest. split; [reflexivity|].
  now constructor.
Qed.

Lemma csi_char_sgr_char (c : ascii) : csi_char c = true -> sgr_char c = true.
Proof.
  unfold csi_char, sgr_char. intros H.
  apply orb_true_iff in H as [H|H]; [now rewrite H|].
  split_one_of H. now rewrite orb_true_r.
Qed.

(** A sequence of the grammar is matched wherever it heads a text, whatever
    follows it. *)
Lemma match_here_complete (m : string) (g : Groups) :
  sequence m g -> forall rest, match_here (m ++ rest) = Some g.
Proof.
  intros [run A | n payload term Hn A T | run l A Hl | a b Ha Hb | a Ha | a Ha] rest;
    cbn [append match_here]; change (Ascii.eqb ESC ESC) with true; cbn iota;
    unfold match_after_esc, or_else.
  - (* SGR *)
    cbn [alt_sgr]. change (Ascii.eqb "[" "[") with true. cbn iota.
    rewrite append_assoc, span_append by (assumption || reflexivity).
    reflexivity.
  - (* OSC *)
    rewrite alt_sgr_head by discriminate.
    cbn [alt_osc]. change (Ascii.eqb "]" "]") with true.
    change (Ascii.eqb ";" ";") with true. rewrite Hn. cbn [andb].
    rewrite append_assoc.
    destruct T as [-> | ->].
    + rewrite span_append by (assumption || reflexivity). reflexivity.
    + rewrite span_append by (assumption || reflexivity). reflexivity.
  - (* CSI *)
    assert (Hs : sgr_char l = false) by (split_one_of Hl; reflexivity).
    assert (Hm : Ascii.eqb l "m" = false) by (split_one_of Hl; reflexivity).
    assert (alt_sgr (String "[" ((run ++ String l "") ++ rest)) = None) as ->.
    { cbn [alt_sgr]. change (Ascii.eqb "[" "[") with true. cbn iota.
      rewrite append_assoc,
        span_append by (exact Hs || (eapply all_chars_weaken; [apply csi_char_sgr_char | exact A])).
      cbn [append]. now rewrite Hm. }
    rewrite alt_osc_head by discriminate.
    cbn [alt_csi]. change (Ascii.eqb "[" "[") with true. cbn iota.
    assert (Hc : csi_char l = false) by (split_one_of Hl; reflexivity).
    rewrite append_assoc, span_append by assumption.
    cbn [append]. now rewrite Hl.
  - (* character set *)
    assert (a <> "["%char /\ a <> "]"%char) as [N1 N2]
      by (split_one_of Ha; split; discriminate).
    rewrite alt_sgr_head, alt_osc_head, alt_csi_head by assumption.
    cbn [alt_charset]. now rewrite Ha, Hb.
  - (* other modes *)
    assert (a <> "["%char /\ a <> "]"%char /\ one_of "()" a = false) as (N1 & N2 & N3)
      by (split_one_of Ha; repeat split; (discriminate || reflexivity)).
    rewrite alt_sgr_head, alt_osc_head, alt_csi_head, alt_charset_head by assumption.
    cbn [alt_mode]. now rewrite Ha.
  - (* keypad modes *)
    assert (a <> "["%char /\ a <> "]"%char /\ one_of "()" a = false
            /\ one_of "ENOM" a = false) as (N1 & N2 & N3 & N4)
      by (split_one_of Ha; repeat split; (discriminate || reflexivity)).
    rewrite alt_sgr_head, alt_osc_head, alt_csi_head, alt_charset_head by assumption.
    cbn [alt_mode alt_keypad]. now rewrite N4, Ha.
Qed.

(** ** Inside a sequence *)

Lemma st_only_run (p : ascii -> bool) (run rest : string) (n : nat) :
  (forall c, p c = true -> c <> ESC) ->
  all_chars p run = true ->
  st_only n rest ->
  st_only (String.length run + n) (run ++ rest).
Proof.
  intros Hp. induction run as [|c run IH]; simpl; intros A H; [exact H|].
  apply andb_true_iff in A as [Hc A]. split.
  - intros ->. now apply Hp in Hc.
  - now apply IH.
Qed.

Lemma st_only_0 (s : string) : st_only 0 s.
Proof. now destruct s. Qed.

Lemma sgr_char_not_ESC (c : ascii) : sgr_char c = true -> c <> ESC.
Proof. intros H ->. discriminate H. Qed.

Lemma csi_char_not_ESC (c : ascii) : csi_char c = true -> c <> ESC.
Proof. intros H ->. discriminate H. Qed.

Lemma osc_char_not_ESC (c : ascii) : osc_char c = true -> c <> ESC.
Proof. intros H ->. discriminate H. Qed.

(** A sequence is an escape character and a body in which an escape
    character occurs only as the first half of the closing pair of an OSC. *)
Lemma sequence_interior (m : string) (g : Groups) :
  sequence m g ->
  exists body, m = String ESC body /\ width g = S (String.length body) /\
               forall rest, st_only (String.length body) (body ++ rest).
Proof.
  intros [run A | n payload term Hn A T | run l A Hl | a b Ha Hb | a Ha | a Ha];
    eexists; (split; [reflexivity|]); cbn [width no_groups].
  - split; [cbn [String.length]; rewrite length_append; simpl; lia|].
    intros rest. cbn [String.length append]. split; [discriminate|].
    rewrite length_append, append_assoc.
    apply (st_only_run sgr_char); [apply sgr_char_not_ESC | exact A|].
    simpl. split; [discriminate | exact I].
  - split; [cbn [String.length]; rewrite length_append;
            destruct T as [-> | ->]; simpl; lia|].
    intros rest. cbn [String.length append].
    split; [discriminate|]. split; [intros ->; split_one_of Hn|].
    split; [discriminate|].
    rewrite length_append, append_assoc.
    apply (st_only_run osc_char); [apply osc_char_not_ESC | exact A|].
    destruct T as [-> | ->]; simpl.
    + split; [discriminate | exact I].
    + split; [intros _; reflexivity|]. split; [discriminate | exact I].
  - split; [cbn [String.length]; rewrite length_append; simpl; lia|].
    intros rest. cbn [String.length append]. split; [discriminate|].
    rewrite length_append, append_assoc.
    apply (st_only_run csi_char); [apply csi_char_not_ESC | exact A|].
    simpl. split; [intros ->; split_one_of Hl | exact I].
  - split; [reflexivity|]. intros rest. simpl.
    split; [intros ->; split_one_of Ha|].
    split; [intros ->; split_one_of Hb | exact I].
  - split; [reflexivity|]. intros rest. simpl.
    split; [intros ->; split_one_of Ha | exact I].
  - split; [reflexivity|]. intros rest. simpl.
    split; [intros ->; split_one_of Ha | exact I].
Qed.

Lemma match_here_backslash (s : string) :
  match_here (String ESC (String "\" s)) = None.
Proof.
  cbn [match_here]. change (Ascii.eqb ESC ESC) with true. cbn iota.
  unfold match_after_esc.
  rewrite alt_sgr_head, alt_osc_head, alt_csi_head, alt_charset_head
    by (discriminate || reflexivity).
  reflexivity.
Qed.

Lemma st_only_inert (n : nat) (s : string) : st_only n s -> inert n s.
Proof.
  revert s; induction n as [|n IH]; intros [|c s]; simpl; auto.
  intros [Hc H]. split; [|now apply IH].
  destruct (Ascii.eqb_spec c ESC) as [->|]; [|reflexivity].
  specialize (Hc eq_refl). destruct s as [|b s]; [contradiction|].
  simpl in Hc. subst b. apply match_here_backslash.
Qed.

(** The characters of a match after its first hold no place where the
    pattern matches. *)
Lemma match_here_inert (c : ascii) (s : string) (g : Groups) :
  match_here (String c s) = Some g -> inert (width g - 1) s.
Proof.
  intros H. destruct (match_here_sound _ _ H) as (m & rest & E & Hseq).
  destruct (sequence_interior _ _ Hseq) as (body & -> & -> & Hst).
  simpl in E. inversion E; subst.
  replace (S (String.length body) - 1) with (String.length body) by lia.
  apply st_only_inert, Hst.
Qed.

Lemma width_positive (s : string) (g : Groups) :
  match_here s = Some g -> 2 <= width g.
Proof.
  intros H. destruct (match_here_sound _ _ H) as (m & rest & E & Hseq).
  destruct Hseq; cbn [width no_groups]; lia.
Qed.

(** ** Resynchronisation of the scan *)

Lemma scan_inert (k pos : nat) (s : string) :
  inert k s -> scan k pos s = scan 0 pos s.
Proof.
  revert k pos; induction s as [|c s IH]; intros [|k] pos; simpl; auto.
  intros [Hnone Hin]. simpl in Hnone. rewrite Hnone. now apply IH.
Qed.

Lemma scan_every_match (pos : nat) (s : string) :
  scan 0 pos s = every_match pos s.
Proof.
  revert pos; induction s as [|c s IH]; intros pos; [reflexivity|].
  cbn [scan every_match].
  destruct (match_here (String c s)) as [g|] eqn:H; [|apply IH].
  f_equal. rewrite scan_inert by (eapply match_here_inert; eassumption).
  apply IH.
Qed.

Lemma every_match_at (pre s : string) (pos : nat) (g : Groups) :
  match_here s = Some g ->
  In (to_match (pos + String.length pre) g) (every_match pos (pre ++ s)).
Proof.
  revert pos; induction pre as [|c pre IH]; intros pos H.
  - simpl. destruct s as [|c s]; [discriminate|].
    cbn [every_match]. rewrite H. left. f_equal. lia.
  - cbn [append every_match String.length].
    replace (pos + S (String.length pre)) with (S pos + String.length pre) by lia.
    destruct (match_here (String c (pre ++ s))); [right|]; now apply IH.
Qed.

(** ** The text left for display *)

Lemma append_prefix (a x b y : string) :
  a ++ x = b ++ y -> String.length b <= String.length a ->
  exists z, a = b ++ z.
Proof.
  revert a; induction b as [|c b IH]; intros a E L; simpl in *.
  - now exists a.
  - destruct a as [|c' a]; simpl in *; [lia|].
    inversion E; subst. destruct (IH a H1) as [z ->]; [lia|]. now exists z.
Qed.

Lemma st_only_no_crossing (n : nat) (a r : string) :
  st_only n (a ++ String ESC r) -> ~ backslash_first r -> n <= String.length a.
Proof.
  revert n; induction a as [|c a IH]; intros [|n] H Hr; simpl in *; try lia.
  - destruct H as [H _]. now specialize (H eq_refl).
  - destruct H as [_ H]. specialize (IH n H Hr). lia.
Qed.

(** A match does not depend on what follows it. *)
Lemma match_here_extend (a x : string) (g : Groups) :
  match_here a = Some g -> match_here (a ++ x) = Some g.
Proof.
  intros H. destruct (match_here_sound _ _ H) as (m & rest & -> & Hseq).
  rewrite append_assoc. now apply match_here_complete.
Qed.

(** A match does not reach over an escape character that is not the first
    half of the closing pair of an OSC. *)
Lemma match_here_restrict (c : ascii) (a r : string) (g : Groups) :
  match_here (String c a ++ String ESC r) = Some g ->
  ~ backslash_first r ->
  width g - 1 <= String.length a /\ match_here (String c a) = Some g.
Proof.
  intros H Hr. destruct (match_here_sound _ _ H) as (m & rest & E & Hseq).
  destruct (sequence_interior _ _ Hseq) as (body & -> & Hw & Hst).
  cbn [append] in E. injection E as Ec E. subst c.
  specialize (Hst rest). rewrite <- E in Hst.
  pose proof (st_only_no_crossing _ _ _ Hst Hr) as L.
  split; [lia|].
  destruct (append_prefix _ _ _ _ E L) as [z ->].
  change (String ESC (body ++ z)) with (String ESC body ++ z).
  now apply match_here_complete.
Qed.

(** An escape character that opens no sequence and closes none stays in the
    text, wherever it stands, and what precedes and follows it is read as
    if it stood alone. *)
Lemma strip_split (a : string) :
  forall (skip : nat) (r : string),
    skip <= String.length a ->
    match_here (String ESC r) = None ->
    ~ backslash_first r ->
    strip skip (a ++ String ESC r) = strip skip a ++ String ESC (strip 0 r).
Proof.
  induction a as [|c a IH]; intros skip r Hskip Hnone Hr.
  - simpl in Hskip. replace skip with 0 by lia.
    cbn [append strip]. now rewrite Hnone.
  - destruct skip as [|k].
    + cbn [append strip].
      change (String c (a ++ String ESC r)) with (String c a ++ String ESC r).
      destruct (match_here (String c a ++ String ESC r)) as [g|] eqn:H.
      * destruct (match_here_restrict _ _ _ _ H Hr) as [L H'].
        rewrite H'. now apply IH.
      * destruct (match_here (String c a)) as [g|] eqn:H'.
        { apply (match_here_extend _ (String ESC r)) in H'. congruence. }
        cbn [append]. f_equal. apply IH; [lia | assumption | assumption].
    + cbn [append strip]. apply IH; [simpl in Hskip; lia | assumption | assumption].
Qed.

Lemma drop_S (pos : nat) (text : string) (c : ascii) (s : string) :
  drop pos text = String c s -> drop (S pos) text = s.
Proof.
  revert text; induction pos as [|pos IH]; intros [|x text]; simpl; intros H;
    try discriminate.
  - now inversion H.
  - destruct pos; simpl in *; [now inversion H | now apply IH].
Qed.

Lemma drop_empty (pos : nat) (text : string) :
  drop pos text = "" -> String.length text <= pos.
Proof.
  intros H. pose proof (length_drop pos text) as L. rewrite H in L. simpl in L. lia.
Qed.

Lemma take_snoc (n : nat) (x : string) (c : ascii) (s : string) :
  drop n x = String c s -> take (S n) x = take n x ++ String c "".
Proof.
  revert x; induction n as [|n IH]; intros [|a x] H; simpl in *; try discriminate.
  - inversion H; subst. now destruct s.
  - f_equal. destruct n; simpl in *.
    + destruct x; [discriminate|]. now inversion H.
    + now apply IH.
Qed.

Lemma slice_snoc (last pos : nat) (text : string) (c : ascii) (s : string) :
  last <= pos -> drop pos text = String c s ->
  slice last (S pos) text = slice last pos text ++ String c "".
Proof.
  intros L H. unfold slice.
  replace (S pos - last) with (S (pos - last)) by lia.
  apply take_snoc with (s := s).
  rewrite drop_drop. now replace (last + (pos - last)) with pos by lia.
Qed.

Lemma slice_empty (last pos : nat) (text : string) :
  pos <= last -> slice last pos text = "".
Proof.
  intros L. unfold slice. replace (pos - last) with 0 by lia. now destruct (drop last text).
Qed.

(** What [append_ansi_text] inserts between and after the matches of the
    scan is the text without its sequences. *)
Lemma gaps_strip (text s : string) :
  forall (pos skip last : nat),
    drop pos text = s ->
    last = pos + skip \/ (skip = 0 /\ last <= pos) ->
    gaps text (scan skip pos s) last = slice last pos text ++ strip skip s.
Proof.
  induction s as [|c s IH]; intros pos skip last Hs Hl.
  - assert (E : scan skip pos "" = []) by now destruct skip.
    assert (E' : strip skip "" = "") by now destruct skip.
    rewrite E, E', append_empty_r. cbn [gaps].
    apply drop_empty in Hs.
    destruct Hl as [-> | [-> L]].
    + rewrite slice_empty by lia. apply drop_all. lia.
    + unfold slice. rewrite take_all; [reflexivity|]. rewrite length_drop. lia.
  - pose proof (drop_S _ _ _ _ Hs) as Hs'.
    destruct skip as [|k].
    + assert (L : last <= pos) by lia.
      cbn [scan strip].
      destruct (match_here (String c s)) as [g|] eqn:H.
      * pose proof (width_positive _ _ H) as W.
        cbn [gaps to_match m_start m_end]. f_equal.
        rewrite (IH (S pos) (width g - 1) (pos + width g) Hs') by lia.
        now rewrite slice_empty by lia.
      * rewrite (IH (S pos) 0 last Hs') by lia.
        rewrite (slice_snoc last pos text c s L Hs).
        now rewrite append_assoc.
    + cbn [scan strip].
      rewrite (IH (S pos) k last Hs') by lia.
      now rewrite !slice_empty by lia.
Qed.

Lemma gaps_finditer (text : string) :
  gaps text (finditer text) 0 = plain_text text.
Proof.
  unfold finditer, plain_text.
  rewrite (gaps_strip text text 0 0 0) by (auto; lia).
  reflexivity.
Qed.

(** ** What [append_ansi_text] changes *)

(** Unfolds the widget operations down to the record. *)
Ltac widget_simpl :=
  unfold output_step, same_session, at_end, insert_styled,
    QTextEdit.insertPlainText, QTextEdit.setCurrentCharFormat,
    QTextEdit.replace_selection, QTextEdit.selectionStart,
    QTextEdit.selectionEnd, QTextEdit.clear, QTextEdit.moveCursor_End,
    QTextEdit.hasSelection, QTextEdit.toPlainText, QTextEdit.goto,
    _reset_char_format_to_default, process_write,
    emit, set_buffer, set_char_format, set_current_format,
    set_input_start_pos, set_process_running, set_restart_count,
    set_last_started in *;
  cbn [terminal_id current_font current_format text anchor position
       char_format input_start_pos process_running restart_count
       last_started log] in *.

Lemma set_current_format_same (w : TerminalWidget) :
  set_current_format (current_format w) w = w.
Proof. now destruct w. Qed.

Lemma restyled_refl (w : TerminalWidget) : restyled w w.
Proof. exists (current_format w). symmetry. apply set_current_format_same. Qed.

Lemma restyled_trans (a b c : TerminalWidget) :
  restyled a b -> restyled b c -> restyled a c.
Proof. intros [f ->] [g ->]. now exists g. Qed.

Lemma restyled_set (f : QTextCharFormat) (w : TerminalWidget) :
  restyled w (set_current_format f w).
Proof. now exists f. Qed.

Lemma reset_restyled (w : TerminalWidget) :
  restyled w (_reset_char_format_to_default w).
Proof. unfold _reset_char_format_to_default. apply restyled_set. Qed.

Lemma apply_sgr_code_restyled (code : Z) (w : TerminalWidget) :
  restyled w (_apply_sgr_code code w).
Proof.
  unfold _apply_sgr_code.
  repeat match goal with
         | |- restyled _ (if ?b then _ else _) => destruct b
         | |- restyled _ (match ?o with Some _ => _ | None => _ end) => destruct o
         end;
    first [ apply reset_restyled | apply restyled_set | apply restyled_refl ].
Qed.

Lemma sgr_effect_restyled (n : nat) :
  forall (l : list string) (w : TerminalWidget),
    List.length l <= n -> restyled w (sgr_effect l w).
Proof.
  induction n as [|n IH]; intros l w L.
  - destruct l; [apply restyled_refl | simpl in L; lia].
  - destruct l as [|part tl]; [apply restyled_refl|].
    cbn [sgr_effect List.length] in *.
    destruct (code_of part) as [code|]; [|apply IH; lia].
    destruct ((code =? 38)%Z || (code =? 48)%Z).
    + destruct tl as [|mode tl1]; [apply restyled_refl|].
      cbn [List.length] in L.
      destruct (int mode) as [cm| |]; try (apply IH; cbn [List.length]; lia).
      destruct (cm =? 5)%Z.
      { destruct tl1; apply IH; cbn [List.length] in *; lia. }
      destruct (cm =? 2)%Z.
      { destruct tl1 as [|p1 [|p2 [|p3 tl4]]]; apply IH; cbn [List.length] in *; lia. }
      apply IH; lia.
    + eapply restyled_trans; [apply apply_sgr_code_restyled | apply IH; lia].
Qed.

Lemma text_of_runs_app (a b : list Event) :
  text_of_runs (a ++ b)%list = text_of_runs a ++ text_of_runs b.
Proof.
  induction a as [|e a IH]; [reflexivity|].
  destruct e; cbn [app text_of_runs]; rewrite IH; try reflexivity.
  now rewrite append_assoc.
Qed.

Lemma same_session_refl (w : TerminalWidget) : same_session w w.
Proof. now repeat split. Qed.

Lemma same_session_trans (a b c : TerminalWidget) :
  same_session a b -> same_session b c -> same_session a c.
Proof.
  unfold same_session. intros (A1 & A2 & A3 & A4 & A5) (B1 & B2 & B3 & B4 & B5).
  repeat split; congruence.
Qed.

Lemma output_step_refl (w : TerminalWidget) :
  at_end w -> output_step w w "" false.
Proof.
  intros E. split; [apply same_session_refl|]. split; [reflexivity|].
  split; [exact E|]. exists []. rewrite app_nil_r, append_empty_r. auto.
Qed.

Lemma output_step_trans (a b c : TerminalWidget) (o1 o2 : string) (c1 c2 : bool) :
  output_step a b o1 c1 -> output_step b c o2 c2 ->
  output_step a c (o1 ++ o2) (c1 || c2).
Proof.
  intros (S1 & I1 & E1 & n1 & L1 & D1 & T1 & X1) (S2 & I2 & E2 & n2 & L2 & D2 & T2 & X2).
  split; [eapply same_session_trans; eassumption|].
  split; [congruence|]. split; [exact E2|].
  exists (n1 ++ n2)%list. repeat split.
  - now rewrite L2, L1, app_assoc.
  - now rewrite forallb_app, D1, D2.
  - now rewrite text_of_runs_app, T1, T2.
  - intros C. apply orb_false_iff in C as [C1 C2].
    now rewrite (X2 C2), (X1 C1), append_assoc.
Qed.

Lemma output_step_restyled (w w2 : TerminalWidget) :
  at_end w -> restyled w w2 -> output_step w w2 "" false.
Proof.
  intros E [f ->]. destruct w; widget_simpl.
  split; [now repeat split|]. split; [reflexivity|]. split; [exact E|].
  exists []. cbn. rewrite app_nil_r, append_empty_r. auto.
Qed.

Lemma insert_styled_step (seg : string) (w : TerminalWidget) :
  at_end w -> output_step w (insert_styled seg w) seg false.
Proof.
  intros [Ea Ep]. destruct w; widget_simpl.
  subst anchor0 position0. rewrite Nat.min_id, Nat.max_id.
  rewrite take_all, drop_all, append_empty_r by lia.
  split; [now repeat split|]. split; [reflexivity|].
  split; [split; cbn; now rewrite length_append|].
  eexists. split; [reflexivity|]. cbn. rewrite append_empty_r. auto.
Qed.

Lemma handle_match_step (m : Match) (w : TerminalWidget) :
  at_end w ->
  exists w2, handle_match m w = Ok w2 /\ output_step w w2 "" (clears m).
Proof.
  intros E. unfold handle_match, clears.
  destruct (g_sgr m) as [sgr|].
  { rewrite handle_sgr_effect. eexists. split; [reflexivity|].
    apply output_step_restyled; [exact E|].
    eapply sgr_effect_restyled. apply Nat.le_refl. }
  destruct (truthy (g_osc_t m) && truthy (g_osc_c m)).
  { destruct (g_osc_t m) as [t|], (g_osc_c m) as [c|];
      try (eexists; split; [reflexivity | now apply output_step_refl]).
    destruct (str_in t ["0"; "1"; "2"]);
      [| eexists; split; [reflexivity | now apply output_step_refl]].
    eexists. split; [reflexivity|].
    destruct E as [Ea Ep]. destruct w; widget_simpl.
    split; [now repeat split|]. split; [reflexivity|]. split; [now split|].
    eexists. split; [reflexivity|]. cbn. rewrite append_empty_r. auto. }
  destruct (g_csi_p m) as [p|], (g_csi_l m) as [l|];
    try (eexists; split; [reflexivity | now apply output_step_refl]).
  destruct (String.eqb l "J"); cbn [andb].
  - destruct (String.eqb p "2").
    + eexists. split; [reflexivity|].
      destruct w; widget_simpl.
      split; [now repeat split|]. split; [reflexivity|]. split; [now split|].
      eexists. split; [reflexivity|]. cbn. split; [reflexivity|].
      split; [reflexivity | discriminate].
    + eexists; split; [reflexivity | now apply output_step_refl].
  - destruct (String.eqb l "K");
      eexists; split; [reflexivity | now apply output_step_refl
                       | reflexivity | now apply output_step_refl].
Qed.

Lemma output_step_at_end (a b : TerminalWidget) (o : string) (c : bool) :
  output_step a b o c -> at_end b.
Proof. now intros (_ & _ & E & _). Qed.

Lemma for_matches_step (text : string) (ms : list Match) :
  forall (last : nat) (w : TerminalWidget),
    at_end w ->
    exists last2 w2 out,
      for_matches text ms last w = Ok (last2, w2) /\
      output_step w w2 out (existsb clears ms) /\
      out ++ drop last2 text = gaps text ms last.
Proof.
  induction ms as [|m ms IH]; intros last w E.
  - exists last, w, "". split; [reflexivity|]. split; [now apply output_step_refl|].
    reflexivity.
  - cbn [for_matches gaps existsb].
    set (w1 := if (last <? m_start m)%nat
               then insert_styled (slice last (m_start m) text) w else w).
    assert (S1 : output_step w w1 (slice last (m_start m) text) false).
    { subst w1. destruct (last <? m_start m)%nat eqn:L.
      - now apply insert_styled_step.
      - apply Nat.ltb_ge in L. rewrite slice_empty by lia.
        now apply output_step_refl. }
    destruct (handle_match_step m w1 (output_step_at_end _ _ _ _ S1)) as (w2 & H2 & S2).
    rewrite H2. cbn [bind].
    destruct (IH (m_end m) w2 (output_step_at_end _ _ _ _ S2)) as (last3 & w3 & out & H3 & S3 & G).
    exists last3, w3, (slice last (m_start m) text ++ out). split; [exact H3|]. split.
    + pose proof (output_step_trans _ _ _ _ _ _ _ S1 (output_step_trans _ _ _ _ _ _ _ S2 S3)) as S.
      cbn [orb append] in S. exact S.
    + now rewrite append_assoc, G.
Qed.

(** [append_ansi_text] on any chunk and any widget: it returns, the session
    fields are untouched, caret and input boundary end at the end of the
    text, the log grows by display events whose runs spell the chunk without
    its sequences, and that text is appended unless the chunk clears the
    screen. *)
Lemma append_ansi_text_spec (chunk : string) (w : TerminalWidget) :
  exists w2,
    append_ansi_text chunk w = Ok w2 /\
    same_session w w2 /\
    at_end w2 /\
    input_start_pos w2 = String.length (text w2) /\
    exists new,
      log w2 = (log w ++ new)%list /\
      forallb display_event new = true /\
      text_of_runs new = plain_text chunk /\
      (clears_screen chunk = false -> text w2 = text w ++ plain_text chunk).
Proof.
  unfold append_ansi_text.
  assert (E0 : at_end (QTextEdit.moveCursor_End w)) by (destruct w; now split).
  assert (S0 : output_step w (QTextEdit.moveCursor_End w) "" false).
  { destruct w; widget_simpl. split; [now repeat split|]. split; [reflexivity|].
    split; [now split|]. exists []. cbn. rewrite app_nil_r, append_empty_r. auto. }
  destruct (for_matches_step chunk (finditer chunk) 0 _ E0) as (last & w1 & out & H & S1 & G).
  rewrite H. cbn [bind].
  set (w2 := if (last <? String.length chunk)%nat
             then insert_styled (drop last chunk) w1 else w1).
  assert (S2 : output_step w1 w2 (drop last chunk) false).
  { subst w2. destruct (last <? String.length chunk)%nat eqn:L.
    - apply insert_styled_step. eapply output_step_at_end; eassumption.
    - apply Nat.ltb_ge in L. rewrite drop_all by lia.
      apply output_step_refl. eapply output_step_at_end; eassumption. }
  pose proof (output_step_trans _ _ _ _ _ _ _ S0 (output_step_trans _ _ _ _ _ _ _ S1 S2)) as S.
  cbn [orb append] in S. rewrite G, gaps_finditer in S.
  destruct S as (SS & I & [Ea Ep] & new & L & D & T & X).
  eexists. split; [reflexivity|].
  destruct w2; widget_simpl.
  split; [exact SS|]. split; [now split|]. split; [reflexivity|].
  exists new. unfold clears_screen. rewrite orb_false_r in X. auto.
Qed.

(** ** A chunk that is one sequence *)

Lemma scan_skip_all (k pos : nat) (s : string) :
  String.length s <= k -> scan k pos s = [].
Proof.
  revert k pos; induction s as [|c s IH]; intros k pos L; [now destruct k|].
  destruct k as [|k]; simpl in L; [lia|]. cbn [scan]. apply IH. lia.
Qed.

Lemma finditer_sequence (m : string) (g : Groups) :
  sequence m g -> finditer m = [to_match 0 g] /\ width g = String.length m.
Proof.
  intros Hseq.
  pose proof (match_here_complete _ _ Hseq "") as H. rewrite append_empty_r in H.
  destruct (sequence_interior _ _ Hseq) as (body & -> & Hw & _).
  unfold finditer. cbn [scan]. rewrite H. split; [|exact Hw].
  f_equal. apply scan_skip_all. lia.
Qed.

Lemma append_ansi_text_sequence (m : string) (g : Groups) (w : TerminalWidget) :
  sequence m g ->
  append_ansi_text m w
  = (w1 <- handle_match (to_match 0 g) (QTextEdit.moveCursor_End w) ;;
     Ok (finish w1)).
Proof.
  intros Hseq. destruct (finditer_sequence _ _ Hseq) as [F W].
  unfold append_ansi_text. rewrite F. cbn [for_matches to_match m_start m_end].
  rewrite Nat.ltb_irrefl.
  destruct (handle_match _ _) as [w1| |]; cbn [bind]; try reflexivity.
  rewrite W. cbn [Nat.add]. now rewrite Nat.ltb_irrefl.
Qed.

(** * The claims *)

(** ** C5: reset *)

Lemma apply_after_reset_default (w : TerminalWidget) :
  current_format (_apply_sgr_code 0 w) = default_format.
Proof. reflexivity. Qed.

Lemma current_format_finish (w : TerminalWidget) :
  current_format (finish w) = current_format w.
Proof. now destruct w. Qed.

Lemma reset_sequence_default (run : string) (w : TerminalWidget) :
  run = "0" \/ run = "" ->
  exists w2,
    append_ansi_text (String ESC (String "[" (run ++ "m"))) w = Ok w2 /\
    current_format w2 = default_format.
Proof.
  intros Hrun.
  rewrite (append_ansi_text_sequence _ _ w (seq_sgr run
             ltac:(destruct Hrun as [-> | ->]; reflexivity))).
  cbn [handle_match to_match g_sgr sgr].
  rewrite handle_sgr_effect.
  eexists. split; [reflexivity|].
  rewrite current_format_finish.
  destruct Hrun as [-> | ->]; reflexivity.
Qed.

(** C5.  Whatever SGR codes were applied, to whatever style and under
    whatever font, applying code 0 afterwards leaves the default style:
    white on black, normal weight, neither italic nor underlined.  This
    holds for [_apply_sgr_code 0] after any run of [_apply_sgr_code], and for
    the reset sequence [ESC [ 0 m] fed to [append_ansi_text] in any widget;
    the sequence with no parameter, [ESC [ m], is handled as the list with
    the single parameter [0]. *)
Theorem C5_reset_restores_default_style :
  (forall (codes : list Z) (w : TerminalWidget),
      current_format (_apply_sgr_code 0 (apply_codes codes w)) = default_format)
  /\ (forall w : TerminalWidget,
        exists w2,
          append_ansi_text (esc ++ "[0m") w = Ok w2 /\
          current_format w2 = default_format)
  /\ (forall w : TerminalWidget,
        handle_sgr "" w = handle_sgr "0" w /\
        append_ansi_text (esc ++ "[m") w = append_ansi_text (esc ++ "[0m") w).
Proof.
  split; [|split].
  - intros codes w. apply apply_after_reset_default.
  - intros w. apply (reset_sequence_default "0"). now left.
  - intros w. split; [reflexivity|].
    change (esc ++ "[m") with (String ESC (String "[" ("" ++ "m"))).
    change (esc ++ "[0m") with (String ESC (String "[" ("0" ++ "m"))).
    rewrite (append_ansi_text_sequence _ _ w (seq_sgr "" eq_refl)).
    rewrite (append_ansi_text_sequence _ _ w (seq_sgr "0" eq_refl)).
    reflexivity.
Qed.

(** ** C3: malformed parameters *)

(** C3, on [term3.py].  The sequence [ESC [ 38 ; ? m] makes
    [append_ansi_text] of [term3.py] raise [ValueError]: the colour mode is
    converted outside any [try]. *)
Theorem C3_term3_raises_on_malformed_colour_mode :
  Term3.append_ansi_text (esc ++ "[38;?m") fresh_widget = Raise ValueError.
Proof. vm_compute. reflexivity. Qed.

(** The same chunk in [term66.py]: the sequence is passed over. *)
Lemma term66_malformed_colour_mode_passed_over :
  exists w, append_ansi_text (esc ++ "[38;?m") fresh_widget = Ok w /\
            current_format w = default_format /\ text w = "" /\ log w = [].
Proof. vm_compute. eexists. repeat split. Qed.

(** In [term66.py], a list whose parameters are numbers other than 38 and
    48, empty or malformed: the malformed ones are left out and every other
    one is applied, in order. *)
Lemma term66_numeric_codes_applied (parts : list string) :
  forall w : TerminalWidget,
    forallb (fun part => negb (extended part)) parts = true ->
    sgr_params parts w = Ok (apply_codes (codes_of parts) w).
Proof.
  intros w H. rewrite sgr_params_effect. f_equal. revert w H.
  induction parts as [|part tl IH]; intros w H; [reflexivity|].
  cbn [forallb] in H. apply andb_true_iff in H as [Hp H].
  cbn [sgr_effect codes_of]. unfold extended in Hp.
  destruct (code_of part) as [code|]; [|now apply IH].
  apply negb_true_iff in Hp. rewrite Hp. cbn [apply_codes fold_left].
  now apply IH.
Qed.

(** ** C4: extended colours *)

(** C4, as the claim states it, fails: in [ESC [ 38 ; 2 ; 1 ; 4 m] the mode
    2 is followed by two parameters only; nothing is consumed and 1 and 4
    are applied as codes of their own, bold and underline. *)
Lemma C4_truncated_subparameters_are_applied :
  exists w,
    append_ansi_text (esc ++ "[38;2;1;4m") fresh_widget = Ok w /\
    fontWeight (current_format w) = Weight.Bold /\
    fontUnderline (current_format w) = true /\
    fontWeight (current_format fresh_widget) = Weight.Normal /\
    fontUnderline (current_format fresh_widget) = false.
Proof. vm_compute. eexists. repeat split. Qed.

(** C4, amended.  When the loop stands at a parameter 38 or 48 (at any index
    [idx], with the rounds left that the loop has there) and the next
    parameter is 5 and one more follows, the loop goes on three parameters
    further with the style untouched; when the next is 2 and three more
    follow, five parameters further; what follows is handled as a parameter
    list of its own.  When the list ends before the sub-parameters are
    complete nothing is consumed: the loop goes on with the parameter after
    the 38 or 48. *)
Theorem C4_extended_colour_subparameters
    (parts : list string) (idx fuel : nat) (w : TerminalWidget) :
  List.length parts - idx <= fuel ->
  idx < List.length parts ->
  extended (nth idx parts "") = true ->
  (int (nth (idx + 1) parts "") = Ok 5%Z ->
     (idx + 2 < List.length parts ->
        sgr_loop fuel parts idx w = sgr_params (skipn (idx + 3) parts) w) /\
     (List.length parts <= idx + 2 ->
        sgr_loop fuel parts idx w = sgr_params (skipn (idx + 1) parts) w))
  /\ (int (nth (idx + 1) parts "") = Ok 2%Z ->
     (idx + 4 < List.length parts ->
        sgr_loop fuel parts idx w = sgr_params (skipn (idx + 5) parts) w) /\
     (List.length parts <= idx + 4 ->
        sgr_loop fuel parts idx w = sgr_params (skipn (idx + 1) parts) w)).
Proof.
  intros Hfuel Hidx Hext.
  rewrite sgr_loop_at by exact Hfuel. rewrite !sgr_params_effect.
  rewrite (skipn_nth_cons parts idx Hidx).
  unfold extended in Hext.
  cbn [sgr_effect].
  destruct (code_of (nth idx parts "")) as [code|]; [|discriminate].
  rewrite Hext.
  replace (idx + 1) with (S idx) by lia.
  replace (idx + 3) with (S (S (S idx))) by lia.
  replace (idx + 5) with (S (S (S (S (S idx))))) by lia.
  assert (Hmode : forall v, int (nth (S idx) parts "") = Ok v ->
                            S idx < List.length parts).
  { intros v Hv. destruct (Nat.lt_ge_cases (S idx) (List.length parts)) as [|L];
      [assumption|]. rewrite nth_overflow in Hv by exact L. discriminate Hv. }
  split; intros Hm; pose proof (Hmode _ Hm) as L1;
    rewrite (skipn_nth_cons parts (S idx) L1), Hm; cbn [Z.eqb Pos.eqb];
    rewrite <- (skipn_nth_cons parts (S idx) L1).
  - split; intros L.
    + rewrite (skipn_nth_cons parts (S (S idx))) by lia. reflexivity.
    + rewrite (skipn_all2 parts (n := S (S idx))) by lia. reflexivity.
  - split; intros L.
    + rewrite (skipn_nth_cons parts (S (S idx))) by lia.
      rewrite (skipn_nth_cons parts (S (S (S idx)))) by lia.
      rewrite (skipn_nth_cons parts (S (S (S (S idx))))) by lia.
      reflexivity.
    + destruct (Nat.lt_ge_cases (S (S idx)) (List.length parts)) as [L2|L2];
        [|rewrite (skipn_all2 parts (n := S (S idx))) by lia; reflexivity].
      rewrite (skipn_nth_cons parts (S (S idx))) by lia.
      destruct (Nat.lt_ge_cases (S (S (S idx))) (List.length parts)) as [L3|L3];
        [|rewrite (skipn_all2 parts (n := S (S (S idx)))) by lia; reflexivity].
      rewrite (skipn_nth_cons parts (S (S (S idx)))) by lia.
      rewrite (skipn_all2 parts (n := S (S (S (S idx))))) by lia. reflexivity.
Qed.

(** The list [1; 38; 5; 208; 4] with the loop standing at the 38: the
    palette index 208 is consumed with the mode, and the 4 that follows is
    handled as a list of its own. *)
Lemma C4_palette_index_witness :
  sgr_loop 4 ["1"; "38"; "5"; "208"; "4"] 1 fresh_widget
  = sgr_params ["4"] fresh_widget.
Proof.
  refine (proj1 (proj1 (C4_extended_colour_subparameters
                          ["1"; "38"; "5"; "208"; "4"] 1 4 fresh_widget _ _ _) _) _).
  - cbn. lia.
  - cbn. lia.
  - reflexivity.
  - reflexivity.
  - cbn. lia.
Defined.

Lemma output_step_log (a b : TerminalWidget) (o : string) (c : bool) :
  output_step a b o c -> exists new, log b = (log a ++ new)%list.
Proof. intros (_ & _ & _ & new & L & _). now exists new. Qed.

(** Every match of the list is handed to [handle_match], and what the
    handler logged stays in the log. *)
Lemma for_matches_handled (chunk : string) (mm : Match) (ms : list Match) :
  forall (last : nat) (w : TerminalWidget) (last2 : nat) (w2 : TerminalWidget),
    at_end w -> In mm ms ->
    for_matches chunk ms last w = Ok (last2, w2) ->
    exists wa wb new,
      handle_match mm wa = Ok wb /\ log w2 = (log wb ++ new)%list.
Proof.
  induction ms as [|m ms IH]; intros last w last2 w2 E Hin H; [contradiction|].
  cbn [for_matches] in H.
  set (w1 := if (last <? m_start m)%nat
             then insert_styled (slice last (m_start m) chunk) w else w) in *.
  assert (E1 : at_end w1).
  { subst w1. destruct (last <? m_start m)%nat; [|exact E].
    eapply output_step_at_end. now apply insert_styled_step. }
  destruct (handle_match_step m w1 E1) as (wb & Hb & Sb).
  rewrite Hb in H. cbn [bind] in H.
  destruct Hin as [-> | Hin].
  - destruct (for_matches_step chunk ms (m_end mm) wb (output_step_at_end _ _ _ _ Sb))
      as (l3 & w3 & out & H3 & S3 & _).
    rewrite H3 in H. inversion H; subst.
    destruct (output_step_log _ _ _ _ S3) as [new L].
    now exists w1, wb, new.
  - eapply IH; [eapply output_step_at_end; eassumption | exact Hin | exact H].
Qed.

(** ** C6: titles *)

Lemma log_finish (w : TerminalWidget) : log (finish w) = log w.
Proof. now destruct w. Qed.

Lemma text_finish (w : TerminalWidget) : text (finish w) = text w.
Proof. now destruct w. Qed.

Lemma osc_command_in (n : ascii) :
  one_of "012" n = true -> str_in (String n "") ["0"; "1"; "2"] = true.
Proof. intros H. split_one_of H; reflexivity. Qed.

(** The handler on an OSC match: a title is emitted when the payload is not
    empty, and nothing happens when it is. *)
Lemma handle_match_osc (pos : nat) (n : ascii) (payload : string) (len : nat)
    (w : TerminalWidget) :
  one_of "012" n = true ->
  handle_match
    (to_match pos (mkGroups len None (Some (String n "")) (Some payload)
                     None None None None)) w
  = Ok (if is_empty payload then w else emit (TitleChanged payload) w).
Proof.
  intros Hn. unfold handle_match.
  cbn [to_match g_sgr g_osc_t g_osc_c g_csi_p g_csi_l sgr osc_t osc_c csi_p csi_l
       truthy is_empty negb andb].
  destruct payload as [|c payload]; cbn [is_empty negb]; [reflexivity|].
  now rewrite (osc_command_in n Hn).
Qed.

(** A title sequence with a payload, anywhere in a chunk: the title is
    emitted. *)
Lemma osc_title_anywhere (pre rest : string) (n : ascii) (payload term : string)
    (w : TerminalWidget) :
  one_of "012" n = true ->
  all_chars osc_char payload = true ->
  term = bel \/ term = String ESC "\" ->
  payload <> "" ->
  exists w2,
    append_ansi_text
      (pre ++ String ESC (String "]" (String n (String ";" (payload ++ term))))
           ++ rest) w = Ok w2 /\
    In (TitleChanged payload) (log w2).
Proof.
  intros Hn Hp Ht Hne.
  set (m := String ESC (String "]" (String n (String ";" (payload ++ term))))).
  set (chunk := pre ++ m ++ rest).
  assert (Hin : In (to_match (String.length pre)
                      (mkGroups (4 + String.length payload + String.length term)
                         None (Some (String n "")) (Some payload) None None None None))
                   (finditer chunk)).
  { unfold finditer. rewrite scan_every_match.
    apply (every_match_at pre (m ++ rest) 0).
    apply match_here_complete. now constructor. }
  unfold append_ansi_text.
  assert (E0 : at_end (QTextEdit.moveCursor_End w)) by (destruct w; now split).
  destruct (for_matches_step chunk (finditer chunk) 0 _ E0)
    as (last & w1 & out & H & S1 & _).
  rewrite H. cbn [bind].
  destruct (for_matches_handled _ _ _ _ _ _ _ E0 Hin H) as (wa & wb & new & Hb & L).
  rewrite handle_match_osc in Hb by exact Hn.
  destruct payload as [|c payload]; [now contradiction Hne|].
  cbn [is_empty] in Hb. inversion Hb; subst wb. clear Hb.
  eexists. split; [reflexivity|].
  assert (Hw1 : In (TitleChanged (String c payload)) (log w1)).
  { rewrite L. apply in_or_app. left. destruct wa; widget_simpl.
    apply in_or_app. right. now left. }
  destruct (last <? String.length chunk)%nat.
  + destruct w1; widget_simpl. apply in_or_app. now left.
  + destruct w1; widget_simpl. exact Hw1.
Qed.

(** C6, as the claim states it, fails for the empty payload: [ESC ] 0 ; BEL]
    is recognised as an OSC with command 0 and payload [""], and no title
    change is emitted for it. *)
Lemma C6_empty_payload_emits_no_title :
  finditer (esc ++ "]0;" ++ bel)
  = [mkMatch 0 5 None (Some "0") (Some "") None None None None]
  /\ exists w, append_ansi_text (esc ++ "]0;" ++ bel) fresh_widget = Ok w /\
               log w = [].
Proof. split; [reflexivity|]. vm_compute. eexists. split; reflexivity. Qed.

(** C6, amended.  A chunk that is one OSC sequence with command 0, 1 or 2,
    closed by BEL or by ESC and a backslash: when the payload is not empty,
    one [TitleChanged] carrying the payload as it stands is emitted, and
    nothing else; when the payload is empty, nothing is emitted.  In both
    cases no text is inserted.  And wherever such a sequence with a payload
    that is not empty stands in a chunk, its title is emitted. *)
Theorem C6_title_changed_for_nonempty_payload
    (pre rest : string) (n : ascii) (payload term : string) (w : TerminalWidget) :
  one_of "012" n = true ->
  all_chars osc_char payload = true ->
  term = bel \/ term = String ESC "\" ->
  (exists w2,
     append_ansi_text
       (String ESC (String "]" (String n (String ";" (payload ++ term))))) w
     = Ok w2 /\
     log w2 = (log w ++ (if is_empty payload then []
                         else [TitleChanged payload]))%list /\
     text w2 = text w)
  /\ (payload <> "" ->
      exists w2,
        append_ansi_text
          (pre ++ String ESC (String "]" (String n (String ";" (payload ++ term))))
               ++ rest) w = Ok w2 /\
        In (TitleChanged payload) (log w2)).
Proof.
  intros Hn Hp Ht. split; [|now apply osc_title_anywhere].
  rewrite (append_ansi_text_sequence _ _ w (seq_osc n payload term Hn Hp Ht)).
  rewrite handle_match_osc by exact Hn. cbn [bind].
  eexists. split; [reflexivity|].
  rewrite log_finish, text_finish.
  destruct (is_empty payload); destruct w; widget_simpl;
    split; try reflexivity.
  now rewrite app_nil_r.
Qed.

(** The example of the claim: the title [My Title], and no text run. *)
Lemma C6_my_title_witness :
  exists w2,
    append_ansi_text (esc ++ "]0;My Title" ++ bel) fresh_widget = Ok w2 /\
    log w2 = [TitleChanged "My Title"] /\ text w2 = "".
Proof.
  exact (proj1 (C6_title_changed_for_nonempty_payload "" "" "0" "My Title" bel
                  fresh_widget eq_refl eq_refl (or_introl eq_refl))).
Defined.

(** ** Sequences that are found and handled *)


(** ** Keys *)

Lemma take_take (n m : nat) (s : string) :
  n <= m -> take n (take m s) = take n s.
Proof.
  revert m s; induction n as [|n IH]; intros [|m] [|c s] L; simpl;
    try reflexivity; try lia.
  now rewrite IH by lia.
Qed.

Lemma Key_eqb_eq (a b : Key) : Key_eqb a b = true <-> a = b.
Proof. destruct a, b; simpl; split; intros H; (reflexivity || discriminate). Qed.

Lemma no_selection (w : TerminalWidget) :
  QTextEdit.hasSelection w = false -> anchor w = position w.
Proof.
  unfold QTextEdit.hasSelection. intros H.
  apply negb_false_iff, Nat.eqb_eq in H. exact H.
Qed.

(** A deletion key pressed with nothing selected: the text before the input
    boundary, the boundary and the session stay; nothing is selected
    afterwards; the key reaches the inherited handler only when the
    boundary is not beyond the end of the text. *)
Lemma deletion_without_selection (ev : QKeyEvent) (w : TerminalWidget) :
  is_deletion ev = true ->
  QTextEdit.hasSelection w = false ->
  exists w2,
    keyPressEvent ev w = Ok w2 /\
    QTextEdit.hasSelection w2 = false /\
    input_start_pos w2 = input_start_pos w /\
    (control ev = false ->
     take (input_start_pos w) (text w2) = take (input_start_pos w) (text w)) /\
    (log w2 = log w \/
     (log w2 = (log w ++ [SuperKeyPress ev])%list /\
      input_start_pos w <= String.length (text w))) /\
    (input_start_pos w = String.length (text w) -> text w2 = text w).
Proof.
  intros Hdel Hsel. unfold is_deletion in Hdel.
  unfold keyPressEvent. rewrite Hsel. cbn [negb orb].
  destruct (key ev) eqn:Hkey; try discriminate Hdel; cbn [Key_eqb andb orb].
  - (* Backspace *)
    destruct w; widget_simpl.
    destruct (input_start_pos0 <? String.length text0)%nat eqn:L.
    + apply Nat.ltb_lt in L.
      unfold QTextEdit.keyPressEvent. rewrite Hkey. widget_simpl.
      rewrite Nat.eqb_refl. cbn [negb].
      destruct (control ev) eqn:Hc.
      * eexists. split; [reflexivity|]. widget_simpl.
        rewrite Nat.eqb_refl.
        repeat split; auto; try discriminate;
          try (right; split; [reflexivity | lia]); lia.
      * destruct (0 <? String.length text0)%nat eqn:L0;
          [|apply Nat.ltb_ge in L0; lia].
        eexists. split; [reflexivity|]. widget_simpl.
        rewrite Nat.eqb_refl, drop_all, append_empty_r by lia.
        rewrite take_take by lia.
        repeat split; auto; try (right; split; [reflexivity | lia]); lia.
    + apply Nat.ltb_ge in L.
      eexists. split; [reflexivity|]. widget_simpl.
      rewrite Nat.eqb_refl. repeat split; auto.
  - (* Delete *)
    destruct w; widget_simpl.
    destruct (input_start_pos0 <=? String.length text0)%nat eqn:L.
    + apply Nat.leb_le in L.
      unfold QTextEdit.keyPressEvent. rewrite Hkey. widget_simpl.
      rewrite Nat.eqb_refl. cbn [negb].
      destruct (control ev) eqn:Hc;
        eexists; (split; [reflexivity|]); widget_simpl;
        rewrite Nat.eqb_refl, drop_all, append_empty_r,
          (take_all (String.length text0) text0) by lia;
        repeat split; auto.
    + apply Nat.leb_gt in L.
      eexists. split; [reflexivity|]. widget_simpl.
      rewrite Nat.eqb_refl. repeat split; auto.
Qed.

Lemma log_super (ev : QKeyEvent) (w : TerminalWidget) :
  log (QTextEdit.keyPressEvent ev w) = (log w ++ [SuperKeyPress ev])%list.
Proof.
  unfold QTextEdit.keyPressEvent.
  destruct (key ev);
    repeat match goal with
           | |- context [if ?b then _ else _] => destruct b
           end;
    destruct w; reflexivity.
Qed.

(** ** C7: committed history *)

(** A deletion key held with no Control modifier. *)
Lemma deletion_keys_without_control_keep_history (evs : list QKeyEvent) :
  forall w : TerminalWidget,
    forallb (fun ev => is_deletion ev && negb (control ev)) evs = true ->
    QTextEdit.hasSelection w = false ->
    exists w2,
      press_keys evs w = Ok w2 /\
      take (input_start_pos w) (text w2) = take (input_start_pos w) (text w) /\
      input_start_pos w2 = input_start_pos w.
Proof.
  induction evs as [|ev evs IH]; intros w Hdel Hsel.
  - exists w. auto.
  - cbn [forallb] in Hdel. apply andb_true_iff in Hdel as [Hev Hdel].
    apply andb_true_iff in Hev as [Hev Hc]. apply negb_true_iff in Hc.
    destruct (deletion_without_selection ev w Hev Hsel)
      as (w1 & H1 & Hsel1 & Hb1 & Ht1 & _).
    destruct (IH w1 Hdel Hsel1) as (w2 & H2 & Ht2 & Hb2).
    exists w2. cbn [press_keys]. rewrite H1. cbn [bind].
    split; [exact H2|]. rewrite Hb1 in Ht2, Hb2.
    split; [rewrite Ht2; now apply Ht1 | exact Hb2].
Qed.

(** A deletion key, with any modifier, reaches the inherited handler only
    when text is selected or the edit point is at or after the input
    boundary. *)
Lemma deletion_key_forwarding (ev : QKeyEvent) (w : TerminalWidget) :
  is_deletion ev = true ->
  exists w2,
    keyPressEvent ev w = Ok w2 /\
    (log w2 = log w \/
     (log w2 = (log w ++ [SuperKeyPress ev])%list /\
      (QTextEdit.hasSelection w = true \/
       input_start_pos w <= edit_point w))).
Proof.
  intros Hdel. destruct (QTextEdit.hasSelection w) eqn:Hsel.
  - unfold keyPressEvent, is_deletion in *. rewrite Hsel. cbn [negb orb].
    destruct (key ev) eqn:Hkey; try discriminate Hdel; cbn [Key_eqb andb orb];
      eexists; (split; [reflexivity|]); right; rewrite log_super; auto.
  - destruct (deletion_without_selection ev w Hdel Hsel)
      as (w2 & H & _ & _ & _ & [L | [L B]] & _).
    + exists w2. auto.
    + exists w2. split; [exact H|]. right. split; [exact L|]. right.
      unfold edit_point. now rewrite Hsel.
Qed.

(** C7.  Backspace with Control, pressed with nothing selected while the
    text is [abcdef] and the input boundary is 3: the edit point, 6, is
    after the boundary, so the key goes to the inherited handler, which
    removes the word before the caret, all six characters.  The text before
    the boundary is gone and the boundary is still 3. *)
Theorem C7_control_backspace_removes_committed_text :
  QTextEdit.hasSelection (widget_with "abcdef" 3 true) = false /\
  exists w2,
    keyPressEvent (mkKeyEvent Key_Backspace true "" 0)
      (widget_with "abcdef" 3 true) = Ok w2 /\
    log w2 = [SuperKeyPress (mkKeyEvent Key_Backspace true "" 0)] /\
    text w2 = "" /\
    input_start_pos w2 = 3 /\
    take 3 (text w2) <> take 3 (text (widget_with "abcdef" 3 true)).
Proof.
  split; [reflexivity|]. vm_compute. eexists. repeat split. discriminate.
Qed.

(** Without Control: three presses of Backspace and one of Delete after
    [ls] was typed at the prompt take the two typed characters and leave the
    prompt. *)
Lemma deletion_keys_at_the_prompt :
  exists w2,
    press_keys [plain_key Key_Backspace; plain_key Key_Backspace;
                plain_key Key_Backspace; plain_key Key_Delete]
      (widget_with "prompt> ls" 8 true) = Ok w2 /\
    take 8 (text w2) = "prompt> " /\
    input_start_pos w2 = 8.
Proof.
  exact (deletion_keys_without_control_keep_history
           [plain_key Key_Backspace; plain_key Key_Backspace;
            plain_key Key_Backspace; plain_key Key_Delete]
           (widget_with "prompt> ls" 8 true) eq_refl eq_refl).
Qed.

(** ** C2: submitting a line *)

(** Return or Enter that gets past the guard on the text before the
    boundary: what [keyPressEvent] does up to the write. *)
Lemma keyPressEvent_submit (ev : QKeyEvent) (w : TerminalWidget) :
  is_submit ev = true ->
  past_guard w = true ->
  keyPressEvent ev w
  = (let w1 := QTextEdit.moveCursor_End w in
     let cmd := rstrip LF (drop (input_start_pos w) (text w)) in
     w2 <- (if process_running w then Ok (process_write (cmd ++ nl) w1)
            else append_ansi_text
                   (esc ++ "[31mShell not running." ++ esc ++ "[0m" ++ nl) w1) ;;
     let w3 := QTextEdit.keyPressEvent ev w2 in
     Ok (set_input_start_pos (position w3) w3)).
Proof.
  intros Hsub Hguard. unfold is_submit, past_guard in *.
  unfold keyPressEvent.
  assert (Hc : Key_eqb (key ev) Key_C = false) by (destruct (key ev); auto; discriminate).
  assert (Hb : Key_eqb (key ev) Key_Backspace = false) by (destruct (key ev); auto; discriminate).
  assert (Hd : Key_eqb (key ev) Key_Delete = false) by (destruct (key ev); auto; discriminate).
  rewrite Hc, Hb, Hd, Hsub. cbn [andb].
  destruct (QTextEdit.hasSelection w) eqn:Hsel; cbn [negb andb orb] in *.
  - destruct w; reflexivity.
  - apply Nat.leb_le in Hguard.
    assert (L : (position (QTextEdit.moveCursor_End w)
                 <? input_start_pos (QTextEdit.moveCursor_End w))%nat = false).
    { destruct w; widget_simpl. apply Nat.ltb_ge. exact Hguard. }
    rewrite L. destruct w; reflexivity.
Qed.

Lemma super_submit_at_end (ev : QKeyEvent) (w : TerminalWidget) :
  is_submit ev = true -> at_end w ->
  text (QTextEdit.keyPressEvent ev w) = text w ++ nl /\
  position (QTextEdit.keyPressEvent ev w) = String.length (text w ++ nl).
Proof.
  intros Hsub [Ea Ep]. unfold is_submit in Hsub. unfold QTextEdit.keyPressEvent.
  destruct (key ev); try discriminate Hsub;
    destruct w; widget_simpl; subst;
    rewrite Nat.min_id, Nat.max_id, take_all, drop_all by lia;
    rewrite length_append; auto.
Qed.

(** C2, as the claim states it, fails on its example: with the boundary at
    10 in [prompt> ls -la] followed by a line break, the text from the
    boundary on is [ -la], and that is what is sent. *)
Lemma C2_boundary_10_sends_other_text :
  exists w2,
    keyPressEvent (plain_key Key_Return)
      (widget_with ("prompt> ls -la" ++ nl) 10 true) = Ok w2 /\
    writes (log w2) = [ProcessWrite (" -la" ++ nl)] /\
    " -la" ++ nl <> "ls -la" ++ nl.
Proof.
  vm_compute. eexists. split; [reflexivity|]. split; [reflexivity | discriminate].
Qed.

(** C2, amended.  On Return or Enter with the process running and the key
    not held back by the guard on the text before the boundary (text is
    selected, or the boundary is not beyond the end of the text): the text
    from [input_start_pos] to the end, its trailing line breaks taken off
    and one line break added, is written to the child process, once; the key
    then goes to the inherited handler, which adds a line break to the text,
    and the boundary moves to the new end.  The example holds with the
    boundary at 8. *)
Theorem C2_submit_sends_the_input_line (ev : QKeyEvent) (w : TerminalWidget) :
  is_submit ev = true ->
  process_running w = true ->
  past_guard w = true ->
  exists w2,
    keyPressEvent ev w = Ok w2 /\
    log w2 = (log w ++
              [ProcessWrite (rstrip LF (drop (input_start_pos w) (text w)) ++ nl);
               SuperKeyPress ev])%list /\
    text w2 = text w ++ nl /\
    input_start_pos w2 = String.length (text w2).
Proof.
  intros Hsub Hrun Hguard.
  rewrite (keyPressEvent_submit ev w Hsub Hguard), Hrun. cbv zeta. cbn [bind].
  set (w1 := process_write _ (QTextEdit.moveCursor_End w)).
  assert (E1 : at_end w1) by (subst w1; destruct w; now split).
  destruct (super_submit_at_end ev w1 Hsub E1) as [T P].
  eexists. split; [reflexivity|].
  assert (Hlog : log (QTextEdit.keyPressEvent ev w1)
                 = ((log w ++ [ProcessWrite
                       (rstrip LF (drop (input_start_pos w) (text w)) ++ nl)])
                    ++ [SuperKeyPress ev])%list).
  { rewrite log_super. subst w1. destruct w; reflexivity. }
  assert (Htext : text w1 = text w) by (subst w1; destruct w; reflexivity).
  destruct (QTextEdit.keyPressEvent ev w1) eqn:Hk; widget_simpl.
  rewrite Hlog, <- app_assoc. cbn [app].
  rewrite T, P, Htext. auto.
Qed.

(** The example of the claim with the boundary where the typed text begins. *)
Lemma C2_boundary_8_witness :
  exists w2,
    keyPressEvent (plain_key Key_Return)
      (widget_with ("prompt> ls -la" ++ nl) 8 true) = Ok w2 /\
    log w2 = [ProcessWrite ("ls -la" ++ nl); SuperKeyPress (plain_key Key_Return)] /\
    text w2 = "prompt> ls -la" ++ nl ++ nl /\
    input_start_pos w2 = 16.
Proof.
  destruct (C2_submit_sends_the_input_line (plain_key Key_Return)
              (widget_with ("prompt> ls -la" ++ nl) 8 true)
              eq_refl eq_refl eq_refl) as (w2 & H & L & T & B).
  exists w2. split; [exact H|]. split; [exact L|]. split; [exact T|].
  rewrite B, T. reflexivity.
Defined.

(** ** C9: writing while the process is not running *)

Lemma display_events_no_write (new : list Event) :
  forallb display_event new = true -> writes new = [] /\ spawns new = [].
Proof.
  induction new as [|e new IH]; [now split|].
  cbn [forallb]. intros H. apply andb_true_iff in H as [He H].
  destruct (IH H) as [W S]. unfold writes, spawns in *.
  destruct e; try discriminate He; cbn [filter is_write is_spawn]; now split.
Qed.

Lemma not_running_message_starts (id rest : string) :
  plain_text (esc ++ "[31m[" ++ id ++ rest) = String "[" (plain_text (id ++ rest)).
Proof. reflexivity. Qed.

(** C9.  With the child process not running, neither [send_command] nor a
    submitted line (Return or Enter that is not held back by the guard on
    the text before the boundary) writes anything to the process, and each
    puts a diagnostic on the display: [send_command] a line that begins
    with the bracketed terminal id, the key handler the line
    [Shell not running.] *)
Theorem C9_write_while_not_running_is_reported (w : TerminalWidget) :
  process_running w = false ->
  (forall (cmd : string) (append_enter : bool),
      exists w2 new,
        send_command cmd append_enter w = Ok w2 /\
        log w2 = (log w ++ new)%list /\
        writes new = [] /\
        text_of_runs new
        = String "["
            (plain_text (terminal_id w ++ "] ❌ Not running. Cannot send command."
                           ++ esc ++ "[0m" ++ nl)))
  /\ (forall ev : QKeyEvent,
        is_submit ev = true ->
        past_guard w = true ->
        exists w2 new,
          keyPressEvent ev w = Ok w2 /\
          log w2 = (log w ++ new)%list /\
          writes new = [] /\
          text_of_runs new = "Shell not running." ++ nl /\
          text w2 = text w ++ "Shell not running." ++ nl ++ nl).
Proof.
  intros Hrun. split.
  - intros cmd append_enter. unfold send_command. rewrite Hrun.
    match goal with
    | |- context [append_ansi_text ?m w] =>
        destruct (append_ansi_text_spec m w)
          as (w2 & H & _ & _ & _ & new & L & D & T & _)
    end.
    exists w2, new. split; [exact H|]. split; [exact L|].
    split; [apply (display_events_no_write new D)|].
    rewrite T. apply not_running_message_starts.
  - intros ev Hsub Hguard.
    rewrite (keyPressEvent_submit ev w Hsub Hguard), Hrun. cbv zeta.
    match goal with
    | |- context [append_ansi_text ?m ?w1] =>
        destruct (append_ansi_text_spec m w1)
          as (w2 & H & _ & E2 & _ & new & L & D & T & X)
    end.
    rewrite H. cbn [bind].
    destruct (super_submit_at_end ev w2 Hsub E2) as [Tx Px].
    eexists. exists (new ++ [SuperKeyPress ev])%list.
    split; [reflexivity|].
    assert (Hlog : log (QTextEdit.keyPressEvent ev w2)
                   = (log w ++ new ++ [SuperKeyPress ev])%list).
    { rewrite log_super, L, <- app_assoc. destruct w; reflexivity. }
    assert (Htext : text w2 = text w ++ "Shell not running." ++ nl).
    { rewrite (X eq_refl). destruct w; reflexivity. }
    destruct (QTextEdit.keyPressEvent ev w2) eqn:Hk; widget_simpl.
    split; [exact Hlog|]. split; [|split].
    + unfold writes. rewrite filter_app.
      destruct (display_events_no_write new D) as [W _]. unfold writes in W.
      now rewrite W.
    + rewrite text_of_runs_app, T. reflexivity.
    + rewrite Tx, Htext. now rewrite !append_assoc.
Qed.

(** A command sent and a line submitted in a widget whose process never
    came up. *)
Lemma C9_not_running_witness :
  (exists w2 new,
      send_command "ls" true (widget_with "prompt> " 8 false) = Ok w2 /\
      log w2 = new /\ writes new = [] /\
      text_of_runs new = "[T1] ❌ Not running. Cannot send command." ++ nl)
  /\ (exists w2 new,
        keyPressEvent (plain_key Key_Return) (widget_with "prompt> " 8 false) = Ok w2 /\
        log w2 = new /\ writes new = [] /\
        text_of_runs new = "Shell not running." ++ nl /\
        text w2 = "prompt> Shell not running." ++ nl ++ nl).
Proof.
  destruct (C9_write_while_not_running_is_reported
              (widget_with "prompt> " 8 false) eq_refl) as [A B].
  split.
  - destruct (A "ls" true) as (w2 & new & H & L & W & T).
    exists w2, new. auto.
  - destruct (B (plain_key Key_Return) eq_refl eq_refl) as (w2 & new & H & L & W & T & X).
    exists w2, new. auto.
Defined.

(** ** C1: restart throttling *)

Lemma Qltb_lt (a b : Q) : Qltb a b = true <-> (a < b)%Q.
Proof.
  unfold Qltb. rewrite negb_true_iff. split.
  - intros H. apply Qnot_le_lt. intros L. apply Qle_bool_iff in L. congruence.
  - intros H. destruct (Qle_bool b a) eqn:E; [|reflexivity].
    apply Qle_bool_iff in E. now apply Qlt_not_le in H.
Qed.

Lemma rapid_test (t prev : Q) :
  Qltb 0 (t - prev) && Qltb (t - prev) 2 = true <-> rapid t prev.
Proof. unfold rapid. now rewrite andb_true_iff, !Qltb_lt. Qed.

Lemma spawns_app (a b : list Event) : spawns (a ++ b)%list = (spawns a ++ spawns b)%list.
Proof. apply filter_app. Qed.

(** One start attempt with the child process not running. *)
Lemma start_process_attempt (env : StartEnv) (w : TerminalWidget) :
  process_running w = false ->
  exists o w2,
    start_process env w = Ok (o, w2) /\
    o <> AlreadyRunning /\
    (rapid (now env) (last_started w) ->
       restart_count w2 = (restart_count w + 1)%Z /\
       ((3 < restart_count w + 1)%Z ->
          o = RestartThrottled /\ spawns (log w2) = spawns (log w) /\
          last_started w2 = last_started w /\ process_running w2 = false) /\
       ((restart_count w + 1 <= 3)%Z ->
          o <> RestartThrottled /\ last_started w2 = now env)) /\
    (~ rapid (now env) (last_started w) ->
       restart_count w2 = 0%Z /\ o <> RestartThrottled /\
       last_started w2 = now env).
Proof.
  intros Hrun. unfold start_process. rewrite Hrun.
  set (r := Qltb 0 (now env - last_started w) && Qltb (now env - last_started w) 2).
  assert (Hr : r = true <-> rapid (now env) (last_started w)) by apply rapid_test.
  set (wc := if r then set_restart_count (restart_count w + 1) w
             else set_restart_count 0 w).
  assert (Hc : restart_count wc = if r then (restart_count w + 1)%Z else 0%Z)
    by (subst wc; destruct r, w; reflexivity).
  assert (Hl : last_started wc = last_started w)
    by (subst wc; destruct r, w; reflexivity).
  assert (Hg : log wc = log w) by (subst wc; destruct r, w; reflexivity).
  assert (Hp : process_running wc = false)
    by (subst wc; destruct r, w; exact Hrun).
  destruct (r && (3 <? restart_count wc)%Z) eqn:Hthr.
  - (* refused *)
    apply andb_true_iff in Hthr as [Hr1 H3]. apply Z.ltb_lt in H3.
    rewrite Hr1 in Hc.
    match goal with
    | |- context [append_ansi_text ?m wc] =>
        destruct (append_ansi_text_spec m wc)
          as (w2 & H & (_ & _ & S3 & S4 & S5) & _ & _ & new & L & D & _)
    end.
    rewrite H. cbn [bind]. exists RestartThrottled, w2.
    split; [reflexivity|]. split; [discriminate|]. split.
    + intros _. split; [congruence|]. split.
      * intros _. split; [reflexivity|]. split; [|split; congruence].
        rewrite L, spawns_app, (proj2 (display_events_no_write new D)), app_nil_r.
        now rewrite Hg.
      * intros. lia.
    + intros N. now apply Hr in Hr1.
  - (* not refused *)
    set (wl := set_last_started (now env) wc).
    assert (Hlc : restart_count wl = restart_count wc) by (subst wl; now destruct wc).
    assert (Hll : last_started wl = now env) by (subst wl; now destruct wc).
    assert (Hfin : forall o w2,
               o <> AlreadyRunning -> o <> RestartThrottled ->
               restart_count w2 = restart_count wl ->
               last_started w2 = last_started wl ->
               o <> AlreadyRunning /\
               (rapid (now env) (last_started w) ->
                  restart_count w2 = (restart_count w + 1)%Z /\
                  ((3 < restart_count w + 1)%Z ->
                     o = RestartThrottled /\ spawns (log w2) = spawns (log w) /\
                     last_started w2 = last_started w /\ process_running w2 = false) /\
                  ((restart_count w + 1 <= 3)%Z ->
                     o <> RestartThrottled /\ last_started w2 = now env)) /\
               (~ rapid (now env) (last_started w) ->
                  restart_count w2 = 0%Z /\ o <> RestartThrottled /\
                  last_started w2 = now env)).
    { intros o w2 N1 N2 C2 L2. split; [exact N1|]. split.
      - intros R. apply Hr in R. rewrite R in *. cbn [andb] in Hthr.
        apply Z.ltb_ge in Hthr. split; [congruence|]. split.
        + intros. lia.
        + intros _. split; [exact N2 | congruence].
      - intros R. destruct r; [now contradiction R; apply Hr|].
        split; [congruence|]. split; [exact N2 | congruence]. }
    destruct (truthy (py_or (which env "bash")
                        (py_or (which env "powershell.exe") (which env "cmd.exe")))).
    + cbn [negb].
      match goal with
      | |- context [append_ansi_text ?m wl] =>
          destruct (append_ansi_text_spec m wl)
            as (w2 & H & (_ & _ & _ & S4 & S5) & _)
      end.
      rewrite H. cbn [bind].
      set (w3 := emit _ w2).
      assert (S4' : restart_count w3 = restart_count wl) by (subst w3; now destruct w2).
      assert (S5' : last_started w3 = last_started wl) by (subst w3; now destruct w2).
      destruct (waitForStarted env); cbn [negb].
      * do 2 eexists. split; [reflexivity|].
        apply Hfin; try discriminate; destruct w3; assumption.
      * match goal with
        | |- context [append_ansi_text ?m w3] =>
            destruct (append_ansi_text_spec m w3)
              as (w4 & H4 & (_ & _ & _ & T4 & T5) & _)
        end.
        rewrite H4. cbn [bind]. do 2 eexists. split; [reflexivity|].
        apply Hfin; try discriminate; destruct w4; widget_simpl; congruence.
    + cbn [negb].
      match goal with
      | |- context [append_ansi_text ?m wl] =>
          destruct (append_ansi_text_spec m wl)
            as (w2 & H & (_ & _ & _ & S4 & S5) & _)
      end.
      rewrite H. cbn [bind]. do 2 eexists. split; [reflexivity|].
      apply Hfin; try discriminate; assumption.
Qed.

(** C1, as the claim states it, fails: of four start attempts one second
    apart in a new session, with a shell that crashes at once, the fourth
    starts the shell like the three before it; the counter stands at 3,
    which does not exceed 3. *)
Lemma C1_fourth_attempt_still_starts :
  exists w,
    crash_loop [1000; 1001; 1002; 1003]%Q fresh_widget
    = Ok ([Started; Started; Started; Started], w) /\
    restart_count w = 3%Z /\
    List.length (spawns (log w)) = 4.
Proof. vm_compute. eexists. repeat split. Qed.

(** C1, amended.  Start attempts are made with the child process not
    running, and between two attempts nothing touches the counter and the
    time of the last start.  After an attempt that is not rapid (the counter
    goes to zero, whatever it was), four attempts follow, each more than 0
    and less than 2 seconds after the one before.  The counter goes to 1, 2,
    3 and 4; none of the first four attempts of the series is refused; the
    fifth, the fourth rapid one, is refused: no shell is spawned, the time of
    the last start stays, the process stays not running. *)
Theorem C1_fifth_attempt_in_a_row_is_refused
    (e0 e1 e2 e3 e4 : StartEnv)
    (w0 w1 w2 w3 w4 a0 a1 a2 a3 : TerminalWidget)
    (o0 o1 o2 o3 : StartOutcome) :
  process_running w0 = false ->
  ~ rapid (now e0) (last_started w0) ->
  start_process e0 w0 = Ok (o0, a0) -> idle_again a0 w1 ->
  rapid (now e1) (now e0) ->
  start_process e1 w1 = Ok (o1, a1) -> idle_again a1 w2 ->
  rapid (now e2) (now e1) ->
  start_process e2 w2 = Ok (o2, a2) -> idle_again a2 w3 ->
  rapid (now e3) (now e2) ->
  start_process e3 w3 = Ok (o3, a3) -> idle_again a3 w4 ->
  rapid (now e4) (now e3) ->
  (restart_count a0 = 0 /\ restart_count a1 = 1 /\
   restart_count a2 = 2 /\ restart_count a3 = 3)%Z /\
  (o0 <> RestartThrottled /\ o1 <> RestartThrottled /\
   o2 <> RestartThrottled /\ o3 <> RestartThrottled) /\
  exists a4,
    start_process e4 w4 = Ok (RestartThrottled, a4) /\
    restart_count a4 = 4%Z /\
    spawns (log a4) = spawns (log w4) /\
    last_started a4 = last_started w4 /\
    process_running a4 = false.
Proof.
  intros P0 N0 H0 (P1 & C1 & L1) R1 H1 (P2 & C2 & L2) R2 H2 (P3 & C3 & L3) R3
         H3 (P4 & C4 & L4) R4.
  destruct (start_process_attempt e0 w0 P0) as (o & a & H & _ & _ & X).
  rewrite H0 in H. inversion H; subst o a. clear H.
  destruct (X N0) as (K0 & T0 & S0). clear X.
  destruct (start_process_attempt e1 w1 P1) as (o & a & H & _ & X & _).
  rewrite H1 in H. inversion H; subst o a. clear H.
  rewrite L1, S0, C1, K0 in X. destruct (X R1) as (K1 & _ & Y). clear X.
  destruct (Y ltac:(lia)) as (T1 & S1). clear Y.
  destruct (start_process_attempt e2 w2 P2) as (o & a & H & _ & X & _).
  rewrite H2 in H. inversion H; subst o a. clear H.
  rewrite L2, S1, C2, K1 in X. destruct (X R2) as (K2 & _ & Y). clear X.
  destruct (Y ltac:(lia)) as (T2 & S2). clear Y.
  destruct (start_process_attempt e3 w3 P3) as (o & a & H & _ & X & _).
  rewrite H3 in H. inversion H; subst o a. clear H.
  rewrite L3, S2, C3, K2 in X. destruct (X R3) as (K3 & _ & Y). clear X.
  destruct (Y ltac:(lia)) as (T3 & S3). clear Y.
  destruct (start_process_attempt e4 w4 P4) as (o & a4 & H & _ & X & _).
  rewrite L4, S3, C4, K3 in X. destruct (X R4) as (K4 & Y & _). clear X.
  destruct (Y ltac:(lia)) as (-> & Sp & Ls & Pr).
  split; [cbn in *; auto|]. split; [auto|].
  exists a4. split; [exact H|]. split; [exact K4|]. split; [exact Sp|].
  split; [congruence | exact Pr].
Qed.

(** Five attempts one second apart in a new session, the shell crashing at
    once each time: the fifth is refused. *)
Lemma C1_crash_loop_witness :
  let w1 := crashed (after_attempt 1000 fresh_widget) in
  let w2 := crashed (after_attempt 1001 w1) in
  let w3 := crashed (after_attempt 1002 w2) in
  let w4 := crashed (after_attempt 1003 w3) in
  exists a4,
    start_process (crash_env 1004) w4 = Ok (RestartThrottled, a4) /\
    restart_count a4 = 4%Z /\
    spawns (log a4) = spawns (log w4) /\
    last_started a4 = last_started w4 /\
    process_running a4 = false.
Proof.
  intros w1 w2 w3 w4.
  refine (proj2 (proj2
    (C1_fifth_attempt_in_a_row_is_refused
       (crash_env 1000) (crash_env 1001) (crash_env 1002) (crash_env 1003)
       (crash_env 1004)
       fresh_widget w1 w2 w3 w4
       (after_attempt 1000 fresh_widget) (after_attempt 1001 w1)
       (after_attempt 1002 w2) (after_attempt 1003 w3)
       (outcome_of_attempt 1000 fresh_widget) (outcome_of_attempt 1001 w1)
       (outcome_of_attempt 1002 w2) (outcome_of_attempt 1003 w3)
       _ _ _ _ _ _ _ _ _ _ _ _ _ _)));
    try (vm_compute; reflexivity);
    try (unfold idle_again; vm_compute; repeat split; reflexivity);
    try (unfold rapid; vm_compute; split; reflexivity).
  intros [_ H]. vm_compute in H. discriminate H.
Defined.

(** ** Examples *)

Example finditer_bold_red_hello :
  finditer (esc ++ "[1;31mHELLO" ++ esc ++ "[0m")
  = [mkMatch 0 7 (Some "1;31") None None None None None None;
     mkMatch 12 16 (Some "0") None None None None None None].
Proof. reflexivity. Qed.

Example finditer_unknown_form_is_skipped :
  finditer (esc ++ "[2J" ++ esc ++ "[?25h" ++ esc ++ "(B")
  = [mkMatch 0 4 None None None (Some "2") (Some "J") None None;
     mkMatch 10 13 None None None None None (Some "(B") None].
Proof. reflexivity. Qed.

Example split_empty_parameter : split ";" "1;;31" = ["1"; ""; "31"].
Proof. reflexivity. Qed.

Example rstrip_line_breaks :
  rstrip LF ("ab" ++ nl ++ "c" ++ nl ++ nl) = "ab" ++ nl ++ "c".
Proof. reflexivity. Qed.

Example bold_red_hello_is_one_run :
  exists w,
    append_ansi_text (esc ++ "[1;31mHELLO" ++ esc ++ "[0m") fresh_widget = Ok w /\
    log w = [TextRun "HELLO" (mkFormat "#CD0000" "black" Weight.Bold false false)] /\
    current_format w = default_format.
Proof. vm_compute. eexists. repeat split. Qed.

(** * Further properties *)

(** ** Chunks with few sequences *)

Lemma match_here_not_esc (c : ascii) (s : string) :
  not_esc c = true -> match_here (String c s) = None.
Proof.
  unfold not_esc. intros H. apply negb_true_iff in H. simpl. now rewrite H.
Qed.

Lemma every_match_esc_free (s : string) :
  forall pos, esc_free s = true -> every_match pos s = [].
Proof.
  induction s as [|c s IH]; intros pos H; [reflexivity|].
  unfold esc_free in H. cbn [all_chars] in H. apply andb_true_iff in H as [Hc H].
  cbn [every_match]. rewrite (match_here_not_esc c s Hc). now apply IH.
Qed.

Lemma every_match_skip_esc_free (pre s : string) :
  forall pos, esc_free pre = true ->
              every_match pos (pre ++ s) = every_match (pos + String.length pre) s.
Proof.
  induction pre as [|c pre IH]; intros pos H.
  - simpl. f_equal. lia.
  - unfold esc_free in H. cbn [all_chars] in H. apply andb_true_iff in H as [Hc H].
    cbn [append every_match String.length].
    rewrite (match_here_not_esc c _ Hc), IH by exact H. f_equal. lia.
Qed.

Lemma every_match_inert (n : nat) :
  forall (s : string) (pos : nat),
    inert n s -> every_match pos s = every_match (pos + n) (drop n s).
Proof.
  induction n as [|n IH]; intros s pos H.
  - simpl. f_equal. lia.
  - destruct s as [|c s]; [reflexivity|].
    cbn [inert] in H. destruct H as [Hnone H].
    cbn [every_match drop]. rewrite Hnone, (IH s (S pos) H). f_equal. lia.
Qed.

Lemma strip_esc_free (s : string) : esc_free s = true -> strip 0 s = s.
Proof.
  induction s as [|c s IH]; intros H; [reflexivity|].
  unfold esc_free in H. cbn [all_chars] in H. apply andb_true_iff in H as [Hc H].
  cbn [strip]. rewrite (match_here_not_esc c s Hc). f_equal. now apply IH.
Qed.

(** A sequence between two stretches of text without escape characters is
    the only match of the chunk. *)
Lemma finditer_one_sequence (pre m post : string) (g : Groups) :
  esc_free pre = true -> sequence m g -> esc_free post = true ->
  finditer (pre ++ m ++ post) = [to_match (String.length pre) g].
Proof.
  intros Hpre Hseq Hpost. unfold finditer.
  rewrite scan_every_match, every_match_skip_esc_free by exact Hpre.
  pose proof (match_here_complete _ _ Hseq post) as H.
  destruct (sequence_interior _ _ Hseq) as (body & -> & Hw & Hst).
  cbn [append every_match] in *. rewrite H. cbn [Nat.add]. f_equal.
  rewrite (every_match_inert (String.length body))
    by (apply st_only_inert, Hst).
  rewrite drop_length_append. now apply every_match_esc_free.
Qed.

Lemma is_empty_length (s : string) :
  is_empty s = negb (0 <? String.length s)%nat.
Proof. now destruct s. Qed.

(** What [append_ansi_text] does with such a chunk: the text before, the
    handler on the sequence, the text after. *)
Lemma append_ansi_text_one_sequence
    (pre m post : string) (g : Groups) (w : TerminalWidget) :
  esc_free pre = true -> sequence m g -> esc_free post = true ->
  append_ansi_text (pre ++ m ++ post) w
  = (w1 <- handle_match (to_match (String.length pre) g)
             (shown pre (QTextEdit.moveCursor_End w)) ;;
     Ok (finish (shown post w1))).
Proof.
  intros Hpre Hseq Hpost.
  destruct (finditer_sequence _ _ Hseq) as [_ W].
  unfold append_ansi_text.
  rewrite (finditer_one_sequence pre m post g Hpre Hseq Hpost).
  cbn [for_matches to_match m_start m_end].
  unfold shown. rewrite (is_empty_length pre).
  assert (Hslice : slice 0 (String.length pre) (pre ++ m ++ post) = pre).
  { unfold slice. rewrite Nat.sub_0_r. cbn [drop]. apply take_length_append. }
  rewrite Hslice.
  destruct (0 <? String.length pre)%nat; cbn [negb];
    (destruct (handle_match _ _) as [w1| |]; cbn [bind]; [|reflexivity|reflexivity]);
    rewrite W, (is_empty_length post), !length_append;
    replace (drop (String.length pre + String.length m) (pre ++ m ++ post))
      with post
      by (rewrite <- length_append, <- append_assoc;
          symmetry; apply drop_length_append);
    (destruct (0 <? String.length post)%nat eqn:Lp;
     [ apply Nat.ltb_lt in Lp;
       replace (String.length pre + String.length m
                <? String.length pre + (String.length m + String.length post))%nat
         with true by (symmetry; apply Nat.ltb_lt; lia)
     | apply Nat.ltb_ge in Lp;
       replace (String.length pre + String.length m
                <? String.length pre + (String.length m + String.length post))%nat
         with false by (symmetry; apply Nat.ltb_ge; lia) ]);
    reflexivity.
Qed.

(** A chunk in which the pattern matches nowhere. *)
Lemma append_ansi_text_no_match (chunk : string) (w : TerminalWidget) :
  finditer chunk = [] ->
  append_ansi_text chunk w = Ok (finish (shown chunk (QTextEdit.moveCursor_End w))).
Proof.
  intros H. unfold append_ansi_text. rewrite H. cbn [for_matches bind].
  unfold shown. rewrite (is_empty_length chunk). cbn [drop].
  now destruct (0 <? String.length chunk)%nat.
Qed.

Lemma finditer_esc_free (chunk : string) :
  esc_free chunk = true -> finditer chunk = [].
Proof.
  intros H. unfold finditer. rewrite scan_every_match.
  now apply every_match_esc_free.
Qed.

Lemma at_end_moveCursor_End (w : TerminalWidget) : at_end (QTextEdit.moveCursor_End w).
Proof. destruct w; now split. Qed.

Lemma shown_at_end (seg : string) (w : TerminalWidget) :
  at_end w ->
  text (shown seg w) = text w ++ seg /\
  log (shown seg w) = (log w ++ run_of seg (current_format w))%list /\
  current_format (shown seg w) = current_format w /\
  current_font (shown seg w) = current_font w /\
  at_end (shown seg w).
Proof.
  intros E. unfold shown, run_of. destruct seg as [|c seg]; cbn [is_empty].
  - rewrite append_empty_r, app_nil_r. auto.
  - destruct E as [Ea Ep]. destruct w; widget_simpl. subst.
    rewrite Nat.min_id, Nat.max_id, take_all, drop_all, append_empty_r by lia.
    repeat split; cbn [String.length]; rewrite length_append; reflexivity.
Qed.

Lemma finish_fields (w : TerminalWidget) :
  text (finish w) = text w /\ log (finish w) = log w /\
  current_format (finish w) = current_format w /\
  input_start_pos (finish w) = String.length (text w) /\
  position (finish w) = String.length (text w).
Proof. destruct w; repeat split. Qed.

(** ** Text without sequences *)

(** X1.  Output without an escape character is handed to the widget in one
    run under the current format (in no run when it is empty); the format
    stays and the input boundary goes to the end.  When the output is text
    that the widget keeps as it is, the text of the widget is the old text
    followed by the output. *)
Theorem plain_output_is_appended_verbatim (chunk : string) (w : TerminalWidget) :
  esc_free chunk = true ->
  exists w2,
    append_ansi_text chunk w = Ok w2 /\
    log w2 = (log w ++ run_of chunk (current_format w))%list /\
    current_format w2 = current_format w /\
    input_start_pos w2 = String.length (text w2) /\
    (verbatim chunk = true -> text w2 = text w ++ chunk).
Proof.
  intros H. rewrite (append_ansi_text_no_match chunk w (finditer_esc_free chunk H)).
  eexists. split; [reflexivity|].
  destruct (finish_fields (shown chunk (QTextEdit.moveCursor_End w)))
    as (T & L & F & B & _).
  destruct (shown_at_end chunk _ (at_end_moveCursor_End w)) as (T' & L' & F' & _).
  rewrite T, L, F, B, T', L', F'. destruct w; repeat split; auto.
Qed.

Lemma plain_output_witness :
  exists w2,
    append_ansi_text ("total 0" ++ nl) (widget_with "prompt> ls" 8 true) = Ok w2 /\
    text w2 = "prompt> ls" ++ "total 0" ++ nl /\
    log w2 = [TextRun ("total 0" ++ nl) default_format].
Proof.
  destruct (plain_output_is_appended_verbatim ("total 0" ++ nl)
              (widget_with "prompt> ls" 8 true) eq_refl)
    as (w2 & H & L & _ & _ & T).
  exists w2. split; [exact H|]. split; [exact (T eq_refl) | exact L].
Defined.

Lemma every_match_none (c : ascii) (s : string) (pos : nat) :
  match_here (String c s) = None ->
  every_match pos (String c s) = every_match (S pos) s.
Proof. intros H. cbn [every_match]. now rewrite H. Qed.

Lemma match_here_other_osc (n : ascii) (rest : string) :
  one_of "012" n = false -> match_here (String ESC (String "]" (String n rest))) = None.
Proof.
  intros Hn. cbn [match_here]. change (Ascii.eqb ESC ESC) with true. cbn iota.
  unfold match_after_esc.
  rewrite alt_sgr_head, alt_csi_head, alt_charset_head by (discriminate || reflexivity).
  assert (alt_osc (String "]" (String n rest)) = None) as ->.
  { destruct rest as [|sc r]; [reflexivity|]. cbn [alt_osc]. now rewrite Hn. }
  reflexivity.
Qed.

(** X2.  An OSC whose command is not 0, 1 or 2 is not a sequence of the
    pattern: all of it, escape character and terminator included, is handed
    to the widget as one run of text and no title is emitted; when it is
    text that the widget keeps as it is, it stands at the end of the text
    afterwards. *)
Theorem other_osc_commands_are_shown_as_text
    (n : ascii) (rest : string) (w : TerminalWidget) :
  one_of "012" n = false ->
  esc_free (String n rest) = true ->
  let chunk := String ESC (String "]" (String n rest)) in
  exists w2,
    append_ansi_text chunk w = Ok w2 /\
    log w2 = (log w ++ [TextRun chunk (current_format w)])%list /\
    current_format w2 = current_format w /\
    (verbatim chunk = true -> text w2 = text w ++ chunk).
Proof.
  intros Hn Hfree chunk.
  assert (F : finditer chunk = []).
  { unfold finditer. rewrite scan_every_match. subst chunk.
    rewrite every_match_none by (apply match_here_other_osc, Hn).
    rewrite every_match_none by (now apply match_here_not_esc).
    now apply every_match_esc_free. }
  rewrite (append_ansi_text_no_match chunk w F).
  eexists. split; [reflexivity|].
  destruct (finish_fields (shown chunk (QTextEdit.moveCursor_End w)))
    as (T & L & C & _).
  destruct (shown_at_end chunk _ (at_end_moveCursor_End w)) as (T' & L' & C' & _).
  rewrite T, L, C, T', L', C'. destruct w; repeat split; auto.
Qed.

Lemma other_osc_witness :
  exists w2,
    append_ansi_text (esc ++ "]7;file:///tmp" ++ bel) fresh_widget = Ok w2 /\
    text w2 = esc ++ "]7;file:///tmp" ++ bel /\
    log w2 = [TextRun (esc ++ "]7;file:///tmp" ++ bel) default_format].
Proof.
  destruct (other_osc_commands_are_shown_as_text "7" (";file:///tmp" ++ bel)
              fresh_widget eq_refl eq_refl) as (w2 & H & L & _ & T).
  exists w2. split; [exact H|]. split; [exact (T eq_refl) | exact L].
Defined.

(** ** One sequence in plain text *)

Lemma restyled_fields (a b : TerminalWidget) :
  restyled a b ->
  text b = text a /\ log b = log a /\ current_font b = current_font a /\
  (at_end a -> at_end b).
Proof.
  intros [f ->]. destruct a; split; [|split; [|split]]; try reflexivity.
  intros [A B]. split; [exact A | exact B].
Qed.

Lemma apply_sgr_code_same_style (code : Z) (w1 w2 : TerminalWidget) :
  same_style w1 w2 ->
  same_style (_apply_sgr_code code w1) (_apply_sgr_code code w2).
Proof.
  intros [F N]. destruct w1, w2; cbn in F, N; subst.
  unfold _apply_sgr_code, _reset_char_format_to_default, same_style.
  cbn [current_format current_font].
  repeat match goal with
         | |- context [if ?b then _ else _] => destruct b
         | |- context [match ?o with Some _ => _ | None => _ end] => destruct o
         end; split; reflexivity.
Qed.

Lemma sgr_effect_same_style (n : nat) :
  forall (l : list string) (w1 w2 : TerminalWidget),
    List.length l <= n -> same_style w1 w2 ->
    same_style (sgr_effect l w1) (sgr_effect l w2).
Proof.
  induction n as [|n IH]; intros l w1 w2 L S.
  - destruct l; [exact S | simpl in L; lia].
  - destruct l as [|part tl]; [exact S|].
    cbn [sgr_effect List.length] in *.
    destruct (code_of part) as [code|]; [|apply IH; [lia | exact S]].
    destruct ((code =? 38)%Z || (code =? 48)%Z).
    + destruct tl as [|mode tl1]; [exact S|].
      cbn [List.length] in L.
      destruct (int mode) as [cm| |];
        try (apply IH; [cbn [List.length]; lia | exact S]).
      destruct (cm =? 5)%Z.
      { destruct tl1; apply IH; cbn [List.length] in *; (lia || exact S). }
      destruct (cm =? 2)%Z.
      { destruct tl1 as [|p1 [|p2 [|p3 tl4]]]; apply IH;
          cbn [List.length] in *; (lia || exact S). }
      apply IH; [lia | exact S].
    + apply IH; [lia | now apply apply_sgr_code_same_style].
Qed.

Lemma same_style_shown (seg : string) (w : TerminalWidget) :
  same_style w (shown seg (QTextEdit.moveCursor_End w)).
Proof.
  destruct (shown_at_end seg _ (at_end_moveCursor_End w)) as (_ & _ & F & N & _).
  split; [rewrite F | rewrite N]; now destruct w.
Qed.

(** X3.  An SGR sequence between two stretches of text without escape
    characters: the text before it is handed to the widget under the format
    the widget had, the text after it under the format the parameters give,
    and that format stays for the chunks to come.  When the two stretches
    are text that the widget keeps as it is, the text of the widget is the
    old text followed by them. *)
Theorem sgr_sequence_styles_the_text_after_it
    (pre run post : string) (w : TerminalWidget) :
  esc_free pre = true ->
  all_chars sgr_char run = true ->
  esc_free post = true ->
  exists w1 w2,
    handle_sgr run w = Ok w1 /\
    append_ansi_text (pre ++ String ESC (String "[" (run ++ "m")) ++ post) w
    = Ok w2 /\
    (verbatim pre = true -> verbatim post = true ->
     text w2 = text w ++ pre ++ post) /\
    log w2 = (log w ++ run_of pre (current_format w)
                    ++ run_of post (current_format w1))%list /\
    current_format w2 = current_format w1.
Proof.
  intros Hpre Hrun Hpost.
  rewrite (append_ansi_text_one_sequence pre _ post _ w Hpre (seq_sgr run Hrun) Hpost).
  cbn [handle_match to_match g_sgr sgr]. rewrite !handle_sgr_effect. cbn [bind].
  set (parts := if negb (is_empty run) then split ";" run else ["0"]).
  set (w0 := shown pre (QTextEdit.moveCursor_End w)).
  do 2 eexists. split; [reflexivity|]. split; [reflexivity|].
  destruct (shown_at_end pre _ (at_end_moveCursor_End w)) as (T0 & L0 & F0 & N0 & E0).
  fold w0 in T0, L0, F0, N0, E0.
  destruct (restyled_fields w0 (sgr_effect parts w0)
              (sgr_effect_restyled _ parts w0 (Nat.le_refl _))) as (T1 & L1 & _ & E1).
  destruct (shown_at_end post _ (E1 E0)) as (T2 & L2 & F2 & _).
  destruct (finish_fields (shown post (sgr_effect parts w0))) as (T3 & L3 & F3 & _).
  destruct (sgr_effect_same_style _ parts w w0 (Nat.le_refl _) (same_style_shown pre w))
    as [Fs _].
  rewrite T3, L3, F3, T2, L2, F2, T1, L1, T0, L0, <- Fs.
  split; [|split; [|reflexivity]].
  - intros _ _. destruct w; cbn. now rewrite append_assoc.
  - destruct w; cbn. now rewrite <- app_assoc.
Qed.

Lemma sgr_sequence_witness :
  exists w1 w2,
    handle_sgr "1;31" fresh_widget = Ok w1 /\
    append_ansi_text ("a " ++ String ESC (String "[" ("1;31" ++ "m")) ++ "HELLO")
      fresh_widget = Ok w2 /\
    text w2 = "a HELLO" /\
    log w2 = [TextRun "a " default_format;
              TextRun "HELLO" (mkFormat "#CD0000" "black" Weight.Bold false false)] /\
    current_format w2 = mkFormat "#CD0000" "black" Weight.Bold false false.
Proof.
  destruct (sgr_sequence_styles_the_text_after_it "a " "1;31" "HELLO" fresh_widget
              eq_refl eq_refl eq_refl) as (w1 & w2 & H1 & H2 & T & L & F).
  specialize (T eq_refl eq_refl).
  exists w1, w2. split; [exact H1|]. split; [exact H2|]. split; [exact T|].
  assert (E : current_format w1 = mkFormat "#CD0000" "black" Weight.Bold false false).
  { vm_compute in H1. now inversion H1. }
  rewrite L, F, E. repeat split.
Defined.

Lemma handle_match_passed_over (pos : nat) (g : Groups) (w : TerminalWidget) :
  passed_over g = true -> handle_match (to_match pos g) w = Ok w.
Proof.
  unfold passed_over, handle_match.
  cbn [to_match g_sgr g_osc_t g_osc_c g_csi_p g_csi_l].
  destruct (sgr g); [discriminate|]. destruct (osc_t g); [discriminate|].
  cbn [truthy andb].
  destruct (csi_p g) as [p|], (csi_l g) as [l|]; try reflexivity.
  destruct (String.eqb l "J"); cbn [andb negb].
  - destruct (String.eqb p "2"); [discriminate | reflexivity].
  - now destruct (String.eqb l "K").
Qed.

(** X4.  Cursor, erase-line and the other erase-display sequences,
    character-set, mode and keypad sequences are taken out of the output
    and change neither the format nor the log: the text before and the text
    behind are handed to the widget in two runs under the format the widget
    had.  When the two are text that the widget keeps as it is, the text of
    the widget is the old text followed by them. *)
Theorem other_sequences_are_dropped_without_effect
    (pre m post : string) (g : Groups) (w : TerminalWidget) :
  esc_free pre = true ->
  sequence m g ->
  passed_over g = true ->
  esc_free post = true ->
  exists w2,
    append_ansi_text (pre ++ m ++ post) w = Ok w2 /\
    (verbatim pre = true -> verbatim post = true ->
     text w2 = text w ++ pre ++ post) /\
    log w2 = (log w ++ run_of pre (current_format w)
                    ++ run_of post (current_format w))%list /\
    current_format w2 = current_format w.
Proof.
  intros Hpre Hseq Hpass Hpost.
  rewrite (append_ansi_text_one_sequence pre m post g w Hpre Hseq Hpost).
  rewrite handle_match_passed_over by exact Hpass. cbn [bind].
  set (w0 := shown pre (QTextEdit.moveCursor_End w)).
  eexists. split; [reflexivity|].
  destruct (shown_at_end pre _ (at_end_moveCursor_End w)) as (T0 & L0 & F0 & N0 & E0).
  fold w0 in T0, L0, F0, N0, E0.
  destruct (shown_at_end post _ E0) as (T2 & L2 & F2 & _).
  destruct (finish_fields (shown post w0)) as (T3 & L3 & F3 & _).
  rewrite T3, L3, F3, T2, L2, F2, T0, L0, F0.
  split; [|split; [|now destruct w]].
  - intros _ _. destruct w; cbn. now rewrite append_assoc.
  - destruct w; cbn. now rewrite <- app_assoc.
Qed.

Lemma other_sequences_witness :
  exists w2,
    append_ansi_text ("ab" ++ (esc ++ "[12;40H") ++ "cd") fresh_widget = Ok w2 /\
    text w2 = "abcd" /\
    log w2 = [TextRun "ab" default_format; TextRun "cd" default_format].
Proof.
  destruct (other_sequences_are_dropped_without_effect "ab" (esc ++ "[12;40H") "cd" _
              fresh_widget eq_refl (seq_csi "12;40" "H" eq_refl eq_refl)
              eq_refl eq_refl) as (w2 & H & T & L & _).
  exists w2. split; [exact H|]. split; [exact (T eq_refl eq_refl) | exact L].
Defined.

(** X5.  The erase-display sequence with parameter 2: everything shown before
    it goes, the text of the chunk before it included; what follows it is
    handed to the widget under the default format, and the input boundary
    is the end of the text.  When what follows is text that the widget
    keeps as it is, it is all the text there is. *)
Theorem erase_display_leaves_only_what_follows
    (pre post : string) (w : TerminalWidget) :
  esc_free pre = true ->
  esc_free post = true ->
  exists w2,
    append_ansi_text (pre ++ (esc ++ "[2J") ++ post) w = Ok w2 /\
    (verbatim post = true -> text w2 = post) /\
    log w2 = (log w ++ run_of pre (current_format w) ++ [ScreenClear]
                    ++ run_of post default_format)%list /\
    current_format w2 = default_format /\
    input_start_pos w2 = String.length (text w2).
Proof.
  intros Hpre Hpost.
  rewrite (append_ansi_text_one_sequence pre (esc ++ "[2J") post _ w Hpre
             (seq_csi "2" "J" eq_refl eq_refl) Hpost).
  set (w0 := shown pre (QTextEdit.moveCursor_End w)).
  change (handle_match _ w0)
    with (Ok (_reset_char_format_to_default (QTextEdit.clear w0))).
  cbn [bind]. eexists. split; [reflexivity|].
  destruct (shown_at_end pre _ (at_end_moveCursor_End w)) as (T0 & L0 & F0 & N0 & E0).
  fold w0 in T0, L0, F0, N0, E0.
  set (w1 := _reset_char_format_to_default (QTextEdit.clear w0)).
  assert (E1 : at_end w1) by (subst w1; destruct w0; now split).
  assert (T1 : text w1 = "") by (subst w1; now destruct w0).
  assert (L1 : log w1 = (log w0 ++ [ScreenClear])%list) by (subst w1; now destruct w0).
  assert (F1 : current_format w1 = default_format) by (subst w1; now destruct w0).
  destruct (shown_at_end post _ E1) as (T2 & L2 & F2 & _).
  destruct (finish_fields (shown post w1)) as (T3 & L3 & F3 & B3 & _).
  rewrite T3, L3, F3, B3, T2, L2, F2, T1, L1, F1, L0.
  split; [intros _; reflexivity|].
  split; [|split; reflexivity].
  destruct w; cbn. now rewrite <- !app_assoc.
Qed.

Lemma erase_display_witness :
  exists w2,
    append_ansi_text ("old" ++ (esc ++ "[2J") ++ "new")
      (widget_with "prompt> ls" 8 true) = Ok w2 /\
    text w2 = "new" /\ input_start_pos w2 = 3.
Proof.
  destruct (erase_display_leaves_only_what_follows "old" "new"
              (widget_with "prompt> ls" 8 true) eq_refl eq_refl)
    as (w2 & H & T & _ & _ & B).
  specialize (T eq_refl).
  exists w2. split; [exact H|]. split; [exact T|]. rewrite B, T. reflexivity.
Defined.

(** ** A sequence that arrives in two chunks *)

Lemma inert_prefix (n : nat) :
  forall a x : string, inert n (a ++ x) -> inert n a.
Proof.
  induction n as [|n IH]; intros a x H; [now destruct a|].
  destruct a as [|c a]; [exact I|].
  cbn [append inert] in *. destruct H as [H1 H2]. split; [|now apply (IH a x)].
  destruct (match_here (String c a)) as [g|] eqn:E; [|reflexivity].
  apply (match_here_extend _ x) in E. cbn [append] in E. congruence.
Qed.

Lemma inert_le (k : nat) :
  forall (n : nat) (s : string), k <= n -> inert n s -> inert k s.
Proof.
  induction k as [|k IH]; intros n s L H; [now destruct s|].
  destruct s as [|c s]; [exact I|].
  destruct n as [|n]; [lia|].
  cbn [inert] in *. destruct H as [H1 H2]. split; [exact H1|].
  apply (IH n s); [lia | exact H2].
Qed.

Lemma inert_drop (k : nat) :
  forall (n : nat) (s : string), inert n s -> inert (n - k) (drop k s).
Proof.
  induction k as [|k IH]; intros n s H.
  - rewrite Nat.sub_0_r. now destruct s.
  - destruct s as [|c s]; [now destruct (n - S k)|].
    destruct n as [|n]; [exact I|].
    cbn [inert] in H. destruct H as [_ H]. apply (IH n s H).
Qed.

Lemma every_match_all_inert (s : string) (pos : nat) :
  inert (String.length s) s -> every_match pos s = [].
Proof.
  intros H. rewrite (every_match_inert _ s pos H), drop_all by lia. reflexivity.
Qed.

Lemma sequence_parts_have_no_match (m1 m2 : string) (g : Groups) :
  sequence (m1 ++ m2) g -> m1 <> "" -> m2 <> "" ->
  finditer m1 = [] /\ finditer m2 = [].
Proof.
  intros Hseq N1 N2.
  destruct (sequence_interior _ _ Hseq) as (body & Hm & Hw & Hst).
  destruct m1 as [|c b1]; [congruence|].
  cbn [append] in Hm. injection Hm as -> Hb.
  assert (Hin : inert (String.length body) body).
  { apply st_only_inert. specialize (Hst ""). now rewrite append_empty_r in Hst. }
  unfold finditer. rewrite !scan_every_match. split.
  - rewrite every_match_none.
    + apply every_match_all_inert. apply (inert_prefix _ b1 m2).
      rewrite Hb. apply (inert_le _ (String.length body)); [|exact Hin].
      subst body. rewrite length_append. lia.
    + destruct (match_here (String ESC b1)) as [g1|] eqn:E; [|reflexivity].
      exfalso.
      pose proof (match_here_extend _ m2 _ E) as E2.
      pose proof (match_here_complete _ _ Hseq "") as E3.
      rewrite append_empty_r in E3. rewrite E2 in E3. injection E3 as ->.
      destruct (match_here_sound _ _ E) as (m & rest & Hs & Hq).
      destruct (sequence_interior _ _ Hq) as (body' & Hm' & Hw' & _).
      apply (f_equal String.length) in Hs.
      rewrite length_append, Hm' in Hs. cbn [String.length] in Hs.
      rewrite Hw in Hw'. subst body. rewrite length_append in Hw'.
      destruct m2; [congruence|]. cbn [String.length] in Hw'. lia.
  - apply every_match_all_inert.
    pose proof (inert_drop (String.length b1) _ _ Hin) as H.
    subst body. rewrite drop_length_append in H.
    rewrite length_append in H.
    now replace (String.length b1 + String.length m2 - String.length b1)
      with (String.length m2) in H by lia.
Qed.

(** X6.  A control sequence that is cut anywhere inside, with its first part at
    the end of one chunk of output and the rest at the start of the next, is
    not recognised: both parts are handed to the widget as text, a run
    each, and no effect of the sequence takes place.  When the sequence is
    text that the widget keeps as it is, it stands at the end of the text
    afterwards. *)
Theorem sequence_cut_between_chunks_is_shown_as_text
    (m1 m2 : string) (g : Groups) (w : TerminalWidget) :
  sequence (m1 ++ m2) g -> m1 <> "" -> m2 <> "" ->
  exists w1 w2,
    append_ansi_text m1 w = Ok w1 /\
    append_ansi_text m2 w1 = Ok w2 /\
    (verbatim (m1 ++ m2) = true -> text w2 = text w ++ m1 ++ m2) /\
    log w2 = (log w ++ [TextRun m1 (current_format w);
                        TextRun m2 (current_format w)])%list /\
    current_format w2 = current_format w.
Proof.
  intros Hseq N1 N2.
  destruct (sequence_parts_have_no_match m1 m2 g Hseq N1 N2) as [F1 F2].
  rewrite (append_ansi_text_no_match m1 w F1).
  set (w1 := finish (shown m1 (QTextEdit.moveCursor_End w))).
  exists w1. eexists. split; [reflexivity|].
  split; [exact (append_ansi_text_no_match m2 w1 F2)|].
  destruct (shown_at_end m1 _ (at_end_moveCursor_End w)) as (T0 & L0 & F0 & _).
  destruct (finish_fields (shown m1 (QTextEdit.moveCursor_End w)))
    as (T1 & L1 & C1 & _).
  fold w1 in T1, L1, C1.
  destruct (shown_at_end m2 _ (at_end_moveCursor_End w1)) as (T2 & L2 & C2 & _).
  destruct (finish_fields (shown m2 (QTextEdit.moveCursor_End w1)))
    as (T3 & L3 & C3 & _).
  rewrite T3, L3, C3, T2, L2, C2.
  replace (text (QTextEdit.moveCursor_End w1)) with (text w1) by now destruct w1.
  replace (log (QTextEdit.moveCursor_End w1)) with (log w1) by now destruct w1.
  replace (current_format (QTextEdit.moveCursor_End w1)) with (current_format w1)
    by now destruct w1.
  rewrite T1, L1, C1, T0, L0, F0.
  replace (run_of m1 (current_format (QTextEdit.moveCursor_End w)))
    with [TextRun m1 (current_format w)]
    by (destruct m1; [congruence | now destruct w]).
  replace (run_of m2 (current_format (QTextEdit.moveCursor_End w)))
    with [TextRun m2 (current_format w)]
    by (destruct m2; [congruence | now destruct w]).
  split; [|split; [|reflexivity]].
  - intros _. destruct w; cbn. now rewrite append_assoc.
  - destruct w; cbn. now rewrite <- app_assoc.
Qed.

Lemma sequence_cut_witness :
  exists w1 w2,
    append_ansi_text (esc ++ "[1;3") fresh_widget = Ok w1 /\
    append_ansi_text "1m" w1 = Ok w2 /\
    text w2 = (esc ++ "[1;3") ++ "1m" /\
    current_format w2 = default_format.
Proof.
  destruct (sequence_cut_between_chunks_is_shown_as_text (esc ++ "[1;3") "1m" _
              fresh_widget (seq_sgr "1;31" eq_refl)
              ltac:(discriminate) ltac:(discriminate))
    as (w1 & w2 & H1 & H2 & T & _ & F).
  exists w1, w2. split; [exact H1|]. split; [exact H2|].
  split; [exact (T eq_refl) | exact F].
Defined.

(** ** Output is handled from left to right *)

Lemma handle_match_to_match (p q : nat) (g : Groups) (w : TerminalWidget) :
  handle_match (to_match p g) w = handle_match (to_match q g) w.
Proof. reflexivity. Qed.

Lemma moveCursor_End_at_end (w : TerminalWidget) :
  at_end w -> QTextEdit.moveCursor_End w = w.
Proof. destruct w. intros [A B]. cbn in A, B. subst. reflexivity. Qed.

Lemma for_matches_offset (a b : string) :
  forall (s : string) (p last : nat) (w : TerminalWidget),
    for_matches (a ++ b) (every_match (String.length a + p) s)
      (String.length a + last) w
    = (lw <- for_matches b (every_match p s) last w ;;
       Ok (String.length a + fst lw, snd lw)).
Proof.
  induction s as [|c s IH]; intros p last w; [reflexivity|].
  cbn [every_match].
  replace (S (String.length a + p)) with (String.length a + S p) by lia.
  destruct (match_here (String c s)) as [g|]; [|apply IH].
  cbn [for_matches to_match m_start m_end].
  replace (String.length a + last <? String.length a + p)%nat
    with (last <? p)%nat
    by (destruct (Nat.ltb_spec last p);
        symmetry; [apply Nat.ltb_lt | apply Nat.ltb_ge]; lia).
  replace (slice (String.length a + last) (String.length a + p) (a ++ b))
    with (slice last p b).
  2:{ unfold slice. rewrite <- (drop_drop last (String.length a)),
        drop_length_append. f_equal. lia. }
  set (w' := if (last <? p)%nat then insert_styled (slice last p b) w else w).
  rewrite (handle_match_to_match (String.length a + p) p g w').
  destruct (handle_match (to_match p g) w') as [w1| |]; cbn [bind];
    [|reflexivity|reflexivity].
  rewrite <- Nat.add_assoc. apply IH.
Qed.

Lemma finditer_head (pre m rest : string) (g : Groups) :
  esc_free pre = true -> sequence m g ->
  finditer (pre ++ m ++ rest)
  = to_match (String.length pre) g
      :: every_match (String.length (pre ++ m) + 0) rest.
Proof.
  intros Hpre Hseq. unfold finditer.
  rewrite scan_every_match, every_match_skip_esc_free by exact Hpre.
  pose proof (match_here_complete _ _ Hseq rest) as H.
  destruct (sequence_interior _ _ Hseq) as (body & -> & Hw & Hst).
  cbn [append every_match] in *. rewrite H. cbn [Nat.add]. f_equal.
  rewrite (every_match_inert (String.length body))
    by (apply st_only_inert, Hst).
  rewrite drop_length_append, length_append. cbn [String.length].
  f_equal. lia.
Qed.

(** The first sequence of a chunk and the text before it. *)
Lemma append_ansi_text_first_sequence
    (pre m rest : string) (g : Groups) (w : TerminalWidget) :
  esc_free pre = true ->
  sequence m g ->
  append_ansi_text (pre ++ m ++ rest) w
  = (w1 <- handle_match (to_match (String.length pre) g)
             (shown pre (QTextEdit.moveCursor_End w)) ;;
     append_ansi_text rest w1).
Proof.
  intros Hpre Hseq.
  destruct (finditer_sequence _ _ Hseq) as [_ W].
  unfold append_ansi_text at 1.
  rewrite (finditer_head pre m rest g Hpre Hseq).
  cbn [for_matches to_match m_start m_end].
  assert (Hslice : slice 0 (String.length pre) (pre ++ m ++ rest) = pre).
  { unfold slice. rewrite Nat.sub_0_r. cbn [drop]. apply take_length_append. }
  rewrite Hslice.
  replace (if (0 <? String.length pre)%nat
           then insert_styled pre (QTextEdit.moveCursor_End w)
           else QTextEdit.moveCursor_End w)
    with (shown pre (QTextEdit.moveCursor_End w))
    by (unfold shown; rewrite (is_empty_length pre);
        now destruct (0 <? String.length pre)%nat).
  set (w0 := shown pre (QTextEdit.moveCursor_End w)).
  assert (E0 : at_end w0)
    by apply (shown_at_end pre _ (at_end_moveCursor_End w)).
  change (handle_match (mkMatch (String.length pre) _ _ _ _ _ _ _ _) w0)
    with (handle_match (to_match (String.length pre) g) w0).
  destruct (handle_match_step (to_match (String.length pre) g) w0 E0)
    as (w1 & -> & _ & _ & E1 & _).
  cbn [bind].
  rewrite W, <- length_append, <- (append_assoc pre m rest).
  pose proof (for_matches_offset (pre ++ m) rest rest 0 0 w1) as F.
  rewrite Nat.add_0_r in F. rewrite Nat.add_0_r, F. clear F.
  unfold append_ansi_text. rewrite (moveCursor_End_at_end w1 E1).
  unfold finditer. rewrite scan_every_match.
  destruct (for_matches rest (every_match 0 rest) 0 w1) as [[l wl]| |];
    cbn [bind fst snd]; [|reflexivity|reflexivity].
  replace (String.length (pre ++ m) + l <? String.length ((pre ++ m) ++ rest))%nat
    with (l <? String.length rest)%nat
    by (rewrite (length_append (pre ++ m) rest);
        destruct (Nat.ltb_spec l (String.length rest));
        symmetry; [apply Nat.ltb_lt | apply Nat.ltb_ge]; lia).
  now rewrite <- (drop_drop l (String.length (pre ++ m))), drop_length_append.
Qed.

(** X7.  A chunk is handled from left to right: the text before its first
    sequence is shown under the current format, the sequence is handled,
    and what follows the sequence is handled as a chunk of its own would
    be. *)
Theorem output_is_handled_from_left_to_right
    (pre m rest : string) (g : Groups) (w : TerminalWidget) :
  esc_free pre = true ->
  sequence m g ->
  append_ansi_text (pre ++ m ++ rest) w
  = (w1 <- handle_match (to_match (String.length pre) g)
             (shown pre (QTextEdit.moveCursor_End w)) ;;
     append_ansi_text rest w1).
Proof. apply append_ansi_text_first_sequence. Qed.

Lemma left_to_right_witness :
  append_ansi_text ("ab" ++ (esc ++ "[31m") ++ "cd" ++ esc ++ "[0m") fresh_widget
  = (w1 <- handle_sgr "31" (shown "ab" (QTextEdit.moveCursor_End fresh_widget)) ;;
     append_ansi_text ("cd" ++ esc ++ "[0m") w1).
Proof.
  exact (output_is_handled_from_left_to_right "ab" (esc ++ "[31m")
           ("cd" ++ esc ++ "[0m") _ fresh_widget eq_refl (seq_sgr "31" eq_refl)).
Defined.

(** ** What output can do *)

Lemma writes_append (a b : list Event) :
  writes (a ++ b)%list = (writes a ++ writes b)%list.
Proof. apply filter_app. Qed.

Lemma append_ansi_text_display_only (chunk : string) (w : TerminalWidget) :
  display_only w (append_ansi_text chunk w).
Proof.
  destruct (append_ansi_text_spec chunk w)
    as (w2 & H & S & _ & _ & new & L & D & _).
  exists w2. split; [exact H|].
  destruct (display_events_no_write new D) as [Wn Sn].
  rewrite L, writes_append, spawns_app, Wn, Sn, !app_nil_r. auto.
Qed.

(** X8.  Whatever the child process prints on either stream, and whatever error
    it reports, the widget only displays: no byte is written back to the
    process, no process is started, and the running flag and the restart
    bookkeeping stay as they were. *)
Theorem process_output_is_only_displayed
    (data err errorString : string) (w : TerminalWidget) :
  display_only w (read_stdout data w) /\
  display_only w (read_stderr data w) /\
  display_only w (handle_process_error err errorString w).
Proof.
  repeat split; apply append_ansi_text_display_only.
Qed.

Lemma esc_free_append (a b : string) :
  esc_free (a ++ b) = esc_free a && esc_free b.
Proof.
  unfold esc_free. induction a as [|c a IH]; [reflexivity|].
  cbn [append all_chars]. now rewrite IH, andb_assoc.
Qed.

Lemma esc_free_string_of_uint (d : Decimal.uint) :
  esc_free (NilEmpty.string_of_uint d) = true.
Proof. induction d; cbn; auto. Qed.

Lemma esc_free_str_of_Z (n : Z) : esc_free (str_of_Z n) = true.
Proof.
  unfold str_of_Z, NilZero.string_of_int, NilZero.string_of_uint.
  destruct (Z.to_int n) as [d|d]; destruct d; cbn -[esc_free];
    try reflexivity;
    try (change (esc_free (String ?c ?s)) with (not_esc c && esc_free s));
    cbn; try apply esc_free_string_of_uint.
Qed.

(** ** The end of the child process *)

Lemma handle_sgr_single_code (run : string) (code : Z) (w : TerminalWidget) :
  (if negb (is_empty run) then split ";" run else ["0"]) = [run] ->
  code_of run = Some code ->
  ((code =? 38) || (code =? 48))%Z = false ->
  handle_sgr run w = Ok (_apply_sgr_code code w).
Proof.
  intros P C E. rewrite handle_sgr_effect, P. cbn [sgr_effect].
  now rewrite C, E.
Qed.

Lemma set_process_running_fields (b : bool) (w : TerminalWidget) :
  process_running (set_process_running b w) = b /\
  text (set_process_running b w) = text w /\
  log (set_process_running b w) = log w /\
  current_format (set_process_running b w) = current_format w /\
  input_start_pos (set_process_running b w) = input_start_pos w /\
  restart_count (set_process_running b w) = restart_count w /\
  last_started (set_process_running b w) = last_started w.
Proof. destruct w. repeat split. Qed.

Lemma moveCursor_End_fields (w : TerminalWidget) :
  text (QTextEdit.moveCursor_End w) = text w /\
  log (QTextEdit.moveCursor_End w) = log w /\
  current_format (QTextEdit.moveCursor_End w) = current_format w.
Proof. destruct w. repeat split. Qed.

(** A line in yellow between two line breaks, as the widget's own reports
    are written. *)
Lemma report_in_yellow (report : string) (w : TerminalWidget) :
  esc_free report = true ->
  exists w2,
    append_ansi_text (nl ++ (esc ++ "[33m") ++ report ++ (esc ++ "[0m") ++ nl) w
    = Ok w2 /\
    text w2 = text w ++ nl ++ report ++ nl /\
    log w2 = (log w ++ [TextRun nl (current_format w)]
                ++ run_of report (setForeground "#CDCD00" (current_format w))
                ++ [TextRun nl default_format])%list /\
    current_format w2 = default_format /\
    input_start_pos w2 = String.length (text w2) /\
    restart_count w2 = restart_count w /\
    last_started w2 = last_started w.
Proof.
  intros Hrep.
  destruct (append_ansi_text_display_only
              (nl ++ (esc ++ "[33m") ++ report ++ (esc ++ "[0m") ++ nl) w)
    as (wd & Hd & _ & _ & (_ & _ & _ & Rc & Ls)).
  exists wd. split; [exact Hd|].
  rewrite (append_ansi_text_first_sequence nl (esc ++ "[33m") _ _ w
             eq_refl (seq_sgr "33" eq_refl)) in Hd.
  set (w0 := shown nl (QTextEdit.moveCursor_End w)) in Hd.
  rewrite (handle_match_to_match _ 0) in Hd.
  change (handle_match (to_match 0 _) w0) with (handle_sgr "33" w0) in Hd.
  rewrite (handle_sgr_single_code "33" 33 w0 eq_refl eq_refl eq_refl) in Hd.
  cbn [bind] in Hd.
  set (w1 := _apply_sgr_code 33 w0) in Hd.
  rewrite (append_ansi_text_one_sequence report (esc ++ "[0m") nl _ w1 Hrep
             (seq_sgr "0" eq_refl) eq_refl) in Hd.
  set (w2 := shown report (QTextEdit.moveCursor_End w1)) in Hd.
  rewrite (handle_match_to_match _ 0) in Hd.
  change (handle_match (to_match 0 _) w2) with (handle_sgr "0" w2) in Hd.
  rewrite (handle_sgr_single_code "0" 0 w2 eq_refl eq_refl eq_refl) in Hd.
  cbn [bind] in Hd.
  set (w3 := _apply_sgr_code 0 w2) in Hd.
  injection Hd as <-.
  destruct (moveCursor_End_fields w) as (Tm & Lm & Fm).
  destruct (shown_at_end nl _ (at_end_moveCursor_End w)) as (T0 & L0 & F0 & N0 & E0).
  fold w0 in T0, L0, F0, N0, E0. rewrite Tm in T0. rewrite Lm, Fm in L0.
  rewrite Fm in F0.
  assert (R1 : w1 = set_current_format (setForeground "#CDCD00" (current_format w0)) w0)
    by reflexivity.
  assert (T1 : text w1 = text w0) by (rewrite R1; now destruct w0).
  assert (L1 : log w1 = log w0) by (rewrite R1; now destruct w0).
  assert (F1 : current_format w1 = setForeground "#CDCD00" (current_format w))
    by (rewrite R1, <- F0; now destruct w0).
  destruct (moveCursor_End_fields w1) as (Tm1 & Lm1 & Fm1).
  destruct (shown_at_end report _ (at_end_moveCursor_End w1))
    as (T2 & L2 & F2 & N2 & E2).
  fold w2 in T2, L2, F2, N2, E2. rewrite Tm1, T1 in T2. rewrite Lm1, Fm1, L1, F1 in L2.
  assert (R3 : w3 = _reset_char_format_to_default w2) by reflexivity.
  assert (E3 : at_end w3) by (rewrite R3; destruct w2; exact E2).
  assert (T3 : text w3 = text w2) by (rewrite R3; now destruct w2).
  assert (L3 : log w3 = log w2) by (rewrite R3; now destruct w2).
  assert (F3 : current_format w3 = default_format)
    by (rewrite R3; now destruct w2).
  destruct (shown_at_end nl _ E3) as (T4 & L4 & F4 & N4 & E4).
  destruct (finish_fields (shown nl w3)) as (T5 & L5 & F5 & B5 & _).
  rewrite T5, L5, F5, B5, T4, L4, F4, F3, T3, L3, T2, L2, T0, L0.
  split; [now rewrite !append_assoc|].
  split; [now rewrite <- !app_assoc|].
  repeat split; auto.
Qed.

(** X9.  When the child process ends, the widget shows a report on a line of its
    own, in yellow over whatever style was current, goes back to the default
    format, puts the input boundary at the end and marks the process as not
    running; the restart bookkeeping is not touched. *)
Theorem process_finished_reports_and_marks_stopped
    (exitCode : Z) (exitStatus : ExitStatus) (w : TerminalWidget) :
  esc_free (terminal_id w) = true ->
  let report :=
    "[" ++ terminal_id w ++ "] Shell process "
        ++ match exitStatus with
           | CrashExit => "crashed"
           | NormalExit => "finished"
           end
        ++ " with code " ++ str_of_Z exitCode ++ "." in
  exists w2,
    process_finished exitCode exitStatus w = Ok w2 /\
    process_running w2 = false /\
    text w2 = text w ++ nl ++ report ++ nl /\
    log w2 = (log w ++ [TextRun nl (current_format w);
                        TextRun report (setForeground "#CDCD00" (current_format w));
                        TextRun nl default_format])%list /\
    current_format w2 = default_format /\
    input_start_pos w2 = String.length (text w2) /\
    restart_count w2 = restart_count w /\
    last_started w2 = last_started w.
Proof.
  intros Hid report. unfold process_finished.
  set (status_str := match exitStatus with
                     | CrashExit => "crashed"
                     | NormalExit => "finished"
                     end) in *.
  assert (Hrep : esc_free report = true).
  { unfold report. rewrite !esc_free_append, Hid, esc_free_str_of_Z.
    now destruct exitStatus. }
  assert (Hmsg : nl ++ esc ++ "[33m[" ++ terminal_id w ++ "] Shell process "
                    ++ status_str ++ " with code " ++ str_of_Z exitCode
                    ++ "." ++ esc ++ "[0m" ++ nl
                 = nl ++ (esc ++ "[33m") ++ report ++ (esc ++ "[0m") ++ nl).
  { unfold report. rewrite !append_assoc. reflexivity. }
  assert (Hrun : forall f, run_of report f = [TextRun report f]) by reflexivity.
  rewrite Hmsg.
  destruct (report_in_yellow report w Hrep) as (wm & H & T & L & F & B & Rc & Ls).
  rewrite H. cbn [bind]. eexists. split; [reflexivity|].
  destruct (set_process_running_fields false wm) as (P1 & P2 & P3 & P4 & P5 & P6 & P7).
  rewrite P1, P2, P3, P4, P5, P6, P7, T, L, F, Rc, Ls, Hrun.
  rewrite T in B. repeat split; auto.
Qed.

Lemma process_finished_witness :
  exists w2,
    process_finished 1 CrashExit (widget_with "$ " 2 true) = Ok w2 /\
    process_running w2 = false /\
    text w2 = "$ " ++ nl ++ "[T1] Shell process crashed with code 1." ++ nl /\
    current_format w2 = default_format.
Proof.
  destruct (process_finished_reports_and_marks_stopped 1 CrashExit
              (widget_with "$ " 2 true) eq_refl)
    as (w2 & H & R & T & _ & F & _).
  exists w2. repeat split; assumption.
Defined.

(** ** The SGR codes, one attribute each *)

Lemma between_outside (lo hi x : Z) :
  (x < lo \/ hi < x)%Z -> between lo hi x = false.
Proof.
  unfold between. intros H.
  destruct (Z.leb_spec lo x), (Z.leb_spec x hi); try reflexivity; lia.
Qed.

Lemma apply_sgr_code_attribute (code : Z) :
  match attribute_of code with
  | Some Foreground =>
      exists c, forall w,
        _apply_sgr_code code w
        = set_current_format (setForeground c (current_format w)) w
  | Some Background =>
      exists c, forall w,
        _apply_sgr_code code w
        = set_current_format (setBackground c (current_format w)) w
  | Some FontWeight =>
      exists x, forall w,
        _apply_sgr_code code w
        = set_current_format (setFontWeight x (current_format w)) w
  | Some FontItalic =>
      exists b, forall w,
        _apply_sgr_code code w
        = set_current_format (setFontItalic b (current_format w)) w
  | Some FontUnderline =>
      exists b, forall w,
        _apply_sgr_code code w
        = set_current_format (setFontUnderline b (current_format w)) w
  | None => code <> 0%Z -> forall w, _apply_sgr_code code w = w
  end.
Proof.
  unfold attribute_of, _apply_sgr_code.
  cbn [dict_get ANSI_SGR_CODES_TO_COLORS].
  repeat match goal with
         | |- context [(code =? ?k)%Z] =>
             destruct (Z.eqb_spec code k) as [->|?]
         end;
    try (simpl; eexists; intros; reflexivity);
    try (simpl; intros; (congruence || reflexivity)).
  rewrite !between_outside by lia. simpl. intros; reflexivity.
Qed.

(** X10.  Each SGR code other than 0 sets one attribute of the format or does
    nothing: a code that stands for no attribute leaves the widget as it
    is; of two codes for the same attribute the later one decides; two
    codes for different attributes can be applied in either order. *)
Theorem sgr_codes_set_one_attribute_each :
  (forall (code : Z) (w : TerminalWidget),
      attribute_of code = None -> code <> 0%Z -> _apply_sgr_code code w = w)
  /\ (forall (a b : Z) (w : TerminalWidget),
        attribute_of a <> None ->
        attribute_of a = attribute_of b ->
        _apply_sgr_code b (_apply_sgr_code a w) = _apply_sgr_code b w)
  /\ (forall (a b : Z) (w : TerminalWidget),
        attribute_of a <> None -> attribute_of b <> None ->
        attribute_of a <> attribute_of b ->
        _apply_sgr_code a (_apply_sgr_code b w)
        = _apply_sgr_code b (_apply_sgr_code a w)).
Proof.
  split; [|split].
  - intros code w N Z0. pose proof (apply_sgr_code_attribute code) as H.
    rewrite N in H. now apply H.
  - intros a b w Na E.
    pose proof (apply_sgr_code_attribute a) as Ha.
    pose proof (apply_sgr_code_attribute b) as Hb.
    rewrite <- E in Hb.
    destruct (attribute_of a) as [[]|]; try congruence;
      destruct Ha as [x Ha], Hb as [y Hb]; rewrite !Hb, !Ha;
      destruct w as [? ? [] ? ? ? ? ? ? ? ? ?]; reflexivity.
  - intros a b w Na Nb D.
    pose proof (apply_sgr_code_attribute a) as Ha.
    pose proof (apply_sgr_code_attribute b) as Hb.
    destruct (attribute_of a) as [[]|], (attribute_of b) as [[]|];
      try congruence;
      destruct Ha as [x Ha], Hb as [y Hb]; rewrite ?Hb, ?Ha, ?Hb;
      destruct w as [? ? [] ? ? ? ? ? ? ? ? ?]; reflexivity.
Qed.

Lemma sgr_codes_witness :
  _apply_sgr_code 5 fresh_widget = fresh_widget
  /\ _apply_sgr_code 32 (_apply_sgr_code 91 fresh_widget)
     = _apply_sgr_code 32 fresh_widget
  /\ _apply_sgr_code 1 (_apply_sgr_code 44 fresh_widget)
     = _apply_sgr_code 44 (_apply_sgr_code 1 fresh_widget).
Proof.
  destruct sgr_codes_set_one_attribute_each as (A & B & C).
  split; [|split].
  - apply A; [reflexivity | discriminate].
  - apply B; [discriminate | reflexivity].
  - apply C; discriminate.
Defined.

(** ** Keys *)

Lemma typing_step (ev : QKeyEvent) (w : TerminalWidget) :
  is_typing ev = true ->
  QTextEdit.hasSelection w = false ->
  input_start_pos w <= String.length (text w) ->
  exists w2,
    keyPressEvent ev w = Ok w2 /\
    text w2 = text w ++ typed ev /\
    input_start_pos w2 = input_start_pos w /\
    QTextEdit.hasSelection w2 = false /\
    process_running w2 = process_running w /\
    log w2 = (log w ++ [SuperKeyPress ev])%list.
Proof.
  intros Ht Hsel Hb. unfold is_typing in Ht.
  apply andb_true_iff in Ht as [Hc Hk]. apply negb_true_iff in Hc.
  unfold keyPressEvent. rewrite Hsel, Hc, andb_false_r. cbn [negb orb andb].
  apply Nat.leb_le in Hb.
  destruct (key ev) eqn:Hkey; try discriminate Hk; cbn [Key_eqb is_navigation orb];
    destruct w; widget_simpl;
    (replace (String.length text0 <? input_start_pos0)%nat with false
      by (symmetry; apply Nat.ltb_ge; now apply Nat.leb_le));
    unfold QTextEdit.keyPressEvent; rewrite Hkey, Hc; widget_simpl;
    eexists; (split; [reflexivity|]); widget_simpl;
    rewrite Nat.min_id, Nat.max_id, drop_all, append_empty_r,
      (take_all (String.length text0) text0), Nat.eqb_refl by lia;
    repeat split.
Qed.

(** X11.  Control-C never changes the text, the caret or the input boundary. It
    sends the interrupt character to the child process when that is running
    and no text is selected; otherwise the key goes to the inherited handler
    (which copies the selection) and nothing is sent. *)
Theorem control_c_interrupts_or_copies (ev : QKeyEvent) (w : TerminalWidget) :
  is_interrupt ev = true ->
  exists w2,
    keyPressEvent ev w = Ok w2 /\
    text w2 = text w /\
    anchor w2 = anchor w /\ position w2 = position w /\
    input_start_pos w2 = input_start_pos w /\
    log w2 = (log w ++
              [if process_running w && negb (QTextEdit.hasSelection w)
               then ProcessWrite (String "003" "")
               else SuperKeyPress ev])%list.
Proof.
  intros Hi. unfold is_interrupt in Hi. unfold keyPressEvent. rewrite Hi.
  apply andb_true_iff in Hi as [Hk Hc].
  assert (Hkey : key ev = Key_C) by (destruct (key ev); auto; discriminate).
  unfold QTextEdit.keyPressEvent. rewrite Hkey, Hc.
  destruct (process_running w); cbn [andb];
    [destruct (QTextEdit.hasSelection w); cbn [negb]|];
    eexists; (split; [reflexivity|]); destruct w; repeat split.
Qed.

Lemma control_c_witness :
  exists w2,
    keyPressEvent (mkKeyEvent Key_C true "" 0) (widget_with "$ sleep 9" 2 true)
    = Ok w2 /\
    text w2 = "$ sleep 9" /\
    log w2 = [ProcessWrite (String "003" "")].
Proof.
  destruct (control_c_interrupts_or_copies (mkKeyEvent Key_C true "" 0)
              (widget_with "$ sleep 9" 2 true) eq_refl)
    as (w2 & H & T & _ & _ & _ & L).
  exists w2. repeat split; assumption.
Defined.

Lemma press_keys_app (evs1 evs2 : list QKeyEvent) :
  forall w : TerminalWidget,
    press_keys (evs1 ++ evs2)%list w
    = (w1 <- press_keys evs1 w ;; press_keys evs2 w1).
Proof.
  induction evs1 as [|ev evs1 IH]; intros w; [reflexivity|].
  cbn [app press_keys].
  destruct (keyPressEvent ev w) as [w1| |]; cbn [bind]; auto.
Qed.

Lemma drop_append_le (n : nat) (a b : string) :
  n <= String.length a -> drop n (a ++ b) = drop n a ++ b.
Proof.
  revert a. induction n as [|n IH]; intros a L; [reflexivity|].
  destruct a as [|c a]; [simpl in L; lia|].
  cbn [append drop]. apply IH. simpl in L. lia.
Qed.

Lemma typing_run (evs : list QKeyEvent) :
  forall w : TerminalWidget,
    forallb is_typing evs = true ->
    QTextEdit.hasSelection w = false ->
    input_start_pos w <= String.length (text w) ->
    exists w2,
      press_keys evs w = Ok w2 /\
      text w2 = text w ++ typed_text evs /\
      input_start_pos w2 = input_start_pos w /\
      QTextEdit.hasSelection w2 = false /\
      process_running w2 = process_running w /\
      log w2 = (log w ++ map SuperKeyPress evs)%list.
Proof.
  induction evs as [|ev evs IH]; intros w Ht Hsel Hb.
  - exists w. cbn. rewrite append_empty_r, app_nil_r. repeat split; auto.
  - cbn [forallb] in Ht. apply andb_true_iff in Ht as [Hev Ht].
    destruct (typing_step ev w Hev Hsel Hb) as (w1 & H1 & T1 & B1 & S1 & R1 & L1).
    destruct (IH w1 Ht S1) as (w2 & H2 & T2 & B2 & S2 & R2 & L2).
    { rewrite B1, T1, length_append. lia. }
    exists w2. cbn [press_keys]. rewrite H1. cbn [bind].
    split; [exact H2|].
    rewrite T2, T1, B2, B1, R2, R1, L2, L1.
    cbn [typed_text fold_right map]. rewrite append_assoc, <- app_assoc.
    repeat split; auto.
Qed.

Lemma submit_step (ev : QKeyEvent) (w : TerminalWidget) :
  is_submit ev = true ->
  past_guard w = true ->
  exists w2 out new,
    keyPressEvent ev w = Ok w2 /\
    text w2 = text w ++ out ++ nl /\
    input_start_pos w2 = String.length (text w2) /\
    log w2 = (log w ++ new ++ [SuperKeyPress ev])%list /\
    (process_running w = true ->
     out = "" /\
     new = [ProcessWrite (rstrip LF (drop (input_start_pos w) (text w)) ++ nl)]) /\
    (process_running w = false -> writes new = []).
Proof.
  intros Hsub Hguard.
  rewrite (keyPressEvent_submit ev w Hsub Hguard). cbv zeta.
  destruct (process_running w) eqn:Hrun.
  - cbn [bind].
    set (w1 := process_write _ (QTextEdit.moveCursor_End w)).
    assert (E1 : at_end w1) by (subst w1; destruct w; now split).
    destruct (super_submit_at_end ev w1 Hsub E1) as [T P].
    eexists. exists "".
    exists [ProcessWrite (rstrip LF (drop (input_start_pos w) (text w)) ++ nl)].
    split; [reflexivity|].
    assert (Hlog : log (QTextEdit.keyPressEvent ev w1)
                   = (log w ++ [ProcessWrite
                         (rstrip LF (drop (input_start_pos w) (text w)) ++ nl)]
                      ++ [SuperKeyPress ev])%list).
    { rewrite log_super. subst w1. destruct w; cbn.
      now rewrite <- app_assoc. }
    assert (Htext : text w1 = text w) by (subst w1; destruct w; reflexivity).
    destruct (QTextEdit.keyPressEvent ev w1) eqn:Hk; widget_simpl.
    rewrite T, P, Htext. repeat split; auto; discriminate.
  - match goal with
    | |- context [append_ansi_text ?m ?w1] =>
        destruct (append_ansi_text_spec m w1)
          as (w2 & H & _ & E2 & _ & new & L & D & T & X)
    end.
    rewrite H. cbn [bind].
    destruct (super_submit_at_end ev w2 Hsub E2) as [Tx Px].
    eexists. exists ("Shell not running." ++ nl), new.
    split; [reflexivity|].
    assert (Hlog : log (QTextEdit.keyPressEvent ev w2)
                   = (log w ++ new ++ [SuperKeyPress ev])%list).
    { rewrite log_super, L, <- app_assoc. destruct w; reflexivity. }
    assert (Htext : text w2 = text w ++ "Shell not running." ++ nl).
    { rewrite (X eq_refl). destruct w; reflexivity. }
    destruct (QTextEdit.keyPressEvent ev w2) eqn:Hk; widget_simpl.
    rewrite Tx, Px, Htext, Hlog, !append_assoc.
    repeat split; auto; try discriminate.
    intros _. apply (display_events_no_write new D).
Qed.

(** X12.  What is typed after the last output is what Enter sends: after any
    run of typing keys, typing text that the widget keeps as it is, and then
    Return or Enter, with the child process running, exactly one write is
    made, of the text behind the input boundary (the typed text at its end)
    without trailing line breaks and with one line break added; the input
    boundary moves behind the line break. *)
Theorem typed_line_is_sent_on_enter
    (evs : list QKeyEvent) (ret : QKeyEvent) (w : TerminalWidget) :
  forallb is_typing evs = true ->
  verbatim (typed_text evs) = true ->
  is_submit ret = true ->
  QTextEdit.hasSelection w = false ->
  process_running w = true ->
  input_start_pos w <= String.length (text w) ->
  exists w2,
    press_keys (evs ++ [ret])%list w = Ok w2 /\
    log w2 = (log w ++ map SuperKeyPress evs
                ++ [ProcessWrite
                      (rstrip LF (drop (input_start_pos w) (text w)
                                    ++ typed_text evs) ++ nl);
                    SuperKeyPress ret])%list /\
    text w2 = text w ++ typed_text evs ++ nl /\
    input_start_pos w2 = String.length (text w2).
Proof.
  intros Ht _ Hsub Hsel Hrun Hb.
  destruct (typing_run evs w Ht Hsel Hb) as (w1 & H1 & T1 & B1 & S1 & R1 & L1).
  assert (G1 : past_guard w1 = true).
  { unfold past_guard. rewrite S1, B1, T1, length_append. cbn [orb].
    apply Nat.leb_le. lia. }
  destruct (submit_step ret w1 Hsub G1) as (w2 & out & new & H2 & T2 & B2 & L2 & Y & _).
  destruct (Y (eq_trans R1 Hrun)) as [-> ->].
  exists w2. rewrite press_keys_app, H1. cbn [bind press_keys]. rewrite H2.
  cbn [bind]. split; [reflexivity|].
  rewrite B2, L2, T2, L1, T1, B1, drop_append_le, <- !app_assoc, !append_assoc
    by exact Hb.
  auto.
Qed.

Lemma typed_line_witness :
  exists w2,
    press_keys ([mkKeyEvent Key_Other false "l" 0; mkKeyEvent Key_Other false "s" 0]
                  ++ [plain_key Key_Return])%list
      (widget_with "prompt> " 8 true) = Ok w2 /\
    writes (log w2) = [ProcessWrite ("ls" ++ nl)] /\
    text w2 = "prompt> ls" ++ nl /\
    input_start_pos w2 = 11.
Proof.
  destruct (typed_line_is_sent_on_enter
              [mkKeyEvent Key_Other false "l" 0; mkKeyEvent Key_Other false "s" 0]
              (plain_key Key_Return) (widget_with "prompt> " 8 true)
              eq_refl eq_refl eq_refl eq_refl eq_refl)
    as (w2 & H & L & T & B).
  { cbn. lia. }
  exists w2. split; [exact H|]. rewrite B, L, T. repeat split.
Defined.

(** X13.  A key without the Control modifier, pressed while no text is selected
    and the input boundary lies within the text, leaves everything before
    the boundary as it is; the boundary does not move back and stays within
    the text. *)
Theorem keys_without_selection_keep_the_history
    (ev : QKeyEvent) (w : TerminalWidget) :
  control ev = false ->
  QTextEdit.hasSelection w = false ->
  input_start_pos w <= String.length (text w) ->
  exists w2,
    keyPressEvent ev w = Ok w2 /\
    take (input_start_pos w) (text w2) = take (input_start_pos w) (text w) /\
    input_start_pos w <= input_start_pos w2 /\
    input_start_pos w2 <= String.length (text w2).
Proof.
  intros Hc Hsel Hb.
  destruct (is_deletion ev) eqn:Hdel; [|destruct (is_submit ev) eqn:Hsub;
    [|destruct (is_typing ev) eqn:Htyp]].
  - destruct (deletion_without_selection ev w Hdel Hsel)
      as (w2 & H & _ & B & T & _).
    specialize (T Hc).
    exists w2. split; [exact H|]. split; [exact T|]. rewrite B.
    split; [lia|].
    apply (f_equal String.length) in T. rewrite !length_take in T. lia.
  - assert (G : past_guard w = true).
    { unfold past_guard. rewrite Hsel. cbn [orb]. now apply Nat.leb_le. }
    destruct (submit_step ev w Hsub G) as (w2 & out & new & H & T & B & _).
    exists w2. split; [exact H|]. rewrite B, T, take_append_le by exact Hb.
    rewrite length_append. split; [reflexivity|]. lia.
  - destruct (typing_step ev w Htyp Hsel Hb) as (w2 & H & T & B & _).
    exists w2. split; [exact H|]. rewrite B, T, take_append_le by exact Hb.
    rewrite length_append. split; [reflexivity|]. lia.
  - unfold is_deletion, is_submit, is_typing in *. rewrite Hc in Htyp.
    cbn [negb andb] in Htyp.
    unfold keyPressEvent. rewrite Hsel, Hc, andb_false_r. cbn [negb orb andb].
    apply orb_false_iff in Hdel as [Hbs Hdl]. rewrite Hbs, Hdl, Hsub.
    assert (Hnav : is_navigation (key ev) = true)
      by (destruct (key ev); auto; discriminate).
    replace (position (QTextEdit.moveCursor_End w)
             <? input_start_pos (QTextEdit.moveCursor_End w))%nat with false
      by (symmetry; apply Nat.ltb_ge; destruct w; exact Hb).
    eexists. split; [reflexivity|].
    unfold QTextEdit.keyPressEvent.
    destruct (key ev); try discriminate Hnav; destruct w; widget_simpl;
      repeat split; auto.
Qed.

Lemma keys_without_selection_witness :
  exists w2,
    keyPressEvent (plain_key Key_Backspace) (widget_with "prompt> " 8 true) = Ok w2 /\
    take 8 (text w2) = "prompt> " /\ input_start_pos w2 = 8.
Proof.
  destruct (keys_without_selection_keep_the_history (plain_key Key_Backspace)
              (widget_with "prompt> " 8 true) eq_refl eq_refl)
    as (w2 & H & T & B1 & B2).
  { cbn. lia. }
  exists w2. split; [exact H|]. split; [exact T|].
  apply (f_equal String.length) in T. rewrite length_take in T.
  cbn in T, B1, B2. vm_compute in H. inversion H. reflexivity.
Defined.

(** X14.  Backspace or Delete with a selection removes the selected text wherever
    it lies, before the input boundary too, and the boundary is not moved.
    If the text is then shorter than the boundary, every further key other
    than Control-C and the navigation keys is dropped: nothing is typed,
    deleted or sent. *)
Theorem deleting_a_selection_can_block_the_input
    (ev : QKeyEvent) (w : TerminalWidget) :
  is_deletion ev = true ->
  QTextEdit.hasSelection w = true ->
  exists w2,
    keyPressEvent ev w = Ok w2 /\
    text w2 = take (QTextEdit.selectionStart w) (text w)
              ++ drop (QTextEdit.selectionEnd w) (text w) /\
    input_start_pos w2 = input_start_pos w /\
    QTextEdit.hasSelection w2 = false /\
    (String.length (text w2) < input_start_pos w ->
     forall ev2 : QKeyEvent,
       is_interrupt ev2 = false ->
       is_navigation (key ev2) = false ->
       exists w3,
         keyPressEvent ev2 w2 = Ok w3 /\
         text w3 = text w2 /\ log w3 = log w2 /\
         input_start_pos w3 = input_start_pos w2 /\
         QTextEdit.hasSelection w3 = false).
Proof.
  intros Hdel Hsel.
  assert (Hkc : Key_eqb (key ev) Key_C = false)
    by (unfold is_deletion in Hdel; destruct (key ev); auto; discriminate).
  unfold keyPressEvent at 1. rewrite Hsel, Hkc. cbn [negb andb orb].
  set (w2 := QTextEdit.keyPressEvent ev w).
  assert (Hw2 : w2 = QTextEdit.replace_selection "" (emit (SuperKeyPress ev) w)).
  { subst w2. unfold QTextEdit.keyPressEvent, is_deletion in *.
    assert (Hs : QTextEdit.hasSelection (emit (SuperKeyPress ev) w) = true)
      by (destruct w; exact Hsel).
    destruct (key ev); try discriminate Hdel; cbv zeta; now rewrite Hs. }
  exists w2. split.
  { unfold is_deletion in Hdel.
    destruct (Key_eqb (key ev) Key_Backspace); [reflexivity|].
    cbn [orb] in Hdel. now rewrite Hdel. }
  assert (T : text w2 = take (QTextEdit.selectionStart w) (text w)
                        ++ drop (QTextEdit.selectionEnd w) (text w))
    by (rewrite Hw2; destruct w; reflexivity).
  assert (B : input_start_pos w2 = input_start_pos w)
    by (rewrite Hw2; destruct w; reflexivity).
  assert (S : QTextEdit.hasSelection w2 = false).
  { rewrite Hw2. destruct w; widget_simpl. now rewrite Nat.eqb_refl. }
  split; [exact T|]. split; [exact B|]. split; [exact S|].
  intros Hshort ev2 Hint Hnav. rewrite <- B in Hshort.
  clear - Hshort Hint Hnav S. unfold is_interrupt in Hint.
  unfold keyPressEvent. rewrite Hint, S. cbn [negb orb andb].
  assert (P : position (QTextEdit.moveCursor_End w2) = String.length (text w2))
    by (destruct w2; reflexivity).
  assert (I : input_start_pos (QTextEdit.moveCursor_End w2) = input_start_pos w2)
    by (destruct w2; reflexivity).
  rewrite P, I, Hnav.
  replace (input_start_pos w2 <? String.length (text w2))%nat with false
    by (symmetry; apply Nat.ltb_ge; lia).
  replace (input_start_pos w2 <=? String.length (text w2))%nat with false
    by (symmetry; apply Nat.leb_gt; lia).
  replace (String.length (text w2) <? input_start_pos w2)%nat with true
    by (symmetry; apply Nat.ltb_lt; lia).
  exists (QTextEdit.moveCursor_End w2). split.
  { now destruct (Key_eqb (key ev2) Key_Backspace),
      (Key_eqb (key ev2) Key_Delete). }
  destruct w2; widget_simpl. rewrite Nat.eqb_refl. repeat split.
Qed.

Lemma deleting_a_selection_witness :
  exists w2,
    keyPressEvent (plain_key Key_Backspace)
      (set_buffer "prompt> ls" 0 7 (widget_with "prompt> ls" 8 true)) = Ok w2 /\
    text w2 = " ls" /\
    input_start_pos w2 = 8 /\
    exists w3,
      keyPressEvent (mkKeyEvent Key_Other false "x" 0) w2 = Ok w3 /\
      text w3 = " ls" /\ log w3 = log w2.
Proof.
  destruct (deleting_a_selection_can_block_the_input (plain_key Key_Backspace)
              (set_buffer "prompt> ls" 0 7 (widget_with "prompt> ls" 8 true))
              eq_refl eq_refl)
    as (w2 & H & T & B & _ & K).
  exists w2. split; [exact H|]. split; [exact T|]. split; [exact B|].
  destruct (K ltac:(rewrite T; cbn; lia) (mkKeyEvent Key_Other false "x" 0)
              eq_refl eq_refl) as (w3 & H3 & T3 & L3 & _).
  exists w3. split; [exact H3|]. split; [|exact L3].
  rewrite T3. exact T.
Defined.

(** ** The key handler of [term3.py] *)

(** X15.  In [term3.py] the caret is moved to the end before any key is
    handled, which drops the selection: Backspace and Delete, pressed
    without the Control modifier, leave everything before the input boundary
    as it is whatever was selected, Delete removes nothing at all, and
    Backspace removes nothing when the boundary is at the end of the text
    or beyond. *)
Theorem term3_deletion_keys_spare_the_history
    (ev : QKeyEvent) (w : TerminalWidget) :
  is_deletion ev = true ->
  control ev = false ->
  exists w2,
    Term3Keys.keyPressEvent ev w = Ok w2 /\
    take (input_start_pos w) (text w2) = take (input_start_pos w) (text w) /\
    input_start_pos w2 = input_start_pos w /\
    QTextEdit.hasSelection w2 = false /\
    (key ev = Key_Delete -> text w2 = text w) /\
    (String.length (text w) <= input_start_pos w -> text w2 = text w).
Proof.
  intros Hdel Hc. unfold is_deletion in Hdel. unfold Term3Keys.keyPressEvent.
  destruct (key ev) eqn:Hkey; try discriminate Hdel; cbn [Key_eqb andb orb].
  - (* Backspace *)
    destruct w; widget_simpl.
    destruct (input_start_pos0 <? String.length text0)%nat eqn:L.
    + apply Nat.ltb_lt in L.
      unfold QTextEdit.keyPressEvent. rewrite Hkey, Hc. widget_simpl.
      rewrite Nat.eqb_refl. cbn [negb].
      destruct (0 <? String.length text0)%nat eqn:L0;
        [|apply Nat.ltb_ge in L0; lia].
      eexists. split; [reflexivity|]. widget_simpl.
      rewrite Nat.eqb_refl, drop_all, append_empty_r by lia.
      rewrite take_take by lia.
      repeat split; auto; try discriminate. lia.
    + apply Nat.ltb_ge in L.
      eexists. split; [reflexivity|]. widget_simpl.
      rewrite Nat.eqb_refl. repeat split; auto.
  - (* Delete *)
    destruct w; widget_simpl.
    unfold QTextEdit.keyPressEvent. rewrite Hkey, Hc. widget_simpl.
    rewrite Nat.eqb_refl. cbn [negb].
    eexists. split; [reflexivity|]. widget_simpl.
    rewrite Nat.eqb_refl, (drop_all (String.length text0 + 1)), append_empty_r,
      (take_all (String.length text0) text0) by lia.
    repeat split; auto.
Qed.

Lemma term3_deletion_witness :
  exists w2,
    Term3Keys.keyPressEvent (plain_key Key_Backspace)
      (set_buffer "prompt> ls" 0 7 (widget_with "prompt> ls" 8 true)) = Ok w2 /\
    text w2 = "prompt> l" /\ input_start_pos w2 = 8.
Proof.
  destruct (term3_deletion_keys_spare_the_history (plain_key Key_Backspace)
              (set_buffer "prompt> ls" 0 7 (widget_with "prompt> ls" 8 true))
              eq_refl eq_refl)
    as (w2 & H & _ & B & _).
  exists w2. split; [exact H|]. split; [|exact B].
  vm_compute in H. inversion H. reflexivity.
Defined.

(** ** Starting the shell *)

Lemma py_or_first_found (env : StartEnv) :
  let sh := py_or (which env "bash")
              (py_or (which env "powershell.exe") (which env "cmd.exe")) in
  if truthy sh
  then first_found env ["bash"; "powershell.exe"; "cmd.exe"] = sh
  else first_found env ["bash"; "powershell.exe"; "cmd.exe"] = None.
Proof.
  cbv zeta. unfold py_or, truthy. cbn [first_found].
  destruct (which env "bash") as [[|c1 p1]|];
    destruct (which env "powershell.exe") as [[|c2 p2]|];
    destruct (which env "cmd.exe") as [[|c3 p3]|]; reflexivity.
Qed.

Lemma display_only_fields (w : TerminalWidget) (r : result TerminalWidget) :
  display_only w r ->
  exists w2, r = Ok w2 /\
             writes (log w2) = writes (log w) /\
             spawns (log w2) = spawns (log w) /\
             process_running w2 = process_running w /\
             last_started w2 = last_started w.
Proof.
  intros (w2 & H & W & S & (_ & _ & R & _ & L)). exists w2. auto.
Qed.

(** X16.  A start attempt that is made while no child process runs and that is
    not refused as one restart too many starts the first of bash,
    powershell.exe and cmd.exe that is found on the path, with the arguments
    --login -i when its path contains "bash" in any case and with none
    otherwise; the widget counts as running exactly when the process came
    up in time. When none of the three is found nothing is started. No
    attempt writes to a process. *)
Theorem start_process_runs_the_first_shell_found
    (env : StartEnv) (w : TerminalWidget) :
  process_running w = false ->
  ~ (rapid (now env) (last_started w) /\ (3 <= restart_count w)%Z) ->
  exists o w2,
    start_process env w = Ok (o, w2) /\
    writes (log w2) = writes (log w) /\
    last_started w2 = now env /\
    match first_found env ["bash"; "powershell.exe"; "cmd.exe"] with
    | Some sh =>
        spawns (log w2)
        = (spawns (log w)
             ++ [ProcessStart sh (if contains "bash" (lower sh)
                                  then ["--login"; "-i"] else [])])%list /\
        process_running w2 = waitForStarted env /\
        o = (if waitForStarted env then Started else StartTimeout)
    | None =>
        spawns (log w2) = spawns (log w) /\
        process_running w2 = false /\
        o = ShellNotFound
    end.
Proof.
  intros Hrun Hok. unfold start_process. rewrite Hrun.
  set (r := Qltb 0 (now env - last_started w) && Qltb (now env - last_started w) 2).
  assert (Hr : r = true <-> rapid (now env) (last_started w)) by apply rapid_test.
  set (wc := if r then set_restart_count (restart_count w + 1) w
             else set_restart_count 0 w).
  assert (Hc : restart_count wc = if r then (restart_count w + 1)%Z else 0%Z)
    by (subst wc; destruct r, w; reflexivity).
  assert (Hthr : r && (3 <? restart_count wc)%Z = false).
  { destruct r; [|reflexivity]. cbn [andb]. apply Z.ltb_ge. rewrite Hc.
    destruct (Z_lt_le_dec (restart_count w) 3) as [L|L]; [lia|].
    exfalso. apply Hok. split; [now apply Hr | exact L]. }
  rewrite Hthr.
  set (wl := set_last_started (now env) wc).
  assert (Gl : log wl = log w) by (subst wl wc; destruct r, w; reflexivity).
  assert (Pl : process_running wl = false)
    by (subst wl wc; destruct r, w; exact Hrun).
  assert (Ll : last_started wl = now env)
    by (subst wl wc; destruct r, w; reflexivity).
  pose proof (py_or_first_found env) as Hff. cbv zeta in Hff.
  destruct (truthy (py_or (which env "bash")
                      (py_or (which env "powershell.exe") (which env "cmd.exe"))))
    eqn:Htr.
  - rewrite Hff. cbn [negb].
    destruct (py_or (which env "bash")
                (py_or (which env "powershell.exe") (which env "cmd.exe")))
      as [sh|]; [|discriminate Htr].
    match goal with
    | |- context [append_ansi_text ?m wl] =>
        destruct (display_only_fields wl _ (append_ansi_text_display_only m wl))
          as (w2 & H & W2 & S2 & R2 & L2)
    end.
    rewrite H. cbn [bind].
    set (w3 := emit _ w2).
    assert (G3 : log w3
                 = (log w2
                      ++ [ProcessStart sh (if contains "bash" (lower sh)
                                           then ["--login"; "-i"] else [])])%list)
      by (subst w3; now destruct w2).
    assert (W3 : writes (log w3) = writes (log w))
      by (rewrite G3, writes_append, W2, Gl; apply app_nil_r).
    assert (S3 : spawns (log w3)
                 = (spawns (log w)
                      ++ [ProcessStart sh (if contains "bash" (lower sh)
                                           then ["--login"; "-i"] else [])])%list)
      by (rewrite G3, spawns_app, S2, Gl; reflexivity).
    assert (L3 : last_started w3 = now env)
      by (subst w3; destruct w2; cbn in *; congruence).
    destruct (waitForStarted env); cbn [negb].
    + do 2 eexists. split; [reflexivity|].
      replace (log (set_process_running true w3)) with (log w3)
        by now destruct w3.
      replace (last_started (set_process_running true w3)) with (last_started w3)
        by now destruct w3.
      repeat split; auto; now destruct w3.
    + match goal with
      | |- context [append_ansi_text ?m w3] =>
          destruct (display_only_fields w3 _ (append_ansi_text_display_only m w3))
            as (w4 & H4 & W4 & S4 & R4 & L4)
      end.
      rewrite H4. cbn [bind]. do 2 eexists. split; [reflexivity|].
      replace (log (set_process_running false w4)) with (log w4)
        by now destruct w4.
      replace (last_started (set_process_running false w4)) with (last_started w4)
        by now destruct w4.
      rewrite W4, S4, L4. repeat split; auto; now destruct w4.
  - rewrite Hff. cbn [negb].
    match goal with
    | |- context [append_ansi_text ?m wl] =>
        destruct (display_only_fields wl _ (append_ansi_text_display_only m wl))
          as (w2 & H & W2 & S2 & R2 & L2)
    end.
    rewrite H. cbn [bind]. do 2 eexists. split; [reflexivity|].
    rewrite W2, S2, R2, L2, Gl, Pl, Ll. auto.
Qed.

Lemma start_process_witness :
  exists w2,
    start_process (crash_env 10) fresh_widget = Ok (Started, w2) /\
    spawns (log w2) = [ProcessStart "/bin/bash" ["--login"; "-i"]] /\
    process_running w2 = true.
Proof.
  destruct (start_process_runs_the_first_shell_found (crash_env 10) fresh_widget
              eq_refl) as (o & w2 & H & _ & _ & S & R & O).
  { intros [_ C]. cbn in C. lia. }
  cbn in O. subst o.
  exists w2. split; [exact H|]. split; [exact S | exact R].
Defined.

(** ** [term3.py] and [term66.py] *)

Lemma term3_apply_sgr_code (code : Z) (w : TerminalWidget) :
  existsb (Z.eqb code) [22; 23; 24; 38; 48]%Z = false ->
  Term3._apply_sgr_code code w = _apply_sgr_code code w.
Proof.
  cbn [existsb]. intros H.
  repeat (apply orb_false_iff in H; destruct H as [? H]).
  unfold Term3._apply_sgr_code, _apply_sgr_code.
  assert (R : Term3._reset_char_format_to_default w
              = _reset_char_format_to_default w)
    by (destruct w as [? [] [] ? ? ? ? ? ? ? ? ?]; reflexivity).
  rewrite R.
  repeat match goal with
         | E : (code =? ?k)%Z = false |- _ => rewrite !E; clear E
         end.
  reflexivity.
Qed.

Lemma term3_sgr_loop_done (fuel : nat) (parts : list string) (idx : nat)
    (w : TerminalWidget) :
  List.length parts <= idx -> Term3.sgr_loop fuel parts idx w = Ok w.
Proof.
  intros H. apply Nat.ltb_ge in H. destruct fuel; simpl; now rewrite H.
Qed.

Lemma term3_sgr_loop (fuel : nat) :
  forall (pre l : list string) (w : TerminalWidget),
    List.length l <= fuel ->
    forallb plain_part l = true ->
    Term3.sgr_loop fuel (pre ++ l)%list (List.length pre) w
    = Ok (sgr_effect l w).
Proof.
  induction fuel as [|fuel IH]; intros pre l w Hfuel Hp.
  - destruct l; [|simpl in Hfuel; lia].
    apply term3_sgr_loop_done. rewrite app_nil_r. lia.
  - destruct l as [|part tl].
    { apply term3_sgr_loop_done. rewrite app_nil_r. lia. }
    cbn [forallb] in Hp. apply andb_true_iff in Hp as [Hpart Htl].
    assert (Hgo : forall w',
               Term3.sgr_loop fuel (pre ++ part :: tl)%list (List.length pre + 1) w'
               = Ok (sgr_effect tl w')).
    { intros w'.
      replace (pre ++ part :: tl)%list with ((pre ++ [part]) ++ tl)%list
        by now rewrite <- app_assoc.
      replace (List.length pre + 1) with (List.length (pre ++ [part])%list)
        by (rewrite length_app; reflexivity).
      apply IH; [cbn [List.length] in Hfuel; lia | exact Htl]. }
    cbn [Term3.sgr_loop].
    rewrite ltb_app_0, nth_middle.
    cbn [List.length Nat.ltb Nat.leb sgr_effect].
    unfold plain_part in Hpart. unfold code_of in *.
    destruct (is_empty part) eqn:Hempty.
    + cbn [Z.eqb orb]. rewrite Hgo.
      now rewrite term3_apply_sgr_code by reflexivity.
    + destruct (int part) as [code|[]|] eqn:Hint;
        [| apply Hgo | now apply int_in_fuel in Hint ].
      apply negb_true_iff in Hpart.
      assert (Hext : ((code =? 38) || (code =? 48))%Z = false).
      { cbn [existsb] in Hpart.
        repeat (apply orb_false_iff in Hpart; destruct Hpart as [? Hpart]).
        apply orb_false_iff. auto. }
      rewrite Hext, Hgo. now rewrite term3_apply_sgr_code by exact Hpart.
Qed.

Lemma term3_handle_match (m : Match) (w : TerminalWidget) :
  handled_alike m = true -> Term3.handle_match m w = handle_match m w.
Proof.
  unfold handled_alike, Term3.handle_match, handle_match, clears.
  destruct (g_sgr m) as [run|].
  - intros H. unfold Term3.handle_sgr. rewrite handle_sgr_effect.
    apply (term3_sgr_loop _ [] _ w (Nat.le_refl _) H).
  - destruct (truthy (g_osc_t m) && truthy (g_osc_c m)); [reflexivity|].
    destruct (g_csi_p m) as [p|], (g_csi_l m) as [l|]; try reflexivity.
    destruct (String.eqb l "J"); cbn [andb negb].
    + destruct (String.eqb p "2"); [discriminate | reflexivity].
    + now destruct (String.eqb l "K").
Qed.

Lemma term3_for_matches (chunk : string) (ms : list Match) :
  forall (last : nat) (w : TerminalWidget),
    forallb handled_alike ms = true ->
    Term3.for_matches chunk ms last w = for_matches chunk ms last w.
Proof.
  induction ms as [|m ms IH]; intros last w H; [reflexivity|].
  cbn [forallb] in H. apply andb_true_iff in H as [Hm H].
  cbn [Term3.for_matches for_matches].
  rewrite (term3_handle_match m _ Hm).
  destruct (handle_match m _) as [w1| |]; cbn [bind]; auto.
Qed.

(** X17.  On output in which every SGR parameter is one that both versions know
    and read alike (no 22, 23, 24, 38 or 48) and which does not erase the
    display, [term3.py] and [term66.py] do the same: the earlier version
    returns, and the widget it leaves is the one the later version
    leaves. *)
Theorem term3_and_term66_agree_on_common_sequences
    (chunk : string) (w : TerminalWidget) :
  forallb handled_alike (finditer chunk) = true ->
  Term3.append_ansi_text chunk w = append_ansi_text chunk w /\
  exists w2, Term3.append_ansi_text chunk w = Ok w2.
Proof.
  intros H.
  assert (E : Term3.append_ansi_text chunk w = append_ansi_text chunk w).
  { unfold Term3.append_ansi_text, append_ansi_text.
    now rewrite (term3_for_matches chunk _ 0 _ H). }
  split; [exact E|]. rewrite E.
  destruct (append_ansi_text_spec chunk w) as (w2 & Hw & _). now exists w2.
Qed.

Lemma term3_and_term66_witness :
  Term3.append_ansi_text ("a" ++ esc ++ "[1;31m" ++ "b" ++ esc ++ "[0m") fresh_widget
  = append_ansi_text ("a" ++ esc ++ "[1;31m" ++ "b" ++ esc ++ "[0m") fresh_widget.
Proof.
  exact (proj1 (term3_and_term66_agree_on_common_sequences
                  ("a" ++ esc ++ "[1;31m" ++ "b" ++ esc ++ "[0m") fresh_widget
                  eq_refl)).
Defined.

(** ** What the pattern finds *)

Lemma in_order_from (a b upto : nat) (ms : list Match) :
  a <= b -> in_order b upto ms -> in_order a upto ms.
Proof.
  intros L. destruct ms as [|m ms]; [auto|].
  cbn [in_order]. intros (H1 & H2). split; [lia | exact H2].
Qed.

Lemma match_here_width (s : string) (g : Groups) :
  match_here s = Some g ->
  exists m rest, s = m ++ rest /\ sequence m g /\ width g = String.length m.
Proof.
  intros H. destruct (match_here_sound s g H) as (m & rest & E & Q).
  exists m, rest. split; [exact E|]. split; [exact Q|].
  apply (finditer_sequence m g Q).
Qed.

Lemma scan_in_order (s : string) :
  forall k pos : nat, in_order (pos + k) (pos + String.length s) (scan k pos s).
Proof.
  induction s as [|c s IH]; intros k pos; [exact I|].
  cbn [scan String.length].
  destruct k as [|k].
  - destruct (match_here (String c s)) as [g|] eqn:E.
    + destruct (match_here_width _ _ E) as (m & rest & Es & _ & W).
      pose proof (width_positive _ _ E) as W2.
      apply (f_equal String.length) in Es. rewrite length_append in Es.
      cbn [String.length] in Es.
      cbn [in_order to_match m_start m_end].
      split; [lia|]. split; [lia|]. split; [lia|].
      specialize (IH (width g - 1) (S pos)).
      replace (S pos + (width g - 1)) with (pos + width g) in IH by lia.
      replace (S pos + String.length s) with (pos + S (String.length s)) in IH
        by lia.
      exact IH.
    + specialize (IH 0 (S pos)).
      replace (S pos + String.length s) with (pos + S (String.length s)) in IH
        by lia.
      apply (in_order_from _ _ _ _ (Nat.le_refl _)) in IH.
      apply (in_order_from (pos + 0) (S pos + 0)); [lia | exact IH].
  - specialize (IH k (S pos)).
    replace (S pos + k) with (pos + S k) in IH by lia.
    replace (S pos + String.length s) with (pos + S (String.length s)) in IH
      by lia.
    exact IH.
Qed.

Lemma every_match_sequences (s : string) :
  forall pre : string,
    Forall (fun m => sequence (group0 (pre ++ s) m) (groups_of m))
      (every_match (String.length pre) s).
Proof.
  induction s as [|c s IH]; intros pre; [constructor|].
  cbn [every_match].
  assert (T : Forall (fun m => sequence (group0 (pre ++ String c s) m) (groups_of m))
                (every_match (S (String.length pre)) s)).
  { specialize (IH (pre ++ String c "")).
    rewrite append_assoc, length_append in IH. cbn [append String.length] in IH.
    now replace (String.length pre + 1) with (S (String.length pre)) in IH by lia. }
  destruct (match_here (String c s)) as [g|] eqn:E; [|exact T].
  constructor; [|exact T].
  destruct (match_here_width _ _ E) as (m & rest & Es & Q & W).
  unfold group0, groups_of, slice. cbn [to_match m_start m_end
    g_sgr g_osc_t g_osc_c g_csi_p g_csi_l g_cs g_sc].
  replace (String.length pre + width g - String.length pre) with (width g) by lia.
  rewrite drop_length_append, Es, W, take_length_append.
  rewrite <- W. now destruct g.
Qed.

(** X18.  What the pattern finds in a chunk: every match is a sequence of the
    grammar, with the groups the grammar gives it, and the matches come one
    after the other inside the chunk without overlap. Nothing else is taken
    out of the output. *)
Theorem matches_are_sequences_in_order (chunk : string) :
  Forall (fun m => sequence (group0 chunk m) (groups_of m)) (finditer chunk) /\
  in_order 0 (String.length chunk) (finditer chunk).
Proof.
  split.
  - unfold finditer. rewrite scan_every_match.
    exact (every_match_sequences chunk "").
  - exact (scan_in_order chunk 0 0).
Qed.

(** ** Changing the font *)

(** X19.  [apply_font] sets the current format back to the default one: what
    is shown next is handed to the widget under the default format,
    whatever colours or attributes were in force; the font is the new one
    and the log is not touched, nor is the text (what is shown next, when it
    is text that the widget keeps as it is, follows the old text). *)
Theorem apply_font_resets_the_style
    (font : QFont) (chunk : string) (w : TerminalWidget) :
  esc_free chunk = true ->
  exists w2,
    append_ansi_text chunk (apply_font font w) = Ok w2 /\
    text (apply_font font w) = text w /\
    (verbatim chunk = true -> text w2 = text w ++ chunk) /\
    log w2 = (log w ++ run_of chunk default_format)%list /\
    current_format w2 = default_format /\
    current_font w2 = Some font.
Proof.
  intros H.
  rewrite (append_ansi_text_no_match chunk _ (finditer_esc_free chunk H)).
  eexists. split; [reflexivity|].
  set (w1 := apply_font font w).
  destruct (finish_fields (shown chunk (QTextEdit.moveCursor_End w1)))
    as (T & L & F & _).
  destruct (shown_at_end chunk _ (at_end_moveCursor_End w1)) as (T' & L' & F' & N' & _).
  assert (N : current_font (finish (shown chunk (QTextEdit.moveCursor_End w1)))
              = current_font (shown chunk (QTextEdit.moveCursor_End w1)))
    by now destruct (shown chunk (QTextEdit.moveCursor_End w1)).
  rewrite T, L, F, N, T', L', F', N'.
  subst w1. destruct w; repeat split.
Qed.

Lemma apply_font_witness :
  exists w1 w2,
    append_ansi_text (esc ++ "[1;31m") fresh_widget = Ok w1 /\
    current_format w1 = mkFormat "#CD0000" "black" Weight.Bold false false /\
    append_ansi_text "ok" (apply_font DEFAULT_FONT w1) = Ok w2 /\
    log w2 = [TextRun "ok" default_format].
Proof.
  destruct (append_ansi_text_spec (esc ++ "[1;31m") fresh_widget) as (w1 & H1 & _).
  destruct (apply_font_resets_the_style DEFAULT_FONT "ok" w1 eq_refl)
    as (w2 & H2 & _ & _ & L & _).
  exists w1, w2. split; [exact H1|].
  vm_compute in H1. inversion H1 as [E]. rewrite <- E in L.
  repeat split; [|exact L].
  rewrite <- E in H2. exact H2.
Defined.

(** ** The presets dialog *)

Lemma get_presets_rows (table : list EditPresetsDialog.Row) :
  forall acc : list EditPresetsDialog.Preset,
    fold_left
      (fun (presets : list EditPresetsDialog.Preset) (row : EditPresetsDialog.Row) =>
         (presets ++ [[("label", match fst row with Some t => t | None => "" end);
                       ("command", match snd row with Some t => t | None => "" end)]])%list)
      table acc
    = (acc ++ map (fun row : EditPresetsDialog.Row =>
                     [("label", match fst row with Some t => t | None => "" end);
                      ("command", match snd row with Some t => t | None => "" end)])
                  table)%list.
Proof.
  induction table as [|row table IH]; intros acc; cbn [fold_left map].
  - now rewrite app_nil_r.
  - rewrite IH, <- app_assoc. reflexivity.
Qed.

Lemma load_presets_rows (presets : list EditPresetsDialog.Preset) :
  forall acc : list EditPresetsDialog.Row,
    fold_left
      (fun (table : list EditPresetsDialog.Row) (preset : EditPresetsDialog.Preset) =>
         (table ++ [(Some (EditPresetsDialog.get preset "label" ""),
                     Some (EditPresetsDialog.get preset "command" ""))])%list)
      presets acc
    = (acc ++ map (fun preset =>
                     (Some (EditPresetsDialog.get preset "label" ""),
                      Some (EditPresetsDialog.get preset "command" "")))
                  presets)%list.
Proof.
  induction presets as [|p presets IH]; intros acc; cbn [fold_left map].
  - now rewrite app_nil_r.
  - rewrite IH, <- app_assoc. reflexivity.
Qed.

(** X20.  The presets dialog keeps the presets in their order and keeps of each
    its label and its command (empty when missing) and nothing else,
    whatever the table held before; presets that the dialog has given back
    once go through it unchanged; a row added in between comes back as one
    more preset at the end, and a row removed takes its preset with it and
    no other. *)
Theorem presets_dialog_round_trip :
  (forall (presets : list EditPresetsDialog.Preset)
          (table : list EditPresetsDialog.Row),
      EditPresetsDialog.get_presets (EditPresetsDialog.load_presets presets table)
      = map EditPresetsDialog.normal presets)
  /\ (forall table table' : list EditPresetsDialog.Row,
        EditPresetsDialog.get_presets
          (EditPresetsDialog.load_presets
             (EditPresetsDialog.get_presets table) table')
        = EditPresetsDialog.get_presets table)
  /\ (forall (presets : list EditPresetsDialog.Preset)
             (table : list EditPresetsDialog.Row),
        EditPresetsDialog.get_presets
          (EditPresetsDialog.add_row
             (EditPresetsDialog.load_presets presets table))
        = (map EditPresetsDialog.normal presets
             ++ [[("label", "New Label"); ("command", "new_command")]])%list)
  /\ (forall (current_row : Z) (table : list EditPresetsDialog.Row),
        EditPresetsDialog.get_presets
          (EditPresetsDialog.remove_row current_row table)
        = if (0 <=? current_row)%Z
          then (firstn (Z.to_nat current_row) (EditPresetsDialog.get_presets table)
                  ++ skipn (S (Z.to_nat current_row))
                       (EditPresetsDialog.get_presets table))%list
          else EditPresetsDialog.get_presets table).
Proof.
  assert (A : forall presets table,
             EditPresetsDialog.get_presets
               (EditPresetsDialog.load_presets presets table)
             = map EditPresetsDialog.normal presets).
  { intros presets table.
    unfold EditPresetsDialog.get_presets, EditPresetsDialog.load_presets.
    rewrite load_presets_rows, get_presets_rows. cbn [app].
    rewrite map_map. reflexivity. }
  split; [exact A|]. split; [|split].
  - intros table table'. rewrite A.
    unfold EditPresetsDialog.get_presets. rewrite get_presets_rows. cbn [app].
    rewrite map_map. apply map_ext. intros [l c]. reflexivity.
  - intros presets table.
    unfold EditPresetsDialog.add_row.
    unfold EditPresetsDialog.get_presets at 1.
    rewrite get_presets_rows. cbn [app]. rewrite map_app.
    specialize (A presets table).
    unfold EditPresetsDialog.get_presets in A. rewrite get_presets_rows in A.
    cbn [app] in A. rewrite A. reflexivity.
  - intros current_row table. unfold EditPresetsDialog.remove_row.
    destruct (0 <=? current_row)%Z; [|reflexivity].
    unfold EditPresetsDialog.get_presets. rewrite !get_presets_rows. cbn [app].
    now rewrite map_app, firstn_map, skipn_map.
Qed.

(** ** The terminals of the window *)

Lemma mem_In (x : nat) (l : list nat) : MainWindow.mem x l = true <-> In x l.
Proof.
  unfold MainWindow.mem. rewrite existsb_exists. split.
  - intros (y & Hy & E). apply Nat.eqb_eq in E. now subst.
  - intros H. exists x. split; [exact H | apply Nat.eqb_refl].
Qed.

Lemma remove_middle (before after : list nat) (t : nat) :
  ~ In t before ->
  MainWindow.remove t (before ++ t :: after)%list = (before ++ after)%list.
Proof.
  induction before as [|b before IH]; intros N; cbn [app MainWindow.remove].
  - now rewrite Nat.eqb_refl.
  - destruct (Nat.eqb_spec b t) as [->|Hne]; [exfalso; apply N; now left|].
    f_equal. apply IH. intros H. apply N. now right.
Qed.

Lemma index_middle (before after : list nat) (t : nat) :
  ~ In t before ->
  MainWindow.index t (before ++ t :: after)%list = Some (List.length before).
Proof.
  induction before as [|b before IH]; intros N; cbn [app MainWindow.index List.length].
  - now rewrite Nat.eqb_refl.
  - destruct (Nat.eqb_spec b t) as [->|Hne]; [exfalso; apply N; now left|].
    rewrite IH; [reflexivity|]. intros H. apply N. now right.
Qed.

Lemma NoDup_middle (before after : list nat) (t : nat) :
  NoDup (before ++ t :: after)%list ->
  ~ In t before /\ ~ In t after /\ NoDup (before ++ after)%list.
Proof.
  intros H. pose proof (NoDup_remove_1 _ _ _ H) as H1.
  pose proof (NoDup_remove_2 _ _ _ H) as H2.
  repeat split; auto; intros X; apply H2; apply in_or_app; auto.
Qed.

Lemma nth_error_last (l : list nat) (x : nat) :
  nth_error (l ++ [x])%list (List.length (l ++ [x])%list - 1) = Some x.
Proof.
  rewrite length_app. cbn [List.length].
  replace (List.length l + 1 - 1) with (List.length l) by lia.
  rewrite nth_error_app2 by lia. now rewrite Nat.sub_diag.
Qed.

Lemma nth_error_In_last (l : list nat) :
  l <> [] -> exists x, nth_error l (List.length l - 1) = Some x /\ In x l.
Proof.
  intros N. destruct (exists_last N) as (l' & x & ->).
  exists x. split; [apply nth_error_last | apply in_or_app; right; now left].
Qed.

(** Closing a terminal that the window holds, described by the terminals
    before and after it in the list. *)
Lemma close_terminal_middle (before after : list nat) (t c : nat) (lf : option nat) :
  NoDup (before ++ t :: after)%list ->
  MainWindow._close_terminal_widget t
    (MainWindow.mkState (before ++ t :: after)%list c lf)
  = MainWindow.mkState (before ++ after)%list c
      match (before ++ after)%list with
      | [] => None
      | _ =>
          match lf with
          | Some f =>
              if (t =? f)%nat
              then match rev before, after with
                   | p :: _, _ => Some p
                   | [], n :: _ => Some n
                   | [], [] => None
                   end
              else Some f
          | None => nth_error (before ++ after)%list
                      (List.length (before ++ after)%list - 1)
          end
      end.
Proof.
  intros ND. destruct (NoDup_middle _ _ _ ND) as (Nb & Na & ND').
  unfold MainWindow._close_terminal_widget.
  cbn [MainWindow.terminals MainWindow.terminal_counter
       MainWindow.last_focused_terminal].
  assert (M : MainWindow.mem t (before ++ t :: after)%list = true)
    by (apply mem_In, in_or_app; right; now left).
  rewrite M, remove_middle, index_middle by exact Nb. cbn [negb].
  f_equal.
  destruct (before ++ after)%list as [|x rest] eqn:Eba; [reflexivity|].
  destruct lf as [f|]; [|reflexivity].
  destruct (t =? f)%nat eqn:Etf; [|reflexivity].
  cbn [MainWindow.is_some negb andb].
  assert (Hne : forall A B : option nat,
             match (before ++ t :: after)%list with
             | [] => A
             | _ :: _ => B
             end = B) by (intros; now destruct before).
  rewrite Hne. clear Hne.
  assert (C : before = [] \/ exists b' p, before = (b' ++ [p])%list).
  { destruct before as [|b0 before0]; [now left | right].
    destruct (exists_last (l := b0 :: before0) ltac:(discriminate))
      as (b' & p & E).
    now exists b', p. }
  destruct C as [->|(b' & p & ->)].
  - (* the first terminal is closed *)
    cbn [app List.length Nat.ltb Nat.leb rev] in *.
    destruct after as [|n after]; [discriminate Eba|].
    cbn [List.length Nat.ltb Nat.leb nth_error MainWindow.is_some andb].
    injection Eba as <- <-.
    cbn [MainWindow.mem existsb]. now rewrite Nat.eqb_refl.
  - (* the terminal before it takes the focus *)
    rewrite rev_app_distr. cbn [rev app].
    rewrite length_app. cbn [List.length].
    replace (0 <? List.length b' + 1)%nat with true
      by (symmetry; apply Nat.ltb_lt; lia).
    replace (List.length b' + 1 - 1) with (List.length b') by lia.
    rewrite <- app_assoc. cbn [app].
    rewrite nth_error_app2 by lia. rewrite Nat.sub_diag. cbn [nth_error].
    cbn [MainWindow.is_some andb].
    replace (MainWindow.mem p (x :: rest)) with true; [reflexivity|].
    symmetry. apply mem_In. rewrite <- Eba.
    apply in_or_app. left. apply in_or_app. right. now left.
Qed.

(** X21.  The window keeps its terminals in order: a new terminal gets a number
    that no terminal of the window has or had, and goes to the end of the
    list; closing a terminal removes it and no other; in both cases the
    terminals stay distinct and the terminal focused last is one of them,
    and after a terminal was closed it is never none of them while any is
    left. *)
Theorem window_terminals_stay_consistent :
  (forall s : MainWindow.State,
      consistent s ->
      consistent (snd (MainWindow._add_new_terminal_instance s)) /\
      ~ In (fst (MainWindow._add_new_terminal_instance s)) (MainWindow.terminals s) /\
      MainWindow.terminals (snd (MainWindow._add_new_terminal_instance s))
      = (MainWindow.terminals s
           ++ [fst (MainWindow._add_new_terminal_instance s)])%list)
  /\ (forall (t : nat) (s : MainWindow.State),
        consistent s ->
        consistent (MainWindow._close_terminal_widget t s) /\
        ~ In t (MainWindow.terminals (MainWindow._close_terminal_widget t s)) /\
        (forall u, u <> t ->
           (In u (MainWindow.terminals (MainWindow._close_terminal_widget t s))
            <-> In u (MainWindow.terminals s))) /\
        (In t (MainWindow.terminals s) ->
         MainWindow.terminals (MainWindow._close_terminal_widget t s) <> [] ->
         MainWindow.last_focused_terminal (MainWindow._close_terminal_widget t s)
         <> None)).
Proof.
  split.
  - intros [ts c lf] (ND & B & F).
    cbn [MainWindow._add_new_terminal_instance MainWindow.terminals
         MainWindow.terminal_counter MainWindow.last_focused_terminal fst snd] in *.
    assert (N : ~ In (c + 1) ts).
    { intros H. rewrite Forall_forall in B. specialize (B _ H). lia. }
    split; [|split; [exact N | reflexivity]].
    split; [|split].
    + apply NoDup_app; [exact ND | repeat constructor; auto |].
      intros x Hx [<-|[]]. now apply N.
    + apply Forall_app. split.
      * eapply Forall_impl; [|exact B]. cbn. intros; lia.
      * repeat constructor; lia.
    + destruct lf; [apply in_or_app; now left | exact I].
  - intros t [ts c lf] (ND & B & F).
    cbn [MainWindow.terminals MainWindow.terminal_counter
         MainWindow.last_focused_terminal] in *.
    destruct (in_dec Nat.eq_dec t ts) as [Hin|Hout].
    + destruct (in_split _ _ Hin) as (before & after & ->).
      destruct (NoDup_middle _ _ _ ND) as (Nb & Na & ND').
      rewrite (close_terminal_middle before after t c lf ND).
      cbn [MainWindow.terminals MainWindow.terminal_counter
           MainWindow.last_focused_terminal].
      assert (Hmem : forall u, u <> t ->
                 (In u (before ++ after)%list <-> In u (before ++ t :: after)%list)).
      { intros u Hu. rewrite !in_app_iff. cbn [In]. intuition congruence. }
      split; [|split; [|split; [exact Hmem|]]].
      * unfold consistent.
        cbn [MainWindow.terminals MainWindow.terminal_counter
             MainWindow.last_focused_terminal].
        split; [exact ND'|]. split.
        { apply Forall_app in B as [B1 B2]. apply Forall_app. split; [exact B1|].
          now inversion B2. }
        remember (before ++ after)%list as ba eqn:Eba.
        destruct ba as [|x rest]; [exact I|].
        destruct lf as [f|].
        { destruct (Nat.eqb_spec t f) as [<-|Hne].
          - destruct (rev before) as [|p rb] eqn:Er.
            + destruct after as [|n after']; [exact I|].
              rewrite Eba. apply in_or_app. right. now left.
            + rewrite Eba. apply in_or_app. left. apply in_rev.
              rewrite Er. now left.
          - apply Hmem; [congruence | exact F]. }
        { destruct (nth_error_In_last (x :: rest)) as (y & -> & Hy);
            [discriminate | exact Hy]. }
      * rewrite in_app_iff. tauto.
      * intros _ Hne.
        remember (before ++ after)%list as ba eqn:Eba.
        destruct ba as [|x rest]; [congruence|].
        destruct lf as [f|].
        { destruct (t =? f)%nat; [|discriminate].
          destruct (rev before) as [|p rb] eqn:Er; [|discriminate].
          destruct after as [|n after']; [|discriminate].
          apply (f_equal (@rev nat)) in Er. rewrite rev_involutive in Er.
          subst before. discriminate Eba. }
        { destruct (nth_error_In_last (x :: rest)) as (y & -> & Hy);
            [discriminate | discriminate]. }
    + assert (M : MainWindow.mem t ts = false).
      { destruct (MainWindow.mem t ts) eqn:E; [|reflexivity].
        apply mem_In in E. contradiction. }
      unfold MainWindow._close_terminal_widget.
      cbn [MainWindow.terminals]. rewrite M. cbn [negb MainWindow.terminals
        MainWindow.last_focused_terminal].
      split; [now repeat split|]. split; [exact Hout|]. split; [tauto|].
      intros H. contradiction.
Qed.

(** X22.  Closing the terminal that was focused last hands the focus to the
    terminal before it in the list, or, when it was the first one, to the
    one after it; closing another terminal leaves the focus where it
    was. *)
Theorem closing_the_focused_terminal_moves_the_focus
    (before after : list nat) (t c : nat) (lf : option nat) :
  consistent (MainWindow.mkState (before ++ t :: after)%list c lf) ->
  let s2 := MainWindow._close_terminal_widget t
              (MainWindow.mkState (before ++ t :: after)%list c lf) in
  MainWindow.terminals s2 = (before ++ after)%list /\
  (lf = Some t ->
   MainWindow.last_focused_terminal s2
   = match rev before, after with
     | p :: _, _ => Some p
     | [], n :: _ => Some n
     | [], [] => None
     end) /\
  (forall f, lf = Some f -> f <> t ->
             MainWindow.last_focused_terminal s2 = Some f).
Proof.
  intros (ND & B & F). cbv zeta.
  cbn [MainWindow.terminals MainWindow.last_focused_terminal] in *.
  rewrite (close_terminal_middle before after t c lf ND).
  cbn [MainWindow.terminals MainWindow.last_focused_terminal].
  split; [reflexivity|]. split.
  - intros ->. rewrite Nat.eqb_refl.
    destruct (before ++ after)%list as [|x rest] eqn:Eba; [|reflexivity].
    apply app_eq_nil in Eba as [-> ->]. reflexivity.
  - intros f -> Hne.
    destruct (Nat.eqb_spec t f) as [E|_]; [congruence|].
    destruct (before ++ after)%list as [|x rest] eqn:Eba; [|reflexivity].
    apply app_eq_nil in Eba as [-> ->]. cbn [app In] in F.
    destruct F as [E|[]]. congruence.
Qed.

Lemma closing_the_focused_terminal_witness :
  MainWindow._close_terminal_widget 2 (MainWindow.mkState [1; 2; 3] 3 (Some 2))
  = MainWindow.mkState [1; 3] 3 (Some 1)
  /\ MainWindow._close_terminal_widget 1 (MainWindow.mkState [1; 2; 3] 3 (Some 1))
     = MainWindow.mkState [2; 3] 3 (Some 2).
Proof.
  assert (C : forall lf, In lf [1; 2; 3] ->
                consistent (MainWindow.mkState [1; 2; 3] 3 (Some lf))).
  { intros lf H. split; [|split; [|exact H]].
    - repeat constructor; cbn; intuition lia.
    - repeat constructor; lia. }
  destruct (closing_the_focused_terminal_moves_the_focus [1] [3] 2 3 (Some 2)
              (C 2 ltac:(cbn; auto))) as (T1 & F1 & _).
  destruct (closing_the_focused_terminal_moves_the_focus [] [2; 3] 1 3 (Some 1)
              (C 1 ltac:(cbn; auto))) as (T2 & F2 & _).
  specialize (F1 eq_refl). specialize (F2 eq_refl).
  split; reflexivity.
Defined.

Lemma window_terminals_witness :
  consistent (snd (MainWindow._add_new_terminal_instance
                     (MainWindow.mkState [1; 2] 2 (Some 1)))) /\
  MainWindow.terminals
    (MainWindow._close_terminal_widget 1 (MainWindow.mkState [1; 2] 2 (Some 1)))
  = [2].
Proof.
  destruct window_terminals_stay_consistent as [A B].
  assert (C : consistent (MainWindow.mkState [1; 2] 2 (Some 1))).
  { split; [|split; [|now left]].
    - repeat constructor; cbn; intuition lia.
    - repeat constructor; lia. }
  split; [apply (A _ C) | reflexivity].
Defined.

(** * Resynchronisation and the boundary *)

(** ** An escape character outside every match *)

Lemma match_here_within (x y : string) (g : Groups) :
  match_here (x ++ y) = Some g -> width g <= String.length x ->
  match_here x = Some g.
Proof.
  intros H W. destruct (match_here_width _ _ H) as (m & rest & E & Q & Wm).
  destruct (append_prefix x y m rest E) as (z & ->); [lia|].
  now apply match_here_complete.
Qed.

Lemma match_here_short (x y : string) :
  match_here (x ++ y) = None -> match_here x = None.
Proof.
  intros H. destruct (match_here x) as [g|] eqn:E; [|reflexivity].
  apply (match_here_extend _ y) in E. congruence.
Qed.

Lemma strip_cut (a : string) :
  forall (skip pos : nat) (r : string),
    skip <= String.length a ->
    covered (pos + String.length a) (scan skip pos (a ++ String ESC r)) = false ->
    strip skip (a ++ String ESC r) = strip skip a ++ String ESC (strip 0 r).
Proof.
  induction a as [|c a IH]; intros skip pos r Hs Hc.
  - cbn [String.length] in Hs. assert (skip = 0) by lia. subst skip.
    cbn [append scan strip String.length] in *.
    destruct (match_here (String ESC r)) as [g|] eqn:E; [|reflexivity].
    exfalso. pose proof (width_positive _ _ E) as W.
    cbn [covered existsb to_match m_start m_end] in Hc.
    apply orb_false_iff in Hc as [Hc _].
    apply andb_false_iff in Hc as [Hc|Hc].
    + apply Nat.leb_gt in Hc. lia.
    + apply Nat.ltb_ge in Hc. lia.
  - cbn [append scan strip String.length] in *.
    destruct skip as [|k].
    + destruct (match_here (String c (a ++ String ESC r))) as [g|] eqn:E.
      * cbn [covered existsb to_match m_start m_end] in Hc.
        apply orb_false_iff in Hc as [Hc Hc'].
        assert (W : width g <= S (String.length a)).
        { apply andb_false_iff in Hc as [Hc|Hc].
          - apply Nat.leb_gt in Hc. lia.
          - apply Nat.ltb_ge in Hc. lia. }
        pose proof (width_positive _ _ E) as W2.
        rewrite (match_here_within (String c a) (String ESC r) g E W).
        apply (IH (width g - 1) (S pos)); [lia|].
        replace (S pos + String.length a) with (pos + S (String.length a)) by lia.
        exact Hc'.
      * rewrite (match_here_short (String c a) (String ESC r) E).
        cbn [append]. f_equal.
        apply (IH 0 (S pos)); [lia|].
        replace (S pos + String.length a) with (pos + S (String.length a)) by lia.
        exact Hc.
    + apply (IH k (S pos)); [lia|].
      replace (S pos + String.length a) with (pos + S (String.length a)) by lia.
      exact Hc.
Qed.

(** ** A sequence anywhere in a chunk *)

Lemma sequence_not_backslash (body : string) (g : Groups) :
  sequence (String ESC body) g -> ~ backslash_first body.
Proof.
  intros Q B. destruct body as [|c body]; [exact B|].
  cbn [backslash_first] in B. subst c.
  pose proof (match_here_complete _ _ Q "") as H.
  rewrite append_empty_r, match_here_backslash in H. discriminate.
Qed.

Lemma every_match_step (c : ascii) (s : string) (pos : nat) :
  every_match pos (String c s)
  = match match_here (String c s) with
    | Some g => to_match pos g :: every_match (S pos) s
    | None => every_match (S pos) s
    end.
Proof. reflexivity. Qed.

Lemma every_match_before_esc (a : string) :
  forall (pos : nat) (r : string),
    ~ backslash_first r ->
    every_match pos (a ++ String ESC r)
    = (every_match pos a ++ every_match (pos + String.length a) (String ESC r))%list.
Proof.
  induction a as [|c a IH]; intros pos r B.
  - cbn [append String.length every_match app]. now rewrite Nat.add_0_r.
  - cbn [append String.length].
    rewrite (every_match_step c (a ++ String ESC r) pos).
    rewrite (every_match_step c a pos), (IH (S pos) r B).
    replace (S pos + String.length a) with (pos + S (String.length a)) by lia.
    destruct (match_here (String c (a ++ String ESC r))) as [g|] eqn:E.
    + destruct (match_here_restrict c a r g E B) as [_ ->]. reflexivity.
    + now rewrite (match_here_short (String c a) (String ESC r) E).
Qed.

Lemma for_matches_app (text : string) (ms1 ms2 : list Match) :
  forall (last : nat) (w : TerminalWidget),
    for_matches text (ms1 ++ ms2)%list last w
    = (lw <- for_matches text ms1 last w ;;
       for_matches text ms2 (fst lw) (snd lw)).
Proof.
  induction ms1 as [|m ms1 IH]; intros last w; [reflexivity|].
  cbn [app for_matches].
  destruct (handle_match m _) as [w1| |]; cbn [bind]; auto.
Qed.

Lemma slice_prefix (pre x : string) (i j : nat) :
  i <= j -> j <= String.length pre ->
  slice i j (pre ++ x) = slice i j pre.
Proof.
  intros L1 L2. unfold slice. rewrite drop_append_le by lia.
  apply take_append_le. rewrite length_drop. lia.
Qed.

Lemma for_matches_prefix (pre x : string) (ms : list Match) :
  forall (last : nat) (w : TerminalWidget),
    in_order last (String.length pre) ms ->
    for_matches (pre ++ x) ms last w = for_matches pre ms last w.
Proof.
  induction ms as [|m ms IH]; intros last w H; [reflexivity|].
  cbn [in_order] in H. destruct H as (H1 & H2 & H3 & H4).
  cbn [for_matches]. rewrite slice_prefix by lia.
  destruct (handle_match m _) as [w1| |]; cbn [bind]; auto.
Qed.

Lemma for_matches_last (text : string) (upto : nat) (ms : list Match) :
  forall (last : nat) (w : TerminalWidget) (last2 : nat) (w2 : TerminalWidget),
    in_order last upto ms -> last <= upto ->
    for_matches text ms last w = Ok (last2, w2) -> last2 <= upto.
Proof.
  induction ms as [|m ms IH]; intros last w last2 w2 H L E.
  - cbn in E. injection E as <- _. exact L.
  - cbn [in_order] in H. destruct H as (H1 & H2 & H3 & H4).
    cbn [for_matches] in E.
    destruct (handle_match m _) as [w1| |]; cbn [bind] in E; try discriminate.
    apply (IH _ _ _ _ H4 H3 E).
Qed.

Lemma every_match_in_order (s : string) (pos : nat) :
  in_order pos (pos + String.length s) (every_match pos s).
Proof.
  rewrite <- scan_every_match. pose proof (scan_in_order s 0 pos) as H.
  now rewrite Nat.add_0_r in H.
Qed.

(** The matches of a chunk around one of its sequences. *)
Lemma finditer_at_sequence (pre m rest : string) (g : Groups) :
  sequence m g ->
  finditer (pre ++ m ++ rest)
  = (finditer pre
       ++ to_match (String.length pre) g
       :: every_match (String.length (pre ++ m)) rest)%list.
Proof.
  intros Hseq. unfold finditer. rewrite !scan_every_match.
  pose proof (match_here_complete _ _ Hseq rest) as H.
  destruct (sequence_interior _ _ Hseq) as (body & -> & Hw & Hst).
  assert (B : ~ backslash_first (body ++ rest)).
  { pose proof (sequence_not_backslash body g Hseq) as N.
    destruct body as [|c body]; [|exact N].
    pose proof (width_positive _ _ H). cbn [String.length] in Hw. lia. }
  cbn [append] in *. rewrite (every_match_before_esc pre 0 _ B).
  f_equal. rewrite every_match_step, H. cbn [Nat.add]. f_equal.
  rewrite (every_match_inert (String.length body))
    by (apply st_only_inert, Hst).
  rewrite drop_length_append, length_append. cbn [String.length].
  f_equal. lia.
Qed.

Lemma for_matches_tail (a rest : string) (w1 : TerminalWidget) :
  at_end w1 ->
  (lw <- for_matches (a ++ rest) (every_match (String.length a) rest)
           (String.length a) w1 ;;
   let (last, w) := (lw : nat * TerminalWidget) in
   let w := if (last <? String.length (a ++ rest))%nat
            then insert_styled (drop last (a ++ rest)) w
            else w in
   let w := QTextEdit.moveCursor_End w in
   Ok (set_input_start_pos (position w) w))
  = append_ansi_text rest w1.
Proof.
  intros E1.
  pose proof (for_matches_offset a rest rest 0 0 w1) as F.
  rewrite Nat.add_0_r in F. rewrite F. clear F.
  unfold append_ansi_text. rewrite (moveCursor_End_at_end w1 E1).
  unfold finditer. rewrite scan_every_match.
  destruct (for_matches rest (every_match 0 rest) 0 w1) as [[l wl]| |];
    cbn [bind fst snd]; [|reflexivity|reflexivity].
  replace (String.length a + l <? String.length (a ++ rest))%nat
    with (l <? String.length rest)%nat
    by (rewrite (length_append a rest);
        destruct (Nat.ltb_spec l (String.length rest));
        symmetry; [apply Nat.ltb_lt | apply Nat.ltb_ge]; lia).
  now rewrite <- (drop_drop l (String.length a)), drop_length_append.
Qed.

(** What [display] leaves. *)
Lemma display_spec (chunk : string) (w : TerminalWidget) :
  exists w0 new,
    display chunk w = Ok w0 /\
    at_end w0 /\
    same_session w w0 /\
    log w0 = (log w ++ new)%list /\
    forallb display_event new = true /\
    text_of_runs new = plain_text chunk /\
    (clears_screen chunk = false -> text w0 = text w ++ plain_text chunk) /\
    append_ansi_text chunk w = Ok (finish w0).
Proof.
  unfold display, append_ansi_text.
  assert (E0 : at_end (QTextEdit.moveCursor_End w)) by (destruct w; now split).
  assert (S0 : output_step w (QTextEdit.moveCursor_End w) "" false).
  { destruct w; widget_simpl. split; [now repeat split|]. split; [reflexivity|].
    split; [now split|]. exists []. cbn. rewrite app_nil_r, append_empty_r. auto. }
  destruct (for_matches_step chunk (finditer chunk) 0 _ E0) as (last & w1 & out & H & S1 & G).
  rewrite H. cbn [bind].
  set (w2 := if (last <? String.length chunk)%nat
             then insert_styled (drop last chunk) w1 else w1).
  assert (S2 : output_step w1 w2 (drop last chunk) false).
  { subst w2. destruct (last <? String.length chunk)%nat eqn:L.
    - apply insert_styled_step. eapply output_step_at_end; eassumption.
    - apply Nat.ltb_ge in L. rewrite drop_all by lia.
      apply output_step_refl. eapply output_step_at_end; eassumption. }
  pose proof (output_step_trans _ _ _ _ _ _ _ S0 (output_step_trans _ _ _ _ _ _ _ S1 S2)) as S.
  cbn [orb append] in S. rewrite G, gaps_finditer in S.
  destruct S as (SS & I & E2 & new & L & D & T & X).
  exists w2, new. split; [reflexivity|].
  split; [exact E2|]. split; [exact SS|]. split; [exact L|].
  split; [exact D|]. split; [exact T|]. split; [|reflexivity].
  unfold clears_screen. rewrite orb_false_r in X. exact X.
Qed.

(** A sequence anywhere in a chunk: what stands before it, whatever it is,
    is handled first; then the sequence is handled; then what follows it is
    handled as a chunk of its own. *)
Lemma append_ansi_text_at_sequence
    (pre m rest : string) (g : Groups) (w : TerminalWidget) :
  sequence m g ->
  append_ansi_text (pre ++ m ++ rest) w
  = (w0 <- display pre w ;;
     w1 <- handle_match (to_match (String.length pre) g) w0 ;;
     append_ansi_text rest w1).
Proof.
  intros Hseq.
  destruct (finditer_sequence _ _ Hseq) as [_ W].
  destruct (display_spec pre w) as (w0 & new & Hd & E0 & _).
  rewrite Hd. cbn [bind].
  unfold display in Hd. unfold append_ansi_text at 1.
  rewrite (finditer_at_sequence pre m rest g Hseq), for_matches_app.
  pose proof (every_match_in_order pre 0) as Ho. cbn [Nat.add] in Ho.
  unfold finditer in *. rewrite scan_every_match in *.
  rewrite (for_matches_prefix pre (m ++ rest) _ 0 _ Ho).
  destruct (for_matches pre (every_match 0 pre) 0 (QTextEdit.moveCursor_End w))
    as [[l1 w1]| |] eqn:E; cbn [bind] in Hd; try discriminate.
  pose proof (for_matches_last _ _ _ _ _ _ _ Ho (Nat.le_0_l _) E) as Ll.
  cbn [bind fst snd for_matches to_match m_start m_end].
  assert (Hslice : slice l1 (String.length pre) (pre ++ m ++ rest) = drop l1 pre).
  { rewrite slice_prefix by lia. unfold slice.
    apply take_all. rewrite length_drop. lia. }
  rewrite Hslice. injection Hd as Hd. rewrite Hd.
  destruct (handle_match_step (to_match (String.length pre) g) w0 E0)
    as (w2 & -> & _ & _ & E2 & _).
  cbn [bind].
  rewrite W, <- length_append, <- (append_assoc pre m rest).
  apply (for_matches_tail (pre ++ m) rest w2 E2).
Qed.

(** ** What a sequence does, wherever it stands *)

Lemma plain_text_uncovered_esc (a r : string) :
  covered (String.length a) (finditer (a ++ String ESC r)) = false ->
  plain_text (a ++ String ESC r) = plain_text a ++ String ESC (plain_text r).
Proof.
  intros H. unfold plain_text. apply (strip_cut a 0 0 r); [lia | exact H].
Qed.

(** A sequence followed by text without escape characters, after anything. *)
Lemma sequence_then_text
    (pre m post : string) (g : Groups) (w w0 w1 : TerminalWidget) :
  sequence m g ->
  esc_free post = true ->
  display pre w = Ok w0 ->
  handle_match (to_match (String.length pre) g) w0 = Ok w1 ->
  at_end w1 ->
  exists w2,
    append_ansi_text (pre ++ m ++ post) w = Ok w2 /\
    log w2 = (log w1 ++ run_of post (current_format w1))%list /\
    current_format w2 = current_format w1 /\
    text w2 = text w1 ++ post.
Proof.
  intros Hseq Hpost Hd Hm E1.
  rewrite (append_ansi_text_at_sequence pre m post g w Hseq), Hd. cbn [bind].
  rewrite Hm. cbn [bind].
  rewrite (append_ansi_text_no_match post w1 (finditer_esc_free post Hpost)).
  rewrite (moveCursor_End_at_end w1 E1).
  eexists. split; [reflexivity|].
  destruct (shown_at_end post w1 E1) as (T & L & F & _).
  destruct (finish_fields (shown post w1)) as (T' & L' & F' & _).
  now rewrite T', L', F', T, L, F.
Qed.

Lemma sgr_after_anything (pre run post : string) (w : TerminalWidget) :
  all_chars sgr_char run = true ->
  esc_free post = true ->
  exists w0 w1 w2,
    display pre w = Ok w0 /\
    handle_sgr run w0 = Ok w1 /\
    append_ansi_text (pre ++ String ESC (String "[" (run ++ "m")) ++ post) w
    = Ok w2 /\
    log w2 = (log w0 ++ run_of post (current_format w1))%list /\
    current_format w2 = current_format w1.
Proof.
  intros Hrun Hpost.
  destruct (display_spec pre w) as (w0 & new & Hd & E0 & _).
  pose proof (handle_sgr_effect run w0) as Hs.
  set (parts := if negb (is_empty run) then split ";" run else ["0"]) in Hs.
  destruct (restyled_fields w0 (sgr_effect parts w0)
              (sgr_effect_restyled _ parts w0 (Nat.le_refl _))) as (T1 & L1 & _ & E1).
  destruct (sequence_then_text pre _ post _ w w0 (sgr_effect parts w0)
              (seq_sgr run Hrun) Hpost Hd Hs (E1 E0))
    as (w2 & H & L & F & _).
  exists w0, (sgr_effect parts w0), w2.
  rewrite L1 in L. auto.
Qed.

Lemma reset_after_anything (pre post : string) (w : TerminalWidget) :
  esc_free post = true ->
  exists w0 w2,
    display pre w = Ok w0 /\
    append_ansi_text (pre ++ (esc ++ "[0m") ++ post) w = Ok w2 /\
    log w2 = (log w0 ++ run_of post default_format)%list /\
    current_format w2 = default_format.
Proof.
  intros Hpost.
  destruct (sgr_after_anything pre "0" post w eq_refl Hpost)
    as (w0 & w1 & w2 & Hd & Hs & H & L & F).
  rewrite (handle_sgr_single_code "0" 0 w0 eq_refl eq_refl eq_refl) in Hs.
  injection Hs as <-.
  assert (D : current_format (_apply_sgr_code 0 w0) = default_format)
    by now destruct w0.
  rewrite D in L, F. exists w0, w2. auto.
Qed.

Lemma colour_after_anything (pre post : string) (c : ascii) (w : TerminalWidget) :
  one_of "01234567" c = true ->
  esc_free post = true ->
  exists w0 w2 colour,
    display pre w = Ok w0 /\
    dict_get ANSI_SGR_CODES_TO_COLORS (30 + digit_value c) = Some colour /\
    append_ansi_text
      (pre ++ String ESC (String "[" (String "3" (String c "m"))) ++ post) w
    = Ok w2 /\
    log w2 = (log w0 ++ run_of post (setForeground colour (current_format w0)))%list /\
    current_format w2 = setForeground colour (current_format w0).
Proof.
  intros Hc Hpost.
  assert (Hrun : all_chars sgr_char (String "3" (String c "")) = true)
    by (split_one_of Hc; reflexivity).
  destruct (sgr_after_anything pre (String "3" (String c "")) post w Hrun Hpost)
    as (w0 & w1 & w2 & Hd & Hs & H & L & F).
  exists w0, w2.
  split_one_of Hc;
    match type of Hs with
    | handle_sgr ?run _ = _ =>
        match goal with
        | |- context [digit_value ?d] =>
            rewrite (handle_sgr_single_code run (30 + digit_value d) w0
                       eq_refl eq_refl eq_refl) in Hs
        end
    end;
    injection Hs as <-;
    eexists; (split; [exact Hd|]); (split; [reflexivity|]);
    (split; [exact H|]); (split; [exact L | exact F]).
Qed.

Lemma erase_display_after_anything (pre post : string) (w : TerminalWidget) :
  esc_free post = true ->
  exists w0 w2,
    display pre w = Ok w0 /\
    append_ansi_text (pre ++ (esc ++ "[2J") ++ post) w = Ok w2 /\
    log w2 = (log w0 ++ ScreenClear :: run_of post default_format)%list /\
    current_format w2 = default_format /\
    (verbatim post = true -> text w2 = post).
Proof.
  intros Hpost.
  destruct (display_spec pre w) as (w0 & new & Hd & E0 & _).
  set (w1 := _reset_char_format_to_default (QTextEdit.clear w0)).
  assert (Hm : handle_match (to_match (String.length pre)
                               (mkGroups 4 None None None (Some "2") (Some "J")
                                  None None)) w0 = Ok w1) by reflexivity.
  assert (E1 : at_end w1) by (subst w1; destruct w0; now split).
  destruct (sequence_then_text pre (esc ++ "[2J") post _ w w0 w1
              (seq_csi "2" "J" eq_refl eq_refl) Hpost Hd Hm E1)
    as (w2 & H & L & F & T).
  exists w0, w2. split; [exact Hd|]. split; [exact H|].
  assert (T1 : text w1 = "") by (subst w1; now destruct w0).
  assert (L1 : log w1 = (log w0 ++ [ScreenClear])%list) by (subst w1; now destruct w0).
  assert (F1 : current_format w1 = default_format) by (subst w1; now destruct w0).
  rewrite L, F, T, T1, L1, F1, <- app_assoc. auto.
Qed.

(** ** C8: totality and resynchronisation *)

(** C8.  [append_ansi_text] returns on every chunk, in every widget, and the
    text runs it inserts spell the chunk without the sequences of the
    pattern.  An escape character that opens none of the known forms stays
    in that text, wherever it stands in the chunk, and what comes before and
    after it is read as if it stood alone: this holds whenever the character
    lies in no match of the chunk, and in particular when it opens no match
    and is not followed by a backslash (with a backslash it may close an OSC
    that was begun before).  Every well-formed sequence is found by the
    scan, whatever precedes it in the chunk, corrupt or not: the matches are
    those found by trying the pattern at each position in turn.  And every
    such sequence is interpreted: what precedes it is handled first, then
    the sequence is handled on the widget that this leaves, then the rest of
    the chunk is handled as a chunk of its own.  So, after anything at all,
    a title sequence changes the title, an SGR sequence gives the format
    under which the text behind it is shown (the default format for the
    parameter 0, the colour of the table for 30 to 37), and the
    erase-display sequence with parameter 2 clears the text and resets the
    format. *)
Theorem C8_parser_total_and_resynchronising :
  (forall (chunk : string) (w : TerminalWidget),
      exists w2 new,
        append_ansi_text chunk w = Ok w2 /\
        log w2 = (log w ++ new)%list /\
        text_of_runs new = plain_text chunk)
  /\ (forall a r : string,
        match_here (String ESC r) = None -> ~ backslash_first r ->
        plain_text (a ++ String ESC r)
        = plain_text a ++ String ESC (plain_text r))
  /\ (forall chunk : string, finditer chunk = every_match 0 chunk)
  /\ (forall (pre m rest : string) (g : Groups),
        sequence m g ->
        In (to_match (String.length pre) g) (finditer (pre ++ m ++ rest)))
  /\ (forall (pre rest : string) (n : ascii) (payload term : string)
             (w : TerminalWidget),
        one_of "012" n = true ->
        all_chars osc_char payload = true ->
        term = bel \/ term = String ESC "\" ->
        payload <> "" ->
        exists w2,
          append_ansi_text
            (pre ++ String ESC (String "]" (String n (String ";" (payload ++ term))))
                 ++ rest) w = Ok w2 /\
          In (TitleChanged payload) (log w2))
  /\ (forall a r : string,
        covered (String.length a) (finditer (a ++ String ESC r)) = false ->
        plain_text (a ++ String ESC r)
        = plain_text a ++ String ESC (plain_text r))
  /\ (forall (pre : string) (w : TerminalWidget),
        exists w0 new,
          display pre w = Ok w0 /\
          log w0 = (log w ++ new)%list /\
          text_of_runs new = plain_text pre)
  /\ (forall (pre m rest : string) (g : Groups) (w : TerminalWidget),
        sequence m g ->
        append_ansi_text (pre ++ m ++ rest) w
        = (w0 <- display pre w ;;
           w1 <- handle_match (to_match (String.length pre) g) w0 ;;
           append_ansi_text rest w1))
  /\ (forall (pre run post : string) (w : TerminalWidget),
        all_chars sgr_char run = true ->
        esc_free post = true ->
        exists w0 w1 w2,
          display pre w = Ok w0 /\
          handle_sgr run w0 = Ok w1 /\
          append_ansi_text (pre ++ String ESC (String "[" (run ++ "m")) ++ post) w
          = Ok w2 /\
          log w2 = (log w0 ++ run_of post (current_format w1))%list /\
          current_format w2 = current_format w1)
  /\ (forall (pre post : string) (w : TerminalWidget),
        esc_free post = true ->
        exists w0 w2,
          display pre w = Ok w0 /\
          append_ansi_text (pre ++ (esc ++ "[0m") ++ post) w = Ok w2 /\
          log w2 = (log w0 ++ run_of post default_format)%list /\
          current_format w2 = default_format)
  /\ (forall (pre post : string) (c : ascii) (w : TerminalWidget),
        one_of "01234567" c = true ->
        esc_free post = true ->
        exists w0 w2 colour,
          display pre w = Ok w0 /\
          dict_get ANSI_SGR_CODES_TO_COLORS (30 + digit_value c) = Some colour /\
          append_ansi_text
            (pre ++ String ESC (String "[" (String "3" (String c "m"))) ++ post) w
          = Ok w2 /\
          log w2 = (log w0 ++ run_of post
                                (setForeground colour (current_format w0)))%list /\
          current_format w2 = setForeground colour (current_format w0))
  /\ (forall (pre post : string) (w : TerminalWidget),
        esc_free post = true ->
        exists w0 w2,
          display pre w = Ok w0 /\
          append_ansi_text (pre ++ (esc ++ "[2J") ++ post) w = Ok w2 /\
          log w2 = (log w0 ++ ScreenClear :: run_of post default_format)%list /\
          current_format w2 = default_format /\
          (verbatim post = true -> text w2 = post)).
Proof.
  assert (Hfound : forall (pre m rest : string) (g : Groups),
             sequence m g ->
             In (to_match (String.length pre) g) (finditer (pre ++ m ++ rest))).
  { intros pre m rest g Hseq. unfold finditer. rewrite scan_every_match.
    apply (every_match_at pre (m ++ rest) 0 g).
    now apply match_here_complete. }
  repeat match goal with |- _ /\ _ => split end.
  - intros chunk w.
    destruct (append_ansi_text_spec chunk w) as (w2 & H & _ & _ & _ & new & L & _ & T & _).
    now exists w2, new.
  - intros a r Hnone Hr. unfold plain_text. apply strip_split; [lia | exact Hnone | exact Hr].
  - intros chunk. apply scan_every_match.
  - exact Hfound.
  - intros pre rest n payload term w. apply osc_title_anywhere.
  - exact plain_text_uncovered_esc.
  - intros pre w.
    destruct (display_spec pre w) as (w0 & new & Hd & _ & _ & L & _ & T & _).
    now exists w0, new.
  - intros pre m rest g w. apply append_ansi_text_at_sequence.
  - exact sgr_after_anything.
  - exact reset_after_anything.
  - exact colour_after_anything.
  - exact erase_display_after_anything.
Qed.

(** A corrupt sequence followed by a title sequence and by text: the first
    stays as text, the second changes the title.  An escape character
    before a backslash that closes nothing stays as text.  A corrupt
    sequence followed by an SGR sequence and by text: the text is shown in
    bold and red. *)
Lemma C8_resynchronisation_witness :
  plain_text (esc ++ "[?25h" ++ esc ++ "]2;shell" ++ bel ++ "ok")
  = esc ++ "[?25h" ++ "ok"
  /\ (exists w2,
        append_ansi_text (esc ++ "[?25h" ++ esc ++ "]2;shell" ++ bel ++ "ok")
          fresh_widget = Ok w2 /\
        In (TitleChanged "shell") (log w2))
  /\ plain_text ("x" ++ String ESC "\y") = "x" ++ String ESC "\y"
  /\ (exists w2,
        append_ansi_text
          ((esc ++ "[?25h") ++ String ESC (String "[" ("1;31" ++ "m")) ++ "X")
          fresh_widget = Ok w2 /\
        log w2 = [TextRun (esc ++ "[?25h") default_format;
                  TextRun "X" (mkFormat "#CD0000" "black" Weight.Bold false false)]).
Proof.
  destruct C8_parser_total_and_resynchronising
    as (_ & _ & _ & _ & Hosc & Hesc & _ & _ & Hsgr & _).
  split; [reflexivity|]. split; [|split].
  - exact (Hosc (esc ++ "[?25h") "ok" "2"%char "shell" bel fresh_widget
             eq_refl eq_refl (or_introl eq_refl) ltac:(discriminate)).
  - exact (Hesc "x" "\y" eq_refl).
  - destruct (Hsgr (esc ++ "[?25h") "1;31" "X" fresh_widget eq_refl eq_refl)
      as (w0 & w1 & w2 & Hd & Hs & H & L & _).
    exists w2. split; [exact H|].
    vm_compute in Hd. injection Hd as <-.
    vm_compute in Hs. injection Hs as <-.
    exact L.
Defined.

(** ** C10: the boundary after output *)

(** The erase-display sequence arrives while [ls] is typed at the prompt and
    not sent: the typed text is not kept before the boundary, it is gone. *)
Lemma C10_erase_display_discards_typed_input :
  ~ (exists w2,
        append_ansi_text (esc ++ "[2J") (widget_with "prompt> ls" 8 true) = Ok w2 /\
        take 10 (text w2) = "prompt> ls").
Proof.
  intros (w2 & H & T). vm_compute in H. injection H as <-. discriminate T.
Qed.

(** C10.  After [append_ansi_text], on any chunk and in any widget, the
    input boundary is the end of the text: nothing is selected, the caret
    is at the end and nothing stands between boundary and end, and no
    deletion key changes the text.  Unless the chunk holds the erase-display
    sequence with parameter 2, the text shown before, with whatever the user
    had typed and not sent, is still there, now before the boundary (and
    what follows it is the chunk without its sequences, when that is text
    the widget keeps as it is).  With that sequence in the chunk everything
    before it is erased, typed text included: the text is what the rest of
    the chunk shows. *)
Theorem C10_output_moves_boundary_to_end (chunk : string) (w : TerminalWidget) :
  exists w2,
    append_ansi_text chunk w = Ok w2 /\
    input_start_pos w2 = String.length (text w2) /\
    position w2 = String.length (text w2) /\
    QTextEdit.hasSelection w2 = false /\
    drop (input_start_pos w2) (QTextEdit.toPlainText w2) = "" /\
    (clears_screen chunk = false ->
       take (String.length (text w)) (text w2) = text w /\
       String.length (text w) <= input_start_pos w2 /\
       (verbatim (plain_text chunk) = true ->
        text w2 = text w ++ plain_text chunk)) /\
    (forall pre rest : string,
        chunk = pre ++ (esc ++ "[2J") ++ rest ->
        clears_screen rest = false ->
        verbatim (plain_text rest) = true ->
        text w2 = plain_text rest) /\
    (forall ev : QKeyEvent,
        is_deletion ev = true ->
        exists w3, keyPressEvent ev w2 = Ok w3 /\ text w3 = text w2).
Proof.
  destruct (append_ansi_text_spec chunk w)
    as (w2 & H & _ & [Ea Ep] & Hb & new & _ & _ & _ & X).
  assert (Hsel : QTextEdit.hasSelection w2 = false).
  { unfold QTextEdit.hasSelection. rewrite Ea, Ep, Nat.eqb_refl. reflexivity. }
  exists w2. split; [exact H|]. split; [exact Hb|]. split; [exact Ep|].
  split; [exact Hsel|]. split; [|split; [|split]].
  - unfold QTextEdit.toPlainText. apply drop_all. lia.
  - intros C. specialize (X C). split; [|split].
    + rewrite X. apply take_length_append.
    + rewrite Hb, X, length_append. lia.
    + intros _. exact X.
  - intros pre rest -> C V.
    rewrite (append_ansi_text_at_sequence pre (esc ++ "[2J") rest _ w
               (seq_csi "2" "J" eq_refl eq_refl)) in H.
    destruct (display_spec pre w) as (w0 & new0 & Hd & E0 & _).
    rewrite Hd in H. cbn [bind] in H.
    set (w1 := _reset_char_format_to_default (QTextEdit.clear w0)) in *.
    change (handle_match _ w0) with (Ok w1) in H. cbn [bind] in H.
    destruct (append_ansi_text_spec rest w1)
      as (w2' & H' & _ & _ & _ & new' & _ & _ & _ & X').
    rewrite H' in H. injection H as <-.
    rewrite (X' C). subst w1. now destruct w0.
  - intros ev Hdel.
    destruct (deletion_without_selection ev w2 Hdel Hsel)
      as (w3 & H3 & _ & _ & _ & _ & T).
    exists w3. split; [exact H3 | now apply T].
Qed.

(** [ls] typed at the prompt and not sent, then a line of output: the
    boundary is behind all of it. *)
Lemma C10_typed_text_witness :
  exists w2,
    append_ansi_text ("done" ++ nl) (widget_with "prompt> ls" 8 true) = Ok w2 /\
    text w2 = "prompt> ls" ++ "done" ++ nl /\
    input_start_pos w2 = 15.
Proof.
  destruct (C10_output_moves_boundary_to_end ("done" ++ nl)
              (widget_with "prompt> ls" 8 true))
    as (w2 & H & Hb & _ & _ & _ & X & _).
  exists w2. split; [exact H|].
  destruct (X eq_refl) as (_ & _ & T). specialize (T eq_refl).
  split; [exact T|]. rewrite Hb, T. reflexivity.
Defined.
